(** * primrose-mcp-gcloud: the tool façade over the Google Cloud REST APIs

    A shallow embedding of [src/client.ts], [src/utils/formatters.ts],
    the tool handlers of [src/tools/*.ts] and the connection tool of
    [src/index.ts], followed by the properties of the specification.

    Conventions of the embedding.
    - A JavaScript string is the list of its UTF-16 code units.
    - A JavaScript number is a double. One that is an integer of at most
      2^53 - 1 in absolute value is that integer ([VNum]); any other one is
      kept as the text that [String] and [JSON.stringify] print for it
      ([VReal]). [exact] says of a value that its numbers are kept so; the
      status codes, sizes and counts that this code computes with are
      integers of the first kind.
    - An object is the list of its own enumerable properties in the order
      [Object.keys] lists them. [get] reads the own properties of a value;
      [inherits] tells when a read would find a member of the prototype
      instead ([constructor], [toString], [entries] on an array, ...), and
      the statements that depend on such a read exclude it.
    - An [async] function is a computation over the log of the HTTP
      requests handed to [fetch]; the answers of the network are given by
      a transport that may depend on everything sent so far. *)

From Stdlib Require Import List NArith ZArith String Ascii Bool Lia.
From Stdlib Require Import DecimalString.
From Stdlib Require Import DecimalZ.
Import ListNotations.

Set Implicit Arguments.
Set Warnings "-register-all".

Open Scope string_scope.
Open Scope list_scope.

(* ================================================================== *)
(** ** Strings *)
(* ================================================================== *)

Module JS.

Definition jsstring := list N.

Definition lit (s : string) : jsstring :=
  map N_of_ascii (list_ascii_of_string s).

Definition cat (a b : jsstring) : jsstring := a ++ b.

Fixpoint join (sep : jsstring) (parts : list jsstring) : jsstring :=
  match parts with
  | [] => []
  | [p] => p
  | p :: rest => p ++ sep ++ join sep rest
  end.

Definition substring (s : jsstring) (from to : nat) : jsstring :=
  firstn (to - from) (skipn from s).

Fixpoint eqb (a b : jsstring) : bool :=
  match a, b with
  | [], [] => true
  | x :: a', y :: b' => N.eqb x y && eqb a' b'
  | _, _ => false
  end.

Fixpoint starts_with (p s : jsstring) : bool :=
  match p, s with
  | [], _ => true
  | x :: p', y :: s' => N.eqb x y && starts_with p' s'
  | _ :: _, [] => false
  end.

(** [String(n)] for an integer [n] below 10^21 in absolute value: its
    decimal digits. *)
Definition of_Z (n : Z) : jsstring := lit (NilZero.string_of_int (Z.to_int n)).

Definition dq : jsstring := [34%N].
Definition nl : jsstring := [10%N].

End JS.

Export JS(jsstring, lit).
Coercion JS.lit : string >-> JS.jsstring.
Infix "+++" := JS.cat (at level 60, right associativity).

(* ================================================================== *)
(** ** Values, exceptions *)
(* ================================================================== *)

(** The values that reach this code: [undefined], and what [JSON.parse]
    and the validated tool arguments are made of. *)
Inductive value : Type :=
| VUndefined
| VNull
| VBool (b : bool)
| VNum (n : Z)
| VReal (text : jsstring)
| VStr (s : jsstring)
| VArr (items : list value)
| VObj (props : list (jsstring * value)).

(** What this code throws, or lets the platform throw. The first five are
    the classes of [utils/errors.ts], with the arguments the call sites of
    [client.ts] give to their constructors; the message of
    [GCloudApiError] is whatever truthy value the error body held. The
    others are the platform's: a property read on [undefined] or [null]
    and a rejected [fetch] ([TypeError]), [response.json()] on a body that
    is not JSON ([SyntaxError]), [btoa]/[atob] ([InvalidCharacterError]),
    [encodeURIComponent] on a lone surrogate ([URIError]). The last one is
    a thrown value that is not an instance of [Error] (a [catch] clause
    receives an [unknown]), known by the text that [String] makes of it;
    a value that [String] cannot convert is none of these, and
    [formatError_value] tells what becomes of it. *)
Inductive Exn : Type :=
| RateLimitError (message : jsstring) (retryAfter : option Z)
| AuthenticationError (message : jsstring)
| PermissionDeniedError (message : jsstring)
| NotFoundError (resource id : jsstring)
| GCloudApiError (message : value) (statusCode : Z)
| TypeError
| SyntaxError
| InvalidCharacterError
| URIError
| NotAnError (text : jsstring).

(** [error instanceof Error] *)
Definition instanceof_Error (error : Exn) : bool :=
  match error with
  | NotAnError _ => false
  | _ => true
  end.

(** [Exn + A]: a computation that returned or threw. *)
Definition result (A : Type) : Type := (Exn + A)%type.

Definition truthy (v : value) : bool :=
  match v with
  | VUndefined | VNull => false
  | VBool b => b
  | VNum n => negb (Z.eqb n 0)
  | VReal _ => true
  | VStr s => match s with [] => false | _ => true end
  | VArr _ | VObj _ => true
  end.

(** [a || b] *)
Definition or_else (a b : value) : value := if truthy a then a else b.

(** [typeof v === 'object'] *)
Definition typeof_object (v : value) : bool :=
  match v with
  | VNull | VArr _ | VObj _ => true
  | _ => false
  end.

Fixpoint lookup (k : jsstring) (props : list (jsstring * value)) : value :=
  match props with
  | [] => VUndefined
  | (k', v) :: rest => if JS.eqb k k' then v else lookup k rest
  end.

(** A canonical array index: the decimal digits of a natural number,
    without a leading zero. *)
Definition index_of_key (k : jsstring) : option nat :=
  match k with
  | [] => None
  | [48%N] => Some 0
  | 48%N :: _ => None
  | _ =>
      if forallb (fun c => (48 <=? c)%N && (c <=? 57)%N) k
      then Some (fold_left (fun acc c => 10 * acc + N.to_nat (c - 48)) k 0)
      else None
  end.

(** [v[k]] for an own property [k] of [v], or for a [k] that [v] neither
    has nor inherits: throws on [undefined] and [null]; strings and arrays
    answer their indices and [length]. *)
Definition get (v : value) (k : jsstring) : result value :=
  match v with
  | VUndefined | VNull => inl TypeError
  | VObj props => inr (lookup k props)
  | VArr items =>
      match index_of_key k with
      | Some i => inr (nth i items VUndefined)
      | None =>
          if JS.eqb k "length" then inr (VNum (Z.of_nat (List.length items)))
          else inr VUndefined
      end
  | VStr s =>
      match index_of_key k with
      | Some i =>
          inr (match nth_error s i with Some c => VStr [c] | None => VUndefined end)
      | None =>
          if JS.eqb k "length" then inr (VNum (Z.of_nat (List.length s)))
          else inr VUndefined
      end
  | VBool _ | VNum _ | VReal _ => inr VUndefined
  end.

(** [v?.[k]] *)
Definition get_opt (v : value) (k : jsstring) : value :=
  match get v k with
  | inl _ => VUndefined
  | inr x => x
  end.

(** [Object.keys(v)] for a [v] with [typeof v === 'object'], not [null]. *)
Definition Object_keys (v : value) : list jsstring :=
  match v with
  | VObj props => map fst props
  | VArr items => map (fun i => JS.of_Z (Z.of_nat i)) (seq 0 (List.length items))
  | _ => []
  end.

(* ================================================================== *)
(** ** [JSON.stringify] *)
(* ================================================================== *)

Module JSON.

Definition hex_digit (n : N) : N :=
  if (n <? 10)%N then (48 + n)%N else (87 + n)%N.

(** [\uXXXX], lower-case digits. *)
Definition unicode_escape (c : N) : jsstring :=
  lit "\u" ++ [hex_digit (c / 4096 mod 16); hex_digit (c / 256 mod 16);
               hex_digit (c / 16 mod 16); hex_digit (c mod 16)]%N.

Definition is_high_surrogate (c : N) : bool := (55296 <=? c)%N && (c <=? 56319)%N.
Definition is_low_surrogate (c : N) : bool := (56320 <=? c)%N && (c <=? 57343)%N.

Definition escape_unit (c : N) : jsstring :=
  if (c =? 8)%N then lit "\b"
  else if (c =? 9)%N then lit "\t"
  else if (c =? 10)%N then lit "\n"
  else if (c =? 12)%N then lit "\f"
  else if (c =? 13)%N then lit "\r"
  else if (c =? 34)%N then [92; 34]%N
  else if (c =? 92)%N then [92; 92]%N
  else if (c <? 32)%N then unicode_escape c
  else if is_low_surrogate c then unicode_escape c
  else [c].

(** The characters between the quotes: a surrogate pair goes through, a
    lone surrogate is escaped. *)
Fixpoint quote_body (s : jsstring) : jsstring :=
  match s with
  | [] => []
  | c :: rest =>
      if is_high_surrogate c then
        match rest with
        | d :: rest' =>
            if is_low_surrogate d then c :: d :: quote_body rest'
            else unicode_escape c ++ quote_body rest
        | [] => unicode_escape c
        end
      else escape_unit c ++ quote_body rest
  end.

Definition quote (s : jsstring) : jsstring := JS.dq ++ quote_body s ++ JS.dq.

Definition gap : jsstring := lit "  ".

(** The text of [v] at the indentation [indent]; [None] is the
    [undefined] that [JSON.stringify] answers for [undefined]. In an array
    [undefined] prints as [null]; in an object the property is left out. *)
Fixpoint serialize (indent : jsstring) (v : value) : option jsstring :=
  match v with
  | VUndefined => None
  | VNull => Some (lit "null")
  | VBool true => Some (lit "true")
  | VBool false => Some (lit "false")
  | VNum n => Some (JS.of_Z n)
  | VReal t => Some t
  | VStr s => Some (quote s)
  | VArr items =>
      let stepback := indent in
      let indent := indent ++ gap in
      let partial :=
        (fix elements (l : list value) : list jsstring :=
           match l with
           | [] => []
           | x :: l' =>
               match serialize indent x with
               | None => lit "null"
               | Some t => t
               end :: elements l'
           end) items in
      match partial with
      | [] => Some (lit "[]")
      | _ =>
          Some (lit "[" ++ JS.nl ++ indent
                  ++ JS.join (lit "," ++ JS.nl ++ indent) partial
                  ++ JS.nl ++ stepback ++ lit "]")
      end
  | VObj props =>
      let stepback := indent in
      let indent := indent ++ gap in
      let partial :=
        (fix members (l : list (jsstring * value)) : list jsstring :=
           match l with
           | [] => []
           | (k, x) :: l' =>
               match serialize indent x with
               | None => members l'
               | Some t => (quote k ++ lit ": " ++ t) :: members l'
               end
           end) props in
      match partial with
      | [] => Some (lit "{}")
      | _ =>
          Some (lit "{" ++ JS.nl ++ indent
                  ++ JS.join (lit "," ++ JS.nl ++ indent) partial
                  ++ JS.nl ++ stepback ++ lit "}")
      end
  end.

(** [JSON.stringify(v, null, 2)] *)
Definition stringify (v : value) : option jsstring := serialize [] v.

(** [JSON.stringify(v)], without indentation. *)
Fixpoint compact (v : value) : option jsstring :=
  match v with
  | VUndefined => None
  | VNull => Some (lit "null")
  | VBool true => Some (lit "true")
  | VBool false => Some (lit "false")
  | VNum n => Some (JS.of_Z n)
  | VReal t => Some t
  | VStr s => Some (quote s)
  | VArr items =>
      Some (lit "["
              ++ JS.join (lit ",")
                   ((fix elements (l : list value) : list jsstring :=
                       match l with
                       | [] => []
                       | x :: l' =>
                           match compact x with
                           | None => lit "null"
                           | Some t => t
                           end :: elements l'
                       end) items)
              ++ lit "]")
  | VObj props =>
      Some (lit "{"
              ++ JS.join (lit ",")
                   ((fix members (l : list (jsstring * value)) : list jsstring :=
                       match l with
                       | [] => []
                       | (k, x) :: l' =>
                           match compact x with
                           | None => members l'
                           | Some t => (quote k ++ lit ":" ++ t) :: members l'
                           end
                       end) props)
              ++ lit "}")
  end.

End JSON.

(* ================================================================== *)
(** ** [btoa] and [atob] *)
(* ================================================================== *)

Module Base64.

Definition pad : N := 61%N.

(** The alphabet of RFC 4648, table 1. *)
Definition char_of (n : N) : N :=
  if (n <? 26)%N then (65 + n)%N
  else if (n <? 52)%N then (71 + n)%N
  else if (n <? 62)%N then (n - 4)%N
  else if (n =? 62)%N then 43%N
  else 47%N.

Definition value_of (c : N) : option N :=
  if (65 <=? c)%N && (c <=? 90)%N then Some (c - 65)%N
  else if (97 <=? c)%N && (c <=? 122)%N then Some (c - 71)%N
  else if (48 <=? c)%N && (c <=? 57)%N then Some (c + 4)%N
  else if (c =? 43)%N then Some 62%N
  else if (c =? 47)%N then Some 63%N
  else None.

Fixpoint encode (bytes : list N) : list N :=
  match bytes with
  | [] => []
  | [a] => [char_of (a / 4); char_of (a mod 4 * 16); pad; pad]%N
  | [a; b] =>
      [char_of (a / 4); char_of (a mod 4 * 16 + b / 16);
       char_of (b mod 16 * 4); pad]%N
  | a :: b :: c :: rest =>
      (char_of (a / 4) :: char_of (a mod 4 * 16 + b / 16)
       :: char_of (b mod 16 * 4 + c / 64) :: char_of (c mod 64)
       :: encode rest)%N
  end.

(** [btoa(s)]: throws when [s] holds a code unit above 0xFF. *)
Definition btoa (s : jsstring) : result jsstring :=
  if forallb (fun c => (c <=? 255)%N) s then inr (encode s)
  else inl InvalidCharacterError.

Definition is_ascii_whitespace (c : N) : bool :=
  (c =? 9)%N || (c =? 10)%N || (c =? 12)%N || (c =? 13)%N || (c =? 32)%N.

(** One or two [=] at the end of the data are removed. *)
Fixpoint strip_padding (d : list N) : list N :=
  match d with
  | [] => []
  | [a] => if (a =? pad)%N then [] else [a]
  | [a; b] =>
      if (b =? pad)%N then (if (a =? pad)%N then [] else [a]) else [a; b]
  | a :: ((_ :: _ :: _) as rest) => a :: strip_padding rest
  end.

Fixpoint sextets (d : list N) : option (list N) :=
  match d with
  | [] => Some []
  | c :: rest =>
      match value_of c, sextets rest with
      | Some v, Some vs => Some (v :: vs)
      | _, _ => None
      end
  end.

(** 24 bits at a time; 12 left over give one byte, 18 give two. *)
Fixpoint decode (v : list N) : list N :=
  match v with
  | x :: y :: z :: w :: rest =>
      ((x * 4 + y / 16) :: (y mod 16 * 16 + z / 4) :: (z mod 4 * 64 + w)
       :: decode rest)%N
  | [x; y; z] => [x * 4 + y / 16; y mod 16 * 16 + z / 4]%N
  | [x; y] => [x * 4 + y / 16]%N
  | _ => []
  end.

(** [atob(d)], the forgiving-base64 decode of the HTML standard. *)
Definition atob (d : jsstring) : result jsstring :=
  let d := filter (fun c => negb (is_ascii_whitespace c)) d in
  let d := if Nat.eqb (List.length d mod 4) 0 then strip_padding d else d in
  if Nat.eqb (List.length d mod 4) 1 then inl InvalidCharacterError
  else
    match sextets d with
    | None => inl InvalidCharacterError
    | Some v => inr (decode v)
    end.

End Base64.

(* ================================================================== *)
(** ** [encodeURIComponent] and [URLSearchParams] *)
(* ================================================================== *)

Module URI.

(** The code points of a string; [None] stands for a lone surrogate. *)
Fixpoint code_points (s : jsstring) : list (option N) :=
  match s with
  | [] => []
  | c :: rest =>
      if JSON.is_high_surrogate c then
        match rest with
        | d :: rest' =>
            if JSON.is_low_surrogate d
            then Some (65536 + (c - 55296) * 1024 + (d - 56320))%N :: code_points rest'
            else None :: code_points rest
        | [] => [None]
        end
      else if JSON.is_low_surrogate c then None :: code_points rest
      else Some c :: code_points rest
  end.

Definition utf8 (cp : N) : list N :=
  if (cp <? 128)%N then [cp]
  else if (cp <? 2048)%N then [192 + cp / 64; 128 + cp mod 64]%N
  else if (cp <? 65536)%N then
    [224 + cp / 4096; 128 + cp / 64 mod 64; 128 + cp mod 64]%N
  else
    [240 + cp / 262144; 128 + cp / 4096 mod 64; 128 + cp / 64 mod 64;
     128 + cp mod 64]%N.

Definition upper_hex (n : N) : N :=
  if (n <? 10)%N then (48 + n)%N else (55 + n)%N.

Definition percent (byte : N) : jsstring :=
  [37; upper_hex (byte / 16); upper_hex (byte mod 16)]%N.

Definition is_alphanumeric (c : N) : bool :=
  ((65 <=? c) && (c <=? 90) || (97 <=? c) && (c <=? 122)
   || (48 <=? c) && (c <=? 57))%N.

(** [A-Z a-z 0-9 - _ . ! ~ * ' ( )] *)
Definition is_unreserved (c : N) : bool :=
  is_alphanumeric c
  || existsb (N.eqb c) [45; 95; 46; 33; 126; 42; 39; 40; 41]%N.

Fixpoint encode_points (cps : list (option N)) : result jsstring :=
  match cps with
  | [] => inr []
  | None :: _ => inl URIError
  | Some cp :: rest =>
      match encode_points rest with
      | inl e => inl e
      | inr t =>
          inr ((if is_unreserved cp then [cp] else flat_map percent (utf8 cp)) ++ t)
      end
  end.

Definition encodeURIComponent (s : jsstring) : result jsstring :=
  encode_points (code_points s).

(** The serializer of [application/x-www-form-urlencoded]: a lone
    surrogate becomes U+FFFD, a space becomes [+]. *)
Definition form_byte (b : N) : jsstring :=
  if (b =? 32)%N then [43%N]
  else if is_alphanumeric b || existsb (N.eqb b) [42; 45; 46; 95]%N then [b]
  else percent b.

Definition form_encode (s : jsstring) : jsstring :=
  flat_map
    (fun cp => flat_map form_byte
                 (utf8 (match cp with Some c => c | None => 65533%N end)))
    (code_points s).

(** [params.toString()] for the parameters set so far, in order. *)
Definition search_params (params : list (jsstring * jsstring)) : jsstring :=
  JS.join (lit "&")
    (map (fun kv => form_encode (fst kv) ++ lit "=" ++ form_encode (snd kv)) params).

End URI.

(* ================================================================== *)
(** ** The transport and the monad of [async] code *)
(* ================================================================== *)

(** The two fields of [RequestInit] that the client sets. No call site
    passes [headers], so [options.headers || {}] is always [{}]. *)
Record RequestInit : Type := {
  method : option jsstring;
  body : option jsstring
}.

(** What [fetch] is called with. *)
Record Request : Type := {
  req_url : jsstring;
  req_method : option jsstring;
  req_headers : list (jsstring * jsstring);
  req_body : option jsstring
}.

(** What [request] reads of a [Response]: the status, the [Retry-After]
    header, and the body as [JSON.parse] sees it ([None] when the text is
    not JSON). *)
Record Response : Type := {
  status : Z;
  retry_after : option jsstring;
  json : option value
}.

(** [response.ok] *)
Definition ok (r : Response) : bool :=
  (200 <=? status r)%Z && (status r <=? 299)%Z.

(** [fetch] called without a method sends a GET. *)
Definition effective_method (r : Request) : jsstring :=
  match req_method r with
  | Some m => m
  | None => lit "GET"
  end.

(** An [async] computation: it extends the log of the requests handed to
    [fetch] and returns or throws. *)
Definition M (A : Type) : Type := list Request -> result A * list Request.

Definition ret {A} (a : A) : M A := fun log => (inr a, log).

Definition throw {A} (e : Exn) : M A := fun log => (inl e, log).

Definition bind {A B} (m : M A) (k : A -> M B) : M B :=
  fun log =>
    match m log with
    | (inr a, log') => k a log'
    | (inl e, log') => (inl e, log')
    end.

Definition try_catch {A} (m : M A) (handler : Exn -> M A) : M A :=
  fun log =>
    match m log with
    | (inl e, log') => handler e log'
    | r => r
    end.

(** A synchronous expression that may throw. *)
Definition lift {A} (r : result A) : M A :=
  match r with
  | inl e => throw e
  | inr a => ret a
  end.

Notation "x <- m ;; k" := (bind m (fun x => k))
  (at level 61, m at next level, right associativity).
Notation "m ;;; k" := (bind m (fun _ => k))
  (at level 61, right associativity).

(** The requests a computation adds to an empty log. *)
Definition issued {A} (m : M A) : list Request := snd (m []).

(** [parseInt(s, 10)] while the digits spell an integer of at most
    2^53 - 1, which a double holds as it is; [None] is [NaN]. *)
Module ParseInt.

Definition is_whitespace (c : N) : bool :=
  existsb (N.eqb c)
    [9; 10; 11; 12; 13; 32; 160; 5760; 8232; 8233; 8239; 8287; 12288; 65279]%N
  || (8192 <=? c)%N && (c <=? 8202)%N.

Definition is_digit (c : N) : bool := (48 <=? c)%N && (c <=? 57)%N.

Fixpoint skip_whitespace (s : jsstring) : jsstring :=
  match s with
  | c :: rest => if is_whitespace c then skip_whitespace rest else s
  | [] => []
  end.

Fixpoint digits (s : jsstring) (seen : bool) (acc : Z) : option Z :=
  match s with
  | c :: rest =>
      if is_digit c then digits rest true (10 * acc + Z.of_N (c - 48))%Z
      else if seen then Some acc else None
  | [] => if seen then Some acc else None
  end.

Definition parseInt (s : jsstring) : option Z :=
  match skip_whitespace s with
  | 45%N :: rest => option_map Z.opp (digits rest false 0%Z)
  | 43%N :: rest => digits rest false 0%Z
  | rest => digits rest false 0%Z
  end.

End ParseInt.

(* ================================================================== *)
(** ** [client.ts] *)
(* ================================================================== *)

(** Modelled from the spec: [types/env.ts] is not among the sources. The
    tenant credentials are the per-request bearer token and the project
    identifier; either header may be missing. *)
Record TenantCredentials : Type := {
  accessToken : option jsstring;
  projectId : option jsstring
}.

(** The properties of an error object that this code reads. *)
Record ErrorFields : Type := {
  err_name : value;
  err_message : value;
  err_code : value;
  err_statusCode : value
}.

(** A string that is neither [undefined] nor empty. *)
Definition nonempty (s : option jsstring) : option jsstring :=
  match s with
  | Some (_ :: _) => s
  | _ => None
  end.

Definition optional_string (s : option jsstring) : value :=
  match s with
  | Some t => VStr t
  | None => VUndefined
  end.

Definition optional_number (n : option Z) : value :=
  match n with
  | Some k => VNum k
  | None => VUndefined
  end.

Definition boolean_text (b : bool) : jsstring :=
  if b then lit "true" else lit "false".

Module API_URLS.
Definition compute : jsstring := "https://compute.googleapis.com/compute/v1".
Definition storage : jsstring := "https://storage.googleapis.com/storage/v1".
Definition functions : jsstring := "https://cloudfunctions.googleapis.com/v2".
Definition run : jsstring := "https://run.googleapis.com/v2".
Definition bigquery : jsstring := "https://bigquery.googleapis.com/bigquery/v2".
Definition pubsub : jsstring := "https://pubsub.googleapis.com/v1".
Definition sql : jsstring := "https://sqladmin.googleapis.com/sql/v1beta4".
Definition iam : jsstring := "https://iam.googleapis.com/v1".
Definition secretmanager : jsstring := "https://secretmanager.googleapis.com/v1".
Definition dns : jsstring := "https://dns.googleapis.com/dns/v1".
Definition container : jsstring := "https://container.googleapis.com/v1".
Definition logging : jsstring := "https://logging.googleapis.com/v2".

Definition all : list jsstring :=
  [compute; storage; functions; run; bigquery; pubsub; sql; iam;
   secretmanager; dns; container; logging].
End API_URLS.

Definition no_options : RequestInit := {| method := None; body := None |}.

Definition with_method (m : jsstring) : RequestInit :=
  {| method := Some m; body := None |}.

Definition with_body (m : jsstring) (b : option jsstring) : RequestInit :=
  {| method := Some m; body := b |}.

(** The part of [request] after [fetch] has answered. *)
Definition read_response (url : jsstring) (response : Response) : result value :=
  if (status response =? 429)%Z then
    inl (RateLimitError "Rate limit exceeded"
           (match nonempty (retry_after response) with
            | Some retryAfter => ParseInt.parseInt retryAfter
            | None => Some 60%Z
            end))
  else if (status response =? 401)%Z then
    inl (AuthenticationError "Authentication failed. Check your access token.")
  else if (status response =? 403)%Z then
    inl (PermissionDeniedError "Permission denied. Check your IAM permissions.")
  else if (status response =? 404)%Z then
    inl (NotFoundError "Resource" url)
  else if negb (ok response) then
    let message := VStr ("API error: " +++ JS.of_Z (status response)) in
    let message :=
      match json response with
      | Some errorJson =>
          match get errorJson "error" with
          | inr error =>
              or_else (or_else (get_opt error "message")
                               (get_opt errorJson "message"))
                      message
          | inl _ => message
          end
      | None => message
      end in
    inl (GCloudApiError message (status response))
  else if (status response =? 204)%Z then inr VUndefined
  else
    match json response with
    | Some data => inr data
    | None => inl SyntaxError
    end.

Section Server.

(** The network: given what has been sent so far and the request, a
    response, or [None] when [fetch] rejects. *)
Variable fetch : list Request -> Request -> option Response.

Variable credentials : TenantCredentials.

(** The fields of the error objects: [utils/errors.ts] is not among the
    sources, and the messages of the platform's errors are its own. *)
Variable describe : Exn -> ErrorFields.

Definition getAuthHeaders : result (list (jsstring * jsstring)) :=
  match nonempty (accessToken credentials) with
  | None =>
      inl (AuthenticationError
             "No access token provided. Include X-GCloud-Access-Token header.")
  | Some token =>
      inr [(lit "Authorization", "Bearer " +++ token);
           (lit "Content-Type", lit "application/json")]
  end.

Definition request (url : jsstring) (options : RequestInit) : M value :=
  fun log =>
    match getAuthHeaders with
    | inl e => (inl e, log)
    | inr headers =>
        let init :=
          {| req_url := url; req_method := method options;
             req_headers := headers; req_body := body options |} in
        match fetch log init with
        | None => (inl TypeError, log ++ [init])
        | Some response => (read_response url response, log ++ [init])
        end
    end.

Definition testConnection : M value :=
  try_catch
    (match nonempty (projectId credentials) with
     | Some projectId =>
         request (API_URLS.compute +++ "/projects/" +++ projectId) no_options ;;;
         ret (VObj [(lit "connected", VBool true);
                    (lit "message",
                     VStr ("Successfully connected to GCP project: " +++ projectId))])
     | None =>
         ret (VObj [(lit "connected", VBool false);
                    (lit "message",
                     VStr "No project ID provided. Set X-GCloud-Project-ID header.")])
     end)
    (fun error =>
       ret (VObj [(lit "connected", VBool false);
                  (lit "message",
                   if instanceof_Error error then err_message (describe error)
                   else VStr "Connection failed")])).

(** *** Compute Engine *)

Definition listInstances (projectId zone : jsstring) : M value :=
  request (API_URLS.compute +++ "/projects/" +++ projectId +++ "/zones/" +++ zone
             +++ "/instances") no_options.

Definition getInstance (projectId zone instanceName : jsstring) : M value :=
  request (API_URLS.compute +++ "/projects/" +++ projectId +++ "/zones/" +++ zone
             +++ "/instances/" +++ instanceName) no_options.

Definition createInstance (projectId zone : jsstring) (instance : value) : M value :=
  request (API_URLS.compute +++ "/projects/" +++ projectId +++ "/zones/" +++ zone
             +++ "/instances")
          (with_body "POST" (JSON.compact instance)).

Definition deleteInstance (projectId zone instanceName : jsstring) : M value :=
  request (API_URLS.compute +++ "/projects/" +++ projectId +++ "/zones/" +++ zone
             +++ "/instances/" +++ instanceName)
          (with_method "DELETE").

Definition startInstance (projectId zone instanceName : jsstring) : M value :=
  request (API_URLS.compute +++ "/projects/" +++ projectId +++ "/zones/" +++ zone
             +++ "/instances/" +++ instanceName +++ "/start")
          (with_method "POST").

Definition stopInstance (projectId zone instanceName : jsstring) : M value :=
  request (API_URLS.compute +++ "/projects/" +++ projectId +++ "/zones/" +++ zone
             +++ "/instances/" +++ instanceName +++ "/stop")
          (with_method "POST").

Definition resetInstance (projectId zone instanceName : jsstring) : M value :=
  request (API_URLS.compute +++ "/projects/" +++ projectId +++ "/zones/" +++ zone
             +++ "/instances/" +++ instanceName +++ "/reset")
          (with_method "POST").

Definition listDisks (projectId zone : jsstring) : M value :=
  request (API_URLS.compute +++ "/projects/" +++ projectId +++ "/zones/" +++ zone
             +++ "/disks") no_options.

Definition getDisk (projectId zone diskName : jsstring) : M value :=
  request (API_URLS.compute +++ "/projects/" +++ projectId +++ "/zones/" +++ zone
             +++ "/disks/" +++ diskName) no_options.

Definition createDisk (projectId zone : jsstring) (disk : value) : M value :=
  request (API_URLS.compute +++ "/projects/" +++ projectId +++ "/zones/" +++ zone
             +++ "/disks")
          (with_body "POST" (JSON.compact disk)).

Definition deleteDisk (projectId zone diskName : jsstring) : M value :=
  request (API_URLS.compute +++ "/projects/" +++ projectId +++ "/zones/" +++ zone
             +++ "/disks/" +++ diskName)
          (with_method "DELETE").

Definition resizeDisk (projectId zone diskName sizeGb : jsstring) : M value :=
  request (API_URLS.compute +++ "/projects/" +++ projectId +++ "/zones/" +++ zone
             +++ "/disks/" +++ diskName +++ "/resize")
          (with_body "POST" (JSON.compact (VObj [(lit "sizeGb", VStr sizeGb)]))).

Definition listNetworks (projectId : jsstring) : M value :=
  request (API_URLS.compute +++ "/projects/" +++ projectId +++ "/global/networks")
          no_options.

Definition getNetwork (projectId networkName : jsstring) : M value :=
  request (API_URLS.compute +++ "/projects/" +++ projectId +++ "/global/networks/"
             +++ networkName) no_options.

Definition createNetwork (projectId : jsstring) (network : value) : M value :=
  request (API_URLS.compute +++ "/projects/" +++ projectId +++ "/global/networks")
          (with_body "POST" (JSON.compact network)).

Definition deleteNetwork (projectId networkName : jsstring) : M value :=
  request (API_URLS.compute +++ "/projects/" +++ projectId +++ "/global/networks/"
             +++ networkName)
          (with_method "DELETE").

Definition listFirewalls (projectId : jsstring) : M value :=
  request (API_URLS.compute +++ "/projects/" +++ projectId +++ "/global/firewalls")
          no_options.

Definition getFirewall (projectId firewallName : jsstring) : M value :=
  request (API_URLS.compute +++ "/projects/" +++ projectId +++ "/global/firewalls/"
             +++ firewallName) no_options.

Definition createFirewall (projectId : jsstring) (firewall : value) : M value :=
  request (API_URLS.compute +++ "/projects/" +++ projectId +++ "/global/firewalls")
          (with_body "POST" (JSON.compact firewall)).

Definition deleteFirewall (projectId firewallName : jsstring) : M value :=
  request (API_URLS.compute +++ "/projects/" +++ projectId +++ "/global/firewalls/"
             +++ firewallName)
          (with_method "DELETE").

(** *** Cloud Storage *)

Definition listBuckets (projectId : jsstring) : M value :=
  request (API_URLS.storage +++ "/b?project=" +++ projectId) no_options.

Definition getBucket (bucketName : jsstring) : M value :=
  request (API_URLS.storage +++ "/b/" +++ bucketName) no_options.

Definition createBucket (projectId : jsstring) (bucket : value) : M value :=
  request (API_URLS.storage +++ "/b?project=" +++ projectId)
          (with_body "POST" (JSON.compact bucket)).

Definition deleteBucket (bucketName : jsstring) : M value :=
  request (API_URLS.storage +++ "/b/" +++ bucketName) (with_method "DELETE") ;;;
  ret VUndefined.

Definition listObjects (bucketName : jsstring) (prefix : option jsstring)
    (maxResults : option Z) : M value :=
  let params :=
    (match nonempty prefix with
     | Some prefix => [(lit "prefix", prefix)]
     | None => []
     end)
    ++ (if truthy (optional_number maxResults)
        then [(lit "maxResults",
               JS.of_Z (match maxResults with Some n => n | None => 0%Z end))]
        else []) in
  let query := URI.search_params params in
  request (API_URLS.storage +++ "/b/" +++ bucketName +++ "/o"
             +++ (match query with [] => [] | _ => "?" +++ query end))
          no_options.

Definition getObject (bucketName objectName : jsstring) : M value :=
  encoded <- lift (URI.encodeURIComponent objectName) ;;
  request (API_URLS.storage +++ "/b/" +++ bucketName +++ "/o/" +++ encoded)
          no_options.

Definition deleteObject (bucketName objectName : jsstring) : M value :=
  encoded <- lift (URI.encodeURIComponent objectName) ;;
  request (API_URLS.storage +++ "/b/" +++ bucketName +++ "/o/" +++ encoded)
          (with_method "DELETE") ;;;
  ret VUndefined.

Definition copyObject (sourceBucket sourceObject destBucket destObject : jsstring)
    : M value :=
  source <- lift (URI.encodeURIComponent sourceObject) ;;
  dest <- lift (URI.encodeURIComponent destObject) ;;
  request (API_URLS.storage +++ "/b/" +++ sourceBucket +++ "/o/" +++ source
             +++ "/copyTo/b/" +++ destBucket +++ "/o/" +++ dest)
          (with_method "POST").

(** *** Cloud Functions, Cloud Run *)

Definition listFunctions (projectId location : jsstring) : M value :=
  request (API_URLS.functions +++ "/projects/" +++ projectId +++ "/locations/"
             +++ location +++ "/functions") no_options.

Definition getFunction (projectId location functionName : jsstring) : M value :=
  request (API_URLS.functions +++ "/projects/" +++ projectId +++ "/locations/"
             +++ location +++ "/functions/" +++ functionName) no_options.

Definition deleteFunction (projectId location functionName : jsstring) : M value :=
  request (API_URLS.functions +++ "/projects/" +++ projectId +++ "/locations/"
             +++ location +++ "/functions/" +++ functionName)
          (with_method "DELETE").

Definition listCloudRunServices (projectId location : jsstring) : M value :=
  request (API_URLS.run +++ "/projects/" +++ projectId +++ "/locations/"
             +++ location +++ "/services") no_options.

Definition getCloudRunService (projectId location serviceName : jsstring) : M value :=
  request (API_URLS.run +++ "/projects/" +++ projectId +++ "/locations/"
             +++ location +++ "/services/" +++ serviceName) no_options.

Definition deleteCloudRunService (projectId location serviceName : jsstring)
    : M value :=
  request (API_URLS.run +++ "/projects/" +++ projectId +++ "/locations/"
             +++ location +++ "/services/" +++ serviceName)
          (with_method "DELETE").

(** *** BigQuery *)

Definition listDatasets (projectId : jsstring) : M value :=
  request (API_URLS.bigquery +++ "/projects/" +++ projectId +++ "/datasets")
          no_options.

Definition getDataset (projectId datasetId : jsstring) : M value :=
  request (API_URLS.bigquery +++ "/projects/" +++ projectId +++ "/datasets/"
             +++ datasetId) no_options.

Definition createDataset (projectId : jsstring) (dataset : value) : M value :=
  request (API_URLS.bigquery +++ "/projects/" +++ projectId +++ "/datasets")
          (with_body "POST" (JSON.compact dataset)).

Definition deleteDataset (projectId datasetId : jsstring)
    (deleteContents : option bool) : M value :=
  let deleteContents :=
    match deleteContents with Some b => b | None => false end in
  request (API_URLS.bigquery +++ "/projects/" +++ projectId +++ "/datasets/"
             +++ datasetId +++ "?deleteContents=" +++ boolean_text deleteContents)
          (with_method "DELETE") ;;;
  ret VUndefined.

Definition listTables (projectId datasetId : jsstring) : M value :=
  request (API_URLS.bigquery +++ "/projects/" +++ projectId +++ "/datasets/"
             +++ datasetId +++ "/tables") no_options.

Definition getTable (projectId datasetId tableId : jsstring) : M value :=
  request (API_URLS.bigquery +++ "/projects/" +++ projectId +++ "/datasets/"
             +++ datasetId +++ "/tables/" +++ tableId) no_options.

Definition runQuery (projectId query : jsstring) (useLegacySql : option bool)
    : M value :=
  let useLegacySql :=
    match useLegacySql with Some b => b | None => false end in
  request (API_URLS.bigquery +++ "/projects/" +++ projectId +++ "/queries")
          (with_body "POST"
             (JSON.compact (VObj [(lit "query", VStr query);
                                    (lit "useLegacySql", VBool useLegacySql)]))).

(** *** Pub/Sub *)

Definition listTopics (projectId : jsstring) : M value :=
  request (API_URLS.pubsub +++ "/projects/" +++ projectId +++ "/topics") no_options.

Definition getTopic (projectId topicName : jsstring) : M value :=
  request (API_URLS.pubsub +++ "/projects/" +++ projectId +++ "/topics/"
             +++ topicName) no_options.

Definition createTopic (projectId topicName : jsstring) : M value :=
  request (API_URLS.pubsub +++ "/projects/" +++ projectId +++ "/topics/"
             +++ topicName)
          (with_method "PUT").

Definition deleteTopic (projectId topicName : jsstring) : M value :=
  request (API_URLS.pubsub +++ "/projects/" +++ projectId +++ "/topics/"
             +++ topicName)
          (with_method "DELETE") ;;;
  ret VUndefined.

Definition publishMessage (projectId topicName : jsstring) (messages : value)
    : M value :=
  request (API_URLS.pubsub +++ "/projects/" +++ projectId +++ "/topics/"
             +++ topicName +++ ":publish")
          (with_body "POST" (JSON.compact (VObj [(lit "messages", messages)]))).

Definition listSubscriptions (projectId : jsstring) : M value :=
  request (API_URLS.pubsub +++ "/projects/" +++ projectId +++ "/subscriptions")
          no_options.

Definition getSubscription (projectId subscriptionName : jsstring) : M value :=
  request (API_URLS.pubsub +++ "/projects/" +++ projectId +++ "/subscriptions/"
             +++ subscriptionName) no_options.

Definition createSubscription (projectId subscriptionName topicName : jsstring)
    : M value :=
  request (API_URLS.pubsub +++ "/projects/" +++ projectId +++ "/subscriptions/"
             +++ subscriptionName)
          (with_body "PUT"
             (JSON.compact
                (VObj [(lit "topic",
                        VStr ("projects/" +++ projectId +++ "/topics/" +++ topicName))]))).

Definition deleteSubscription (projectId subscriptionName : jsstring) : M value :=
  request (API_URLS.pubsub +++ "/projects/" +++ projectId +++ "/subscriptions/"
             +++ subscriptionName)
          (with_method "DELETE") ;;;
  ret VUndefined.

Definition pullMessages (projectId subscriptionName : jsstring)
    (maxMessages : option Z) : M value :=
  let maxMessages := match maxMessages with Some n => n | None => 10%Z end in
  request (API_URLS.pubsub +++ "/projects/" +++ projectId +++ "/subscriptions/"
             +++ subscriptionName +++ ":pull")
          (with_body "POST"
             (JSON.compact (VObj [(lit "maxMessages", VNum maxMessages)]))).

Definition acknowledgeMessages (projectId subscriptionName : jsstring)
    (ackIds : value) : M value :=
  request (API_URLS.pubsub +++ "/projects/" +++ projectId +++ "/subscriptions/"
             +++ subscriptionName +++ ":acknowledge")
          (with_body "POST" (JSON.compact (VObj [(lit "ackIds", ackIds)]))) ;;;
  ret VUndefined.

(** *** Cloud SQL *)

Definition listSqlInstances (projectId : jsstring) : M value :=
  request (API_URLS.sql +++ "/projects/" +++ projectId +++ "/instances") no_options.

Definition getSqlInstance (projectId instanceName : jsstring) : M value :=
  request (API_URLS.sql +++ "/projects/" +++ projectId +++ "/instances/"
             +++ instanceName) no_options.

Definition deleteSqlInstance (projectId instanceName : jsstring) : M value :=
  request (API_URLS.sql +++ "/projects/" +++ projectId +++ "/instances/"
             +++ instanceName)
          (with_method "DELETE").

Definition restartSqlInstance (projectId instanceName : jsstring) : M value :=
  request (API_URLS.sql +++ "/projects/" +++ projectId +++ "/instances/"
             +++ instanceName +++ "/restart")
          (with_method "POST").

Definition listDatabases (projectId instanceName : jsstring) : M value :=
  request (API_URLS.sql +++ "/projects/" +++ projectId +++ "/instances/"
             +++ instanceName +++ "/databases") no_options.

Definition getDatabase (projectId instanceName databaseName : jsstring) : M value :=
  request (API_URLS.sql +++ "/projects/" +++ projectId +++ "/instances/"
             +++ instanceName +++ "/databases/" +++ databaseName) no_options.

Definition createDatabase (projectId instanceName databaseName : jsstring)
    : M value :=
  request (API_URLS.sql +++ "/projects/" +++ projectId +++ "/instances/"
             +++ instanceName +++ "/databases")
          (with_body "POST"
             (JSON.compact (VObj [(lit "name", VStr databaseName)]))).

Definition deleteDatabase (projectId instanceName databaseName : jsstring)
    : M value :=
  request (API_URLS.sql +++ "/projects/" +++ projectId +++ "/instances/"
             +++ instanceName +++ "/databases/" +++ databaseName)
          (with_method "DELETE").

(** *** IAM *)

Definition listServiceAccounts (projectId : jsstring) : M value :=
  request (API_URLS.iam +++ "/projects/" +++ projectId +++ "/serviceAccounts")
          no_options.

Definition getServiceAccount (projectId email : jsstring) : M value :=
  request (API_URLS.iam +++ "/projects/" +++ projectId +++ "/serviceAccounts/"
             +++ email) no_options.

Definition createServiceAccount (projectId accountId : jsstring)
    (displayName : option jsstring) : M value :=
  request (API_URLS.iam +++ "/projects/" +++ projectId +++ "/serviceAccounts")
          (with_body "POST"
             (JSON.compact
                (VObj [(lit "accountId", VStr accountId);
                       (lit "serviceAccount",
                        VObj [(lit "displayName", optional_string displayName)])]))).

Definition deleteServiceAccount (projectId email : jsstring) : M value :=
  request (API_URLS.iam +++ "/projects/" +++ projectId +++ "/serviceAccounts/"
             +++ email)
          (with_method "DELETE") ;;;
  ret VUndefined.

Definition getProjectIamPolicy (projectId : jsstring) : M value :=
  request ("https://cloudresourcemanager.googleapis.com/v1/projects/" +++ projectId
             +++ ":getIamPolicy")
          (with_body "POST" (JSON.compact (VObj []))).

Definition setProjectIamPolicy (projectId : jsstring) (policy : value) : M value :=
  request ("https://cloudresourcemanager.googleapis.com/v1/projects/" +++ projectId
             +++ ":setIamPolicy")
          (with_body "POST" (JSON.compact (VObj [(lit "policy", policy)]))).

Definition listRoles (projectId : option jsstring) : M value :=
  match nonempty projectId with
  | Some projectId =>
      request (API_URLS.iam +++ "/projects/" +++ projectId +++ "/roles") no_options
  | None => request (API_URLS.iam +++ "/roles") no_options
  end.

(** *** Secret Manager *)

Definition listSecrets (projectId : jsstring) : M value :=
  request (API_URLS.secretmanager +++ "/projects/" +++ projectId +++ "/secrets")
          no_options.

Definition getSecret (projectId secretName : jsstring) : M value :=
  request (API_URLS.secretmanager +++ "/projects/" +++ projectId +++ "/secrets/"
             +++ secretName) no_options.

Definition createSecret (projectId secretId : jsstring) (replication : value)
    : M value :=
  request (API_URLS.secretmanager +++ "/projects/" +++ projectId
             +++ "/secrets?secretId=" +++ secretId)
          (with_body "POST"
             (JSON.compact
                (VObj [(lit "replication",
                        or_else replication (VObj [(lit "automatic", VObj [])]))]))).

Definition deleteSecret (projectId secretName : jsstring) : M value :=
  request (API_URLS.secretmanager +++ "/projects/" +++ projectId +++ "/secrets/"
             +++ secretName)
          (with_method "DELETE") ;;;
  ret VUndefined.

Definition listSecretVersions (projectId secretName : jsstring) : M value :=
  request (API_URLS.secretmanager +++ "/projects/" +++ projectId +++ "/secrets/"
             +++ secretName +++ "/versions") no_options.

Definition accessSecretVersion (projectId secretName : jsstring)
    (version : option jsstring) : M value :=
  let version := match version with Some v => v | None => lit "latest" end in
  request (API_URLS.secretmanager +++ "/projects/" +++ projectId +++ "/secrets/"
             +++ secretName +++ "/versions/" +++ version +++ ":access") no_options.

Definition addSecretVersion (projectId secretName payload : jsstring) : M value :=
  data <- lift (Base64.btoa payload) ;;
  request (API_URLS.secretmanager +++ "/projects/" +++ projectId +++ "/secrets/"
             +++ secretName +++ ":addVersion")
          (with_body "POST"
             (JSON.compact
                (VObj [(lit "payload", VObj [(lit "data", VStr data)])]))).

(** *** Cloud DNS *)

Definition listManagedZones (projectId : jsstring) : M value :=
  request (API_URLS.dns +++ "/projects/" +++ projectId +++ "/managedZones")
          no_options.

Definition getManagedZone (projectId zoneName : jsstring) : M value :=
  request (API_URLS.dns +++ "/projects/" +++ projectId +++ "/managedZones/"
             +++ zoneName) no_options.

Definition createManagedZone (projectId : jsstring) (zone : value) : M value :=
  request (API_URLS.dns +++ "/projects/" +++ projectId +++ "/managedZones")
          (with_body "POST" (JSON.compact zone)).

Definition deleteManagedZone (projectId zoneName : jsstring) : M value :=
  request (API_URLS.dns +++ "/projects/" +++ projectId +++ "/managedZones/"
             +++ zoneName)
          (with_method "DELETE") ;;;
  ret VUndefined.

Definition listResourceRecordSets (projectId zoneName : jsstring) : M value :=
  request (API_URLS.dns +++ "/projects/" +++ projectId +++ "/managedZones/"
             +++ zoneName +++ "/rrsets") no_options.

Definition createResourceRecordSet (projectId zoneName : jsstring) (rrset : value)
    : M value :=
  request (API_URLS.dns +++ "/projects/" +++ projectId +++ "/managedZones/"
             +++ zoneName +++ "/rrsets")
          (with_body "POST" (JSON.compact rrset)).

Definition deleteResourceRecordSet (projectId zoneName name type : jsstring)
    : M value :=
  request (API_URLS.dns +++ "/projects/" +++ projectId +++ "/managedZones/"
             +++ zoneName +++ "/rrsets/" +++ name +++ "/" +++ type)
          (with_method "DELETE") ;;;
  ret VUndefined.

(** *** GKE *)

Definition listClusters (projectId location : jsstring) : M value :=
  request (API_URLS.container +++ "/projects/" +++ projectId +++ "/locations/"
             +++ location +++ "/clusters") no_options.

Definition getCluster (projectId location clusterName : jsstring) : M value :=
  request (API_URLS.container +++ "/projects/" +++ projectId +++ "/locations/"
             +++ location +++ "/clusters/" +++ clusterName) no_options.

Definition deleteCluster (projectId location clusterName : jsstring) : M value :=
  request (API_URLS.container +++ "/projects/" +++ projectId +++ "/locations/"
             +++ location +++ "/clusters/" +++ clusterName)
          (with_method "DELETE").

Definition listNodePools (projectId location clusterName : jsstring) : M value :=
  request (API_URLS.container +++ "/projects/" +++ projectId +++ "/locations/"
             +++ location +++ "/clusters/" +++ clusterName +++ "/nodePools")
          no_options.

Definition getNodePool (projectId location clusterName nodePoolName : jsstring)
    : M value :=
  request (API_URLS.container +++ "/projects/" +++ projectId +++ "/locations/"
             +++ location +++ "/clusters/" +++ clusterName +++ "/nodePools/"
             +++ nodePoolName) no_options.

(** *** Cloud Logging *)

Definition listLogEntries (projectId : jsstring) (filter : option jsstring)
    (pageSize : option Z) : M value :=
  let pageSize := match pageSize with Some n => n | None => 100%Z end in
  request (API_URLS.logging +++ "/entries:list")
          (with_body "POST"
             (JSON.compact
                (VObj [(lit "resourceNames", VArr [VStr ("projects/" +++ projectId)]);
                       (lit "filter", optional_string filter);
                       (lit "pageSize", VNum pageSize);
                       (lit "orderBy", VStr "timestamp desc")]))).

Definition writeLogEntries (projectId logName : jsstring) (entries : value)
    : M value :=
  encoded <- lift (URI.encodeURIComponent logName) ;;
  request (API_URLS.logging +++ "/entries:write")
          (with_body "POST"
             (JSON.compact
                (VObj [(lit "logName",
                        VStr ("projects/" +++ projectId +++ "/logs/" +++ encoded));
                       (lit "resource", VObj [(lit "type", VStr "global")]);
                       (lit "entries", entries)]))) ;;;
  ret VUndefined.

Definition listLogs (projectId : jsstring) : M value :=
  request (API_URLS.logging +++ "/projects/" +++ projectId +++ "/logs") no_options.

(** *** The operations of the [GCloudClient] interface *)

Inductive Call : Type :=
| TestConnection
| ListInstances (projectId zone : jsstring)
| GetInstance (projectId zone instanceName : jsstring)
| CreateInstance (projectId zone : jsstring) (instance : value)
| DeleteInstance (projectId zone instanceName : jsstring)
| StartInstance (projectId zone instanceName : jsstring)
| StopInstance (projectId zone instanceName : jsstring)
| ResetInstance (projectId zone instanceName : jsstring)
| ListDisks (projectId zone : jsstring)
| GetDisk (projectId zone diskName : jsstring)
| CreateDisk (projectId zone : jsstring) (disk : value)
| DeleteDisk (projectId zone diskName : jsstring)
| ResizeDisk (projectId zone diskName sizeGb : jsstring)
| ListNetworks (projectId : jsstring)
| GetNetwork (projectId networkName : jsstring)
| CreateNetwork (projectId : jsstring) (network : value)
| DeleteNetwork (projectId networkName : jsstring)
| ListFirewalls (projectId : jsstring)
| GetFirewall (projectId firewallName : jsstring)
| CreateFirewall (projectId : jsstring) (firewall : value)
| DeleteFirewall (projectId firewallName : jsstring)
| ListBuckets (projectId : jsstring)
| GetBucket (bucketName : jsstring)
| CreateBucket (projectId : jsstring) (bucket : value)
| DeleteBucket (bucketName : jsstring)
| ListObjects (bucketName : jsstring) (prefix : option jsstring) (maxResults : option Z)
| GetObject (bucketName objectName : jsstring)
| DeleteObject (bucketName objectName : jsstring)
| CopyObject (sourceBucket sourceObject destBucket destObject : jsstring)
| ListFunctions (projectId location : jsstring)
| GetFunction (projectId location functionName : jsstring)
| DeleteFunction (projectId location functionName : jsstring)
| ListCloudRunServices (projectId location : jsstring)
| GetCloudRunService (projectId location serviceName : jsstring)
| DeleteCloudRunService (projectId location serviceName : jsstring)
| ListDatasets (projectId : jsstring)
| GetDataset (projectId datasetId : jsstring)
| CreateDataset (projectId : jsstring) (dataset : value)
| DeleteDataset (projectId datasetId : jsstring) (deleteContents : option bool)
| ListTables (projectId datasetId : jsstring)
| GetTable (projectId datasetId tableId : jsstring)
| RunQuery (projectId query : jsstring) (useLegacySql : option bool)
| ListTopics (projectId : jsstring)
| GetTopic (projectId topicName : jsstring)
| CreateTopic (projectId topicName : jsstring)
| DeleteTopic (projectId topicName : jsstring)
| PublishMessage (projectId topicName : jsstring) (messages : value)
| ListSubscriptions (projectId : jsstring)
| GetSubscription (projectId subscriptionName : jsstring)
| CreateSubscription (projectId subscriptionName topicName : jsstring)
| DeleteSubscription (projectId subscriptionName : jsstring)
| PullMessages (projectId subscriptionName : jsstring) (maxMessages : option Z)
| AcknowledgeMessages (projectId subscriptionName : jsstring) (ackIds : value)
| ListSqlInstances (projectId : jsstring)
| GetSqlInstance (projectId instanceName : jsstring)
| DeleteSqlInstance (projectId instanceName : jsstring)
| RestartSqlInstance (projectId instanceName : jsstring)
| ListDatabases (projectId instanceName : jsstring)
| GetDatabase (projectId instanceName databaseName : jsstring)
| CreateDatabase (projectId instanceName databaseName : jsstring)
| DeleteDatabase (projectId instanceName databaseName : jsstring)
| ListServiceAccounts (projectId : jsstring)
| GetServiceAccount (projectId email : jsstring)
| CreateServiceAccount (projectId accountId : jsstring) (displayName : option jsstring)
| DeleteServiceAccount (projectId email : jsstring)
| GetProjectIamPolicy (projectId : jsstring)
| SetProjectIamPolicy (projectId : jsstring) (policy : value)
| ListRoles (projectId : option jsstring)
| ListSecrets (projectId : jsstring)
| GetSecret (projectId secretName : jsstring)
| CreateSecret (projectId secretId : jsstring) (replication : value)
| DeleteSecret (projectId secretName : jsstring)
| ListSecretVersions (projectId secretName : jsstring)
| AccessSecretVersion (projectId secretName : jsstring) (version : option jsstring)
| AddSecretVersion (projectId secretName payload : jsstring)
| ListManagedZones (projectId : jsstring)
| GetManagedZone (projectId zoneName : jsstring)
| CreateManagedZone (projectId : jsstring) (zone : value)
| DeleteManagedZone (projectId zoneName : jsstring)
| ListResourceRecordSets (projectId zoneName : jsstring)
| CreateResourceRecordSet (projectId zoneName : jsstring) (rrset : value)
| DeleteResourceRecordSet (projectId zoneName name type : jsstring)
| ListClusters (projectId location : jsstring)
| GetCluster (projectId location clusterName : jsstring)
| DeleteCluster (projectId location clusterName : jsstring)
| ListNodePools (projectId location clusterName : jsstring)
| GetNodePool (projectId location clusterName nodePoolName : jsstring)
| ListLogEntries (projectId : jsstring) (filter : option jsstring) (pageSize : option Z)
| WriteLogEntries (projectId logName : jsstring) (entries : value)
| ListLogs (projectId : jsstring).

Definition invoke (c : Call) : M value :=
  match c with
  | TestConnection => testConnection
  | ListInstances p z => listInstances p z
  | GetInstance p z i => getInstance p z i
  | CreateInstance p z i => createInstance p z i
  | DeleteInstance p z i => deleteInstance p z i
  | StartInstance p z i => startInstance p z i
  | StopInstance p z i => stopInstance p z i
  | ResetInstance p z i => resetInstance p z i
  | ListDisks p z => listDisks p z
  | GetDisk p z d => getDisk p z d
  | CreateDisk p z d => createDisk p z d
  | DeleteDisk p z d => deleteDisk p z d
  | ResizeDisk p z d s => resizeDisk p z d s
  | ListNetworks p => listNetworks p
  | GetNetwork p n => getNetwork p n
  | CreateNetwork p n => createNetwork p n
  | DeleteNetwork p n => deleteNetwork p n
  | ListFirewalls p => listFirewalls p
  | GetFirewall p f => getFirewall p f
  | CreateFirewall p f => createFirewall p f
  | DeleteFirewall p f => deleteFirewall p f
  | ListBuckets p => listBuckets p
  | GetBucket b => getBucket b
  | CreateBucket p b => createBucket p b
  | DeleteBucket b => deleteBucket b
  | ListObjects b p m => listObjects b p m
  | GetObject b o => getObject b o
  | DeleteObject b o => deleteObject b o
  | CopyObject sb so db d => copyObject sb so db d
  | ListFunctions p l => listFunctions p l
  | GetFunction p l f => getFunction p l f
  | DeleteFunction p l f => deleteFunction p l f
  | ListCloudRunServices p l => listCloudRunServices p l
  | GetCloudRunService p l s => getCloudRunService p l s
  | DeleteCloudRunService p l s => deleteCloudRunService p l s
  | ListDatasets p => listDatasets p
  | GetDataset p d => getDataset p d
  | CreateDataset p d => createDataset p d
  | DeleteDataset p d c => deleteDataset p d c
  | ListTables p d => listTables p d
  | GetTable p d t => getTable p d t
  | RunQuery p q u => runQuery p q u
  | ListTopics p => listTopics p
  | GetTopic p t => getTopic p t
  | CreateTopic p t => createTopic p t
  | DeleteTopic p t => deleteTopic p t
  | PublishMessage p t m => publishMessage p t m
  | ListSubscriptions p => listSubscriptions p
  | GetSubscription p s => getSubscription p s
  | CreateSubscription p s t => createSubscription p s t
  | DeleteSubscription p s => deleteSubscription p s
  | PullMessages p s m => pullMessages p s m
  | AcknowledgeMessages p s a => acknowledgeMessages p s a
  | ListSqlInstances p => listSqlInstances p
  | GetSqlInstance p i => getSqlInstance p i
  | DeleteSqlInstance p i => deleteSqlInstance p i
  | RestartSqlInstance p i => restartSqlInstance p i
  | ListDatabases p i => listDatabases p i
  | GetDatabase p i d => getDatabase p i d
  | CreateDatabase p i d => createDatabase p i d
  | DeleteDatabase p i d => deleteDatabase p i d
  | ListServiceAccounts p => listServiceAccounts p
  | GetServiceAccount p e => getServiceAccount p e
  | CreateServiceAccount p a d => createServiceAccount p a d
  | DeleteServiceAccount p e => deleteServiceAccount p e
  | GetProjectIamPolicy p => getProjectIamPolicy p
  | SetProjectIamPolicy p y => setProjectIamPolicy p y
  | ListRoles p => listRoles p
  | ListSecrets p => listSecrets p
  | GetSecret p s => getSecret p s
  | CreateSecret p s r => createSecret p s r
  | DeleteSecret p s => deleteSecret p s
  | ListSecretVersions p s => listSecretVersions p s
  | AccessSecretVersion p s v => accessSecretVersion p s v
  | AddSecretVersion p s y => addSecretVersion p s y
  | ListManagedZones p => listManagedZones p
  | GetManagedZone p z => getManagedZone p z
  | CreateManagedZone p z => createManagedZone p z
  | DeleteManagedZone p z => deleteManagedZone p z
  | ListResourceRecordSets p z => listResourceRecordSets p z
  | CreateResourceRecordSet p z r => createResourceRecordSet p z r
  | DeleteResourceRecordSet p z n t => deleteResourceRecordSet p z n t
  | ListClusters p l => listClusters p l
  | GetCluster p l c => getCluster p l c
  | DeleteCluster p l c => deleteCluster p l c
  | ListNodePools p l c => listNodePools p l c
  | GetNodePool p l c n => getNodePool p l c n
  | ListLogEntries p f s => listLogEntries p f s
  | WriteLogEntries p l e => writeLogEntries p l e
  | ListLogs p => listLogs p
  end.

(* ================================================================== *)
(** ** [utils/formatters.ts] *)
(* ================================================================== *)

Record Content : Type := {
  type : jsstring;
  text : option jsstring
}.

(** The answer of a tool: [{ content: [...] }], with [isError: true] on an
    error. A [text] of [None] is the [undefined] that [JSON.stringify]
    gives for [undefined]. *)
Record Envelope : Type := {
  content : list Content;
  isError : bool
}.

Inductive Format : Type := Json | Markdown.

(** [String(v)]. An array joins the texts of its items. An object answers
    [[object Object]] through the [toString] that it inherits, and throws
    when a property of its own named [toString] hides that one: no value
    here is a function, and the [valueOf] that is tried next gives back
    the object. *)
Fixpoint String_of (v : value) : result jsstring :=
  match v with
  | VUndefined => inr (lit "undefined")
  | VNull => inr (lit "null")
  | VBool b => inr (boolean_text b)
  | VNum n => inr (JS.of_Z n)
  | VReal t => inr t
  | VStr s => inr s
  | VArr items =>
      match (fix elements (l : list value) : result (list jsstring) :=
               match l with
               | [] => inr []
               | x :: l' =>
                   match (match x with
                          | VUndefined | VNull => inr []
                          | _ => String_of x
                          end) with
                   | inl e => inl e
                   | inr t =>
                       match elements l' with
                       | inl e => inl e
                       | inr ts => inr (t :: ts)
                       end
                   end
               end) items with
      | inl e => inl e
      | inr ts => inr (JS.join (lit ",") ts)
      end
  | VObj props =>
      if existsb (JS.eqb (lit "toString")) (map fst props) then inl TypeError
      else inr (lit "[object Object]")
  end.

(** [v === null || v === undefined] *)
Definition nullish (v : value) : bool :=
  match v with
  | VUndefined | VNull => true
  | _ => false
  end.

(** [v === null] *)
Definition is_null (v : value) : bool :=
  match v with
  | VNull => true
  | _ => false
  end.

(** [l.map(f)] for an [f] that may throw. *)
Fixpoint map_result {A B} (f : A -> result B) (l : list A) : result (list B) :=
  match l with
  | [] => inr []
  | x :: l' =>
      match f x with
      | inl e => inl e
      | inr y =>
          match map_result f l' with
          | inl e => inl e
          | inr ys => inr (y :: ys)
          end
      end
  end.

(** One cell of the table. *)
Definition cell (v : value) : result jsstring :=
  if nullish v then inr (lit "-")
  else if typeof_object v then inr (lit "[object]")
  else
    match String_of v with
    | inl e => inl e
    | inr t => inr (JS.substring t 0 50)
    end.

(** [keys.map((key) => ...)] on one item: the property reads throw on a
    [null] or [undefined] item. *)
Definition cells (record : value) (keys : list jsstring) : result (list jsstring) :=
  map_result (fun key =>
                match get record key with
                | inl e => inl e
                | inr v => cell v
                end) keys.

Definition row (values : list jsstring) : jsstring :=
  "| " +++ JS.join (lit " | ") values +++ " |".

Definition rows (items : list value) (keys : list jsstring) : result (list jsstring) :=
  map_result (fun item =>
                match cells item keys with
                | inl e => inl e
                | inr values => inr (row values)
                end) items.

Definition resource_name (resourceType : option jsstring) : jsstring :=
  match nonempty resourceType with
  | Some r => r
  | None => lit "items"
  end.

Definition formatArrayAsMarkdown (items : list value)
    (resourceType : option jsstring) : result jsstring :=
  match items with
  | [] => inr ("No " +++ resource_name resourceType +++ " found.")
  | firstItem :: _ =>
      if negb (typeof_object firstItem) || is_null firstItem then
        match map_result (fun item =>
                            match String_of item with
                            | inl e => inl e
                            | inr t => inr ("- " +++ t)
                            end) items with
        | inl e => inl e
        | inr lines => inr (JS.join JS.nl lines)
        end
      else
        let keys := firstn 6 (Object_keys firstItem) in
        let header := row keys in
        let separator := row (map (fun _ => lit "---") keys) in
        match rows items keys with
        | inl e => inl e
        | inr rs => inr (JS.join JS.nl (header :: separator :: rs))
        end
  end.

Definition formatObjectAsMarkdown (obj : list (jsstring * value))
    (resourceType : option jsstring) : result jsstring :=
  let title :=
    match nonempty resourceType with
    | Some r => "## " +++ r +++ JS.nl +++ JS.nl
    | None => []
    end in
  match map_result
          (fun entry =>
             let key := fst entry in
             let v := snd entry in
             if nullish v then inr ("**" +++ key +++ ":** -")
             else if typeof_object v then
               inr ("**" +++ key +++ ":**" +++ JS.nl +++ "```json" +++ JS.nl
                      +++ (match JSON.stringify v with
                           | Some t => t
                           | None => lit "undefined"
                           end)
                      +++ JS.nl +++ "```")
             else
               match String_of v with
               | inl e => inl e
               | inr t => inr ("**" +++ key +++ ":** " +++ t)
               end)
          obj with
  | inl e => inl e
  | inr lines => inr (title +++ JS.join (JS.nl ++ JS.nl) lines)
  end.

Definition formatAsMarkdown (data : value) (resourceType : option jsstring)
    : result jsstring :=
  match data with
  | VArr items => formatArrayAsMarkdown items resourceType
  | VObj obj => formatObjectAsMarkdown obj resourceType
  | _ => String_of data
  end.

Definition formatResponse (data : value) (format : Format)
    (resourceType : option jsstring) : result Envelope :=
  match format with
  | Markdown =>
      match formatAsMarkdown data resourceType with
      | inl e => inl e
      | inr t =>
          inr {| content := [{| type := lit "text"; text := Some t |}];
                 isError := false |}
      end
  | Json =>
      inr {| content := [{| type := lit "text"; text := JSON.stringify data |}];
             isError := false |}
  end.

(** The object that [formatError] serializes for an [Error]. *)
Definition error_payload (error : Exn) : value :=
  VObj [(lit "error", VBool true);
        (lit "name", err_name (describe error));
        (lit "message", err_message (describe error));
        (lit "code", err_code (describe error));
        (lit "statusCode", err_statusCode (describe error))].

(** For a value that is no [Error], [String(error)] is the text that
    [NotAnError] holds. *)
Definition formatError (error : Exn) : Envelope :=
  let message :=
    match error with
    | NotAnError text =>
        JSON.stringify (VObj [(lit "error", VBool true);
                              (lit "message", VStr text)])
    | _ => JSON.stringify (error_payload error)
    end in
  {| content := [{| type := lit "text"; text := message |}];
     isError := true |}.

(** [formatError(v)] for a thrown [v] that is no [Error]: [String(v)]
    may throw. *)
Definition formatError_value (v : value) : result Envelope :=
  match String_of v with
  | inl e => inl e
  | inr text => inr (formatError (NotAnError text))
  end.

(** [truncate(str, maxLength)]; [substring] takes a negative end for 0. *)
Definition truncate (str : jsstring) (maxLength : Z) : jsstring :=
  if (Z.of_nat (List.length str) <=? maxLength)%Z then str
  else JS.substring str 0 (Z.to_nat (maxLength - 3)) +++ "...".

(* ================================================================== *)
(** ** The tools: [tools/*.ts] and the connection tool of [index.ts] *)
(* ================================================================== *)

(** A tool call whose arguments passed the schema of the tool. *)
Inductive Tool : Type :=
(* compute.ts *)
| gcloud_list_instances (projectId zone : jsstring)
| gcloud_get_instance (projectId zone instanceName : jsstring)
| gcloud_start_instance (projectId zone instanceName : jsstring)
| gcloud_stop_instance (projectId zone instanceName : jsstring)
| gcloud_reset_instance (projectId zone instanceName : jsstring)
| gcloud_delete_instance (projectId zone instanceName : jsstring)
| gcloud_list_disks (projectId zone : jsstring)
| gcloud_get_disk (projectId zone diskName : jsstring)
| gcloud_create_disk (projectId zone name sizeGb : jsstring)
    (type sourceImage : option jsstring)
| gcloud_delete_disk (projectId zone diskName : jsstring)
| gcloud_resize_disk (projectId zone diskName sizeGb : jsstring)
| gcloud_list_networks (projectId : jsstring)
| gcloud_get_network (projectId networkName : jsstring)
| gcloud_create_network (projectId name : jsstring) (autoCreateSubnetworks : bool)
| gcloud_delete_network (projectId networkName : jsstring)
| gcloud_list_firewalls (projectId : jsstring)
| gcloud_get_firewall (projectId firewallName : jsstring)
| gcloud_delete_firewall (projectId firewallName : jsstring)
(* storage.ts *)
| gcloud_list_buckets (projectId : jsstring)
| gcloud_get_bucket (bucketName : jsstring)
| gcloud_create_bucket (projectId name : jsstring)
    (location storageClass : option jsstring)
| gcloud_delete_bucket (bucketName : jsstring)
| gcloud_list_objects (bucketName : jsstring) (prefix : option jsstring)
    (maxResults : option Z)
| gcloud_get_object (bucketName objectName : jsstring)
| gcloud_delete_object (bucketName objectName : jsstring)
| gcloud_copy_object (sourceBucket sourceObject destBucket destObject : jsstring)
(* functions.ts *)
| gcloud_list_functions (projectId location : jsstring)
| gcloud_get_function (projectId location functionName : jsstring)
| gcloud_delete_function (projectId location functionName : jsstring)
| gcloud_list_cloud_run_services (projectId location : jsstring)
| gcloud_get_cloud_run_service (projectId location serviceName : jsstring)
| gcloud_delete_cloud_run_service (projectId location serviceName : jsstring)
(* bigquery.ts *)
| gcloud_list_datasets (projectId : jsstring)
| gcloud_get_dataset (projectId datasetId : jsstring)
| gcloud_create_dataset (projectId datasetId : jsstring) (location : option jsstring)
| gcloud_delete_dataset (projectId datasetId : jsstring) (deleteContents : bool)
| gcloud_list_tables (projectId datasetId : jsstring)
| gcloud_get_table (projectId datasetId tableId : jsstring)
| gcloud_bigquery_query (projectId query : jsstring) (useLegacySql : bool)
(* pubsub.ts *)
| gcloud_list_topics (projectId : jsstring)
| gcloud_get_topic (projectId topicName : jsstring)
| gcloud_create_topic (projectId topicName : jsstring)
| gcloud_delete_topic (projectId topicName : jsstring)
| gcloud_publish_message (projectId topicName data : jsstring)
    (attributes : option (list (jsstring * jsstring)))
| gcloud_list_subscriptions (projectId : jsstring)
| gcloud_get_subscription (projectId subscriptionName : jsstring)
| gcloud_create_subscription (projectId subscriptionName topicName : jsstring)
| gcloud_delete_subscription (projectId subscriptionName : jsstring)
| gcloud_pull_messages (projectId subscriptionName : jsstring) (maxMessages : Z)
| gcloud_acknowledge_messages (projectId subscriptionName : jsstring)
    (ackIds : list jsstring)
(* sql.ts *)
| gcloud_list_sql_instances (projectId : jsstring)
| gcloud_get_sql_instance (projectId instanceName : jsstring)
| gcloud_delete_sql_instance (projectId instanceName : jsstring)
| gcloud_restart_sql_instance (projectId instanceName : jsstring)
| gcloud_list_databases (projectId instanceName : jsstring)
| gcloud_get_database (projectId instanceName databaseName : jsstring)
| gcloud_create_database (projectId instanceName databaseName : jsstring)
| gcloud_delete_database (projectId instanceName databaseName : jsstring)
(* iam.ts *)
| gcloud_list_service_accounts (projectId : jsstring)
| gcloud_get_service_account (projectId email : jsstring)
| gcloud_create_service_account (projectId accountId : jsstring)
    (displayName : option jsstring)
| gcloud_delete_service_account (projectId email : jsstring)
| gcloud_get_project_iam_policy (projectId : jsstring)
| gcloud_set_project_iam_policy (projectId : jsstring)
    (bindings : list (jsstring * list jsstring))
| gcloud_list_roles (projectId : option jsstring)
(* secretmanager.ts *)
| gcloud_list_secrets (projectId : jsstring)
| gcloud_get_secret (projectId secretName : jsstring)
| gcloud_create_secret (projectId secretId : jsstring) (automatic : bool)
| gcloud_delete_secret (projectId secretName : jsstring)
| gcloud_list_secret_versions (projectId secretName : jsstring)
| gcloud_access_secret_version (projectId secretName version : jsstring)
| gcloud_add_secret_version (projectId secretName payload : jsstring)
(* dns.ts *)
| gcloud_list_managed_zones (projectId : jsstring)
| gcloud_get_managed_zone (projectId zoneName : jsstring)
| gcloud_create_managed_zone (projectId name dnsName : jsstring)
    (description : option jsstring) (visibility : jsstring)
| gcloud_delete_managed_zone (projectId zoneName : jsstring)
| gcloud_list_resource_record_sets (projectId zoneName : jsstring)
| gcloud_create_resource_record_set (projectId zoneName name type : jsstring)
    (ttl : Z) (rrdatas : list jsstring)
| gcloud_delete_resource_record_set (projectId zoneName name type : jsstring)
(* gke.ts *)
| gcloud_list_clusters (projectId location : jsstring)
| gcloud_get_cluster (projectId location clusterName : jsstring)
| gcloud_delete_cluster (projectId location clusterName : jsstring)
| gcloud_list_node_pools (projectId location clusterName : jsstring)
| gcloud_get_node_pool (projectId location clusterName nodePoolName : jsstring)
(* logging.ts *)
| gcloud_list_log_entries (projectId : jsstring) (filter : option jsstring)
    (pageSize : Z)
| gcloud_write_log_entry (projectId logName severity message : jsstring)
    (labels : option (list (jsstring * jsstring)))
| gcloud_write_log_json (projectId logName severity : jsstring)
    (jsonPayload : list (jsstring * value))
    (labels : option (list (jsstring * jsstring)))
| gcloud_list_logs (projectId : jsstring)
(* index.ts *)
| gcloud_test_connection.

(** A validated [z.record(z.string(), z.string()).optional()]. *)
Definition optional_record (r : option (list (jsstring * jsstring))) : value :=
  match r with
  | Some props => VObj (map (fun kv => (fst kv, VStr (snd kv))) props)
  | None => VUndefined
  end.

Definition strings (l : list jsstring) : value := VArr (map VStr l).

(** [return formatResponse(data, 'json', resourceType)] *)
Definition respond (data : value) (resourceType : option jsstring) : M Envelope :=
  lift (formatResponse data Json resourceType).

(** The record that [gcloud_pull_messages] makes of a received message;
    [atob] takes the text of its argument. *)
Definition decode_received (rm : value) : result value :=
  match get rm "ackId" with
  | inl e => inl e
  | inr ackId =>
      let message := get_opt rm "message" in
      let data := get_opt message "data" in
      match (if truthy data then
               match String_of data with
               | inl e => inl e
               | inr d =>
                   match Base64.atob d with
                   | inl e => inl e
                   | inr t => inr (VStr t)
                   end
               end
             else inr VUndefined) with
      | inl e => inl e
      | inr decoded =>
          inr (VObj [(lit "ackId", ackId);
                     (lit "messageId", get_opt message "messageId");
                     (lit "data", decoded);
                     (lit "attributes", get_opt message "attributes");
                     (lit "publishTime", get_opt message "publishTime")])
      end
  end.

(** [(v || []).map(f)]: only an array has [map]. *)
Definition map_array (v : value) (f : value -> result value) : result value :=
  match or_else v (VArr []) with
  | VArr items =>
      match map_result f items with
      | inl e => inl e
      | inr l => inr (VArr l)
      end
  | _ => inl TypeError
  end.

(** The [try] block of the handler of a tool. *)
Definition attempt (t : Tool) : M Envelope :=
  match t with
  (* ---- compute.ts ---- *)
  | gcloud_list_instances projectId zone =>
      (result <- listInstances projectId zone ;;
               items <- lift (get result "items") ;;
               respond (or_else items (VArr [])) (Some (lit "instances")))
  | gcloud_get_instance projectId zone instanceName =>
      (instance <- getInstance projectId zone instanceName ;;
               respond instance (Some (lit "instance")))
  | gcloud_start_instance projectId zone instanceName =>
      (operation <- startInstance projectId zone instanceName ;;
               respond (VObj [(lit "success", VBool true);
                              (lit "message",
                               VStr ("Instance " +++ instanceName +++ " start initiated"));
                              (lit "operation", operation)]) None)
  | gcloud_stop_instance projectId zone instanceName =>
      (operation <- stopInstance projectId zone instanceName ;;
               respond (VObj [(lit "success", VBool true);
                              (lit "message",
                               VStr ("Instance " +++ instanceName +++ " stop initiated"));
                              (lit "operation", operation)]) None)
  | gcloud_reset_instance projectId zone instanceName =>
      (operation <- resetInstance projectId zone instanceName ;;
               respond (VObj [(lit "success", VBool true);
                              (lit "message",
                               VStr ("Instance " +++ instanceName +++ " reset initiated"));
                              (lit "operation", operation)]) None)
  | gcloud_delete_instance projectId zone instanceName =>
      (operation <- deleteInstance projectId zone instanceName ;;
               respond (VObj [(lit "success", VBool true);
                              (lit "message",
                               VStr ("Instance " +++ instanceName +++ " deletion initiated"));
                              (lit "operation", operation)]) None)
  | gcloud_list_disks projectId zone =>
      (result <- listDisks projectId zone ;;
               items <- lift (get result "items") ;;
               respond (or_else items (VArr [])) (Some (lit "disks")))
  | gcloud_get_disk projectId zone diskName =>
      (disk <- getDisk projectId zone diskName ;;
               respond disk (Some (lit "disk")))
  | gcloud_create_disk projectId zone name sizeGb type sourceImage =>
      (operation <-
                 createDisk projectId zone
                   (VObj [(lit "name", VStr name);
                          (lit "sizeGb", VStr sizeGb);
                          (lit "type", optional_string type);
                          (lit "sourceImage", optional_string sourceImage)]) ;;
               respond (VObj [(lit "success", VBool true);
                              (lit "message",
                               VStr ("Disk " +++ name +++ " creation initiated"));
                              (lit "operation", operation)]) None)
  | gcloud_delete_disk projectId zone diskName =>
      (operation <- deleteDisk projectId zone diskName ;;
               respond (VObj [(lit "success", VBool true);
                              (lit "message",
                               VStr ("Disk " +++ diskName +++ " deletion initiated"));
                              (lit "operation", operation)]) None)
  | gcloud_resize_disk projectId zone diskName sizeGb =>
      (operation <- resizeDisk projectId zone diskName sizeGb ;;
               respond (VObj [(lit "success", VBool true);
                              (lit "message",
                               VStr ("Disk " +++ diskName +++ " resize initiated"));
                              (lit "operation", operation)]) None)
  | gcloud_list_networks projectId =>
      (result <- listNetworks projectId ;;
               items <- lift (get result "items") ;;
               respond (or_else items (VArr [])) (Some (lit "networks")))
  | gcloud_get_network projectId networkName =>
      (network <- getNetwork projectId networkName ;;
               respond network (Some (lit "network")))
  | gcloud_create_network projectId name autoCreateSubnetworks =>
      (operation <-
                 createNetwork projectId
                   (VObj [(lit "name", VStr name);
                          (lit "autoCreateSubnetworks", VBool autoCreateSubnetworks)]) ;;
               respond (VObj [(lit "success", VBool true);
                              (lit "message",
                               VStr ("Network " +++ name +++ " creation initiated"));
                              (lit "operation", operation)]) None)
  | gcloud_delete_network projectId networkName =>
      (operation <- deleteNetwork projectId networkName ;;
               respond (VObj [(lit "success", VBool true);
                              (lit "message",
                               VStr ("Network " +++ networkName +++ " deletion initiated"));
                              (lit "operation", operation)]) None)
  | gcloud_list_firewalls projectId =>
      (result <- listFirewalls projectId ;;
               items <- lift (get result "items") ;;
               respond (or_else items (VArr [])) (Some (lit "firewalls")))
  | gcloud_get_firewall projectId firewallName =>
      (firewall <- getFirewall projectId firewallName ;;
               respond firewall (Some (lit "firewall")))
  | gcloud_delete_firewall projectId firewallName =>
      (operation <- deleteFirewall projectId firewallName ;;
               respond (VObj [(lit "success", VBool true);
                              (lit "message",
                               VStr ("Firewall " +++ firewallName +++ " deletion initiated"));
                              (lit "operation", operation)]) None)
  (* ---- storage.ts ---- *)
  | gcloud_list_buckets projectId =>
      (result <- listBuckets projectId ;;
               items <- lift (get result "items") ;;
               respond (or_else items (VArr [])) (Some (lit "buckets")))
  | gcloud_get_bucket bucketName =>
      (bucket <- getBucket bucketName ;;
               respond bucket (Some (lit "bucket")))
  | gcloud_create_bucket projectId name location storageClass =>
      (bucket <-
                 createBucket projectId
                   (VObj [(lit "name", VStr name);
                          (lit "location", optional_string location);
                          (lit "storageClass", optional_string storageClass)]) ;;
               respond (VObj [(lit "success", VBool true);
                              (lit "message", VStr ("Bucket " +++ name +++ " created"));
                              (lit "bucket", bucket)]) None)
  | gcloud_delete_bucket bucketName =>
      (deleteBucket bucketName ;;;
               respond (VObj [(lit "success", VBool true);
                              (lit "message",
                               VStr ("Bucket " +++ bucketName +++ " deleted"))]) None)
  | gcloud_list_objects bucketName prefix maxResults =>
      (result <- listObjects bucketName prefix maxResults ;;
               items <- lift (get result "items") ;;
               respond (or_else items (VArr [])) (Some (lit "objects")))
  | gcloud_get_object bucketName objectName =>
      (object <- getObject bucketName objectName ;;
               respond object (Some (lit "object")))
  | gcloud_delete_object bucketName objectName =>
      (deleteObject bucketName objectName ;;;
               respond (VObj [(lit "success", VBool true);
                              (lit "message",
                               VStr ("Object " +++ objectName +++ " deleted from "
                                       +++ bucketName))]) None)
  | gcloud_copy_object sourceBucket sourceObject destBucket destObject =>
      (object <- copyObject sourceBucket sourceObject destBucket destObject ;;
               respond (VObj [(lit "success", VBool true);
                              (lit "message", VStr "Object copied successfully");
                              (lit "object", object)]) None)
  (* ---- functions.ts ---- *)
  | gcloud_list_functions projectId location =>
      (result <- listFunctions projectId location ;;
               items <- lift (get result "functions") ;;
               respond (or_else items (VArr [])) (Some (lit "functions")))
  | gcloud_get_function projectId location functionName =>
      (func <- getFunction projectId location functionName ;;
               respond func (Some (lit "function")))
  | gcloud_delete_function projectId location functionName =>
      (operation <- deleteFunction projectId location functionName ;;
               respond (VObj [(lit "success", VBool true);
                              (lit "message",
                               VStr ("Function " +++ functionName +++ " deletion initiated"));
                              (lit "operation", operation)]) None)
  | gcloud_list_cloud_run_services projectId location =>
      (result <- listCloudRunServices projectId location ;;
               items <- lift (get result "services") ;;
               respond (or_else items (VArr [])) (Some (lit "services")))
  | gcloud_get_cloud_run_service projectId location serviceName =>
      (service <- getCloudRunService projectId location serviceName ;;
               respond service (Some (lit "service")))
  | gcloud_delete_cloud_run_service projectId location serviceName =>
      (operation <- deleteCloudRunService projectId location serviceName ;;
               respond (VObj [(lit "success", VBool true);
                              (lit "message",
                               VStr ("Service " +++ serviceName +++ " deletion initiated"));
                              (lit "operation", operation)]) None)
  (* ---- bigquery.ts ---- *)
  | gcloud_list_datasets projectId =>
      (result <- listDatasets projectId ;;
               items <- lift (get result "datasets") ;;
               respond (or_else items (VArr [])) (Some (lit "datasets")))
  | gcloud_get_dataset projectId datasetId =>
      (dataset <- getDataset projectId datasetId ;;
               respond dataset (Some (lit "dataset")))
  | gcloud_create_dataset projectId datasetId location =>
      (dataset <-
                 createDataset projectId
                   (VObj [(lit "datasetReference",
                           VObj [(lit "datasetId", VStr datasetId);
                                 (lit "projectId", VStr projectId)]);
                          (lit "location", optional_string location)]) ;;
               respond (VObj [(lit "success", VBool true);
                              (lit "message", VStr ("Dataset " +++ datasetId +++ " created"));
                              (lit "dataset", dataset)]) None)
  | gcloud_delete_dataset projectId datasetId deleteContents =>
      (deleteDataset projectId datasetId (Some deleteContents) ;;;
               respond (VObj [(lit "success", VBool true);
                              (lit "message",
                               VStr ("Dataset " +++ datasetId +++ " deleted"))]) None)
  | gcloud_list_tables projectId datasetId =>
      (result <- listTables projectId datasetId ;;
               items <- lift (get result "tables") ;;
               respond (or_else items (VArr [])) (Some (lit "tables")))
  | gcloud_get_table projectId datasetId tableId =>
      (table <- getTable projectId datasetId tableId ;;
               respond table (Some (lit "table")))
  | gcloud_bigquery_query projectId query useLegacySql =>
      (result <- runQuery projectId query (Some useLegacySql) ;;
               respond result (Some (lit "query_result")))
  (* ---- pubsub.ts ---- *)
  | gcloud_list_topics projectId =>
      (result <- listTopics projectId ;;
               items <- lift (get result "topics") ;;
               respond (or_else items (VArr [])) (Some (lit "topics")))
  | gcloud_get_topic projectId topicName =>
      (topic <- getTopic projectId topicName ;;
               respond topic (Some (lit "topic")))
  | gcloud_create_topic projectId topicName =>
      (topic <- createTopic projectId topicName ;;
               respond (VObj [(lit "success", VBool true);
                              (lit "message", VStr ("Topic " +++ topicName +++ " created"));
                              (lit "topic", topic)]) None)
  | gcloud_delete_topic projectId topicName =>
      (deleteTopic projectId topicName ;;;
               respond (VObj [(lit "success", VBool true);
                              (lit "message",
                               VStr ("Topic " +++ topicName +++ " deleted"))]) None)
  | gcloud_publish_message projectId topicName data attributes =>
      (encoded <- lift (Base64.btoa data) ;;
               result <-
                 publishMessage projectId topicName
                   (VArr [VObj [(lit "data", VStr encoded);
                                (lit "attributes", optional_record attributes)]]) ;;
               messageIds <- lift (get result "messageIds") ;;
               respond (VObj [(lit "success", VBool true);
                              (lit "message", VStr "Message published");
                              (lit "messageIds", messageIds)]) None)
  | gcloud_list_subscriptions projectId =>
      (result <- listSubscriptions projectId ;;
               items <- lift (get result "subscriptions") ;;
               respond (or_else items (VArr [])) (Some (lit "subscriptions")))
  | gcloud_get_subscription projectId subscriptionName =>
      (subscription <- getSubscription projectId subscriptionName ;;
               respond subscription (Some (lit "subscription")))
  | gcloud_create_subscription projectId subscriptionName topicName =>
      (subscription <-
                 createSubscription projectId subscriptionName topicName ;;
               respond (VObj [(lit "success", VBool true);
                              (lit "message",
                               VStr ("Subscription " +++ subscriptionName +++ " created"));
                              (lit "subscription", subscription)]) None)
  | gcloud_delete_subscription projectId subscriptionName =>
      (deleteSubscription projectId subscriptionName ;;;
               respond (VObj [(lit "success", VBool true);
                              (lit "message",
                               VStr ("Subscription " +++ subscriptionName
                                       +++ " deleted"))]) None)
  | gcloud_pull_messages projectId subscriptionName maxMessages =>
      (result <- pullMessages projectId subscriptionName (Some maxMessages) ;;
               received <- lift (get result "receivedMessages") ;;
               messages <- lift (map_array received decode_received) ;;
               respond messages (Some (lit "messages")))
  | gcloud_acknowledge_messages projectId subscriptionName ackIds =>
      (acknowledgeMessages projectId subscriptionName (strings ackIds) ;;;
               respond (VObj [(lit "success", VBool true);
                              (lit "message",
                               VStr (JS.of_Z (Z.of_nat (List.length ackIds))
                                       +++ " messages acknowledged"))]) None)
  (* ---- sql.ts ---- *)
  | gcloud_list_sql_instances projectId =>
      (result <- listSqlInstances projectId ;;
               items <- lift (get result "items") ;;
               respond (or_else items (VArr [])) (Some (lit "instances")))
  | gcloud_get_sql_instance projectId instanceName =>
      (instance <- getSqlInstance projectId instanceName ;;
               respond instance (Some (lit "instance")))
  | gcloud_delete_sql_instance projectId instanceName =>
      (operation <- deleteSqlInstance projectId instanceName ;;
               respond (VObj [(lit "success", VBool true);
                              (lit "message",
                               VStr ("Instance " +++ instanceName +++ " deletion initiated"));
                              (lit "operation", operation)]) None)
  | gcloud_restart_sql_instance projectId instanceName =>
      (operation <- restartSqlInstance projectId instanceName ;;
               respond (VObj [(lit "success", VBool true);
                              (lit "message",
                               VStr ("Instance " +++ instanceName +++ " restart initiated"));
                              (lit "operation", operation)]) None)
  | gcloud_list_databases projectId instanceName =>
      (result <- listDatabases projectId instanceName ;;
               items <- lift (get result "items") ;;
               respond (or_else items (VArr [])) (Some (lit "databases")))
  | gcloud_get_database projectId instanceName databaseName =>
      (database <- getDatabase projectId instanceName databaseName ;;
               respond database (Some (lit "database")))
  | gcloud_create_database projectId instanceName databaseName =>
      (operation <- createDatabase projectId instanceName databaseName ;;
               respond (VObj [(lit "success", VBool true);
                              (lit "message",
                               VStr ("Database " +++ databaseName +++ " creation initiated"));
                              (lit "operation", operation)]) None)
  | gcloud_delete_database projectId instanceName databaseName =>
      (operation <- deleteDatabase projectId instanceName databaseName ;;
               respond (VObj [(lit "success", VBool true);
                              (lit "message",
                               VStr ("Database " +++ databaseName +++ " deletion initiated"));
                              (lit "operation", operation)]) None)
  (* ---- iam.ts ---- *)
  | gcloud_list_service_accounts projectId =>
      (result <- listServiceAccounts projectId ;;
               items <- lift (get result "accounts") ;;
               respond (or_else items (VArr [])) (Some (lit "service_accounts")))
  | gcloud_get_service_account projectId email =>
      (account <- getServiceAccount projectId email ;;
               respond account (Some (lit "service_account")))
  | gcloud_create_service_account projectId accountId displayName =>
      (account <- createServiceAccount projectId accountId displayName ;;
               respond (VObj [(lit "success", VBool true);
                              (lit "message",
                               VStr ("Service account " +++ accountId +++ " created"));
                              (lit "account", account)]) None)
  | gcloud_delete_service_account projectId email =>
      (deleteServiceAccount projectId email ;;;
               respond (VObj [(lit "success", VBool true);
                              (lit "message",
                               VStr ("Service account " +++ email +++ " deleted"))]) None)
  | gcloud_get_project_iam_policy projectId =>
      (policy <- getProjectIamPolicy projectId ;;
               respond policy (Some (lit "iam_policy")))
  | gcloud_set_project_iam_policy projectId bindings =>
      (currentPolicy <- getProjectIamPolicy projectId ;;
               version <- lift (get currentPolicy "version") ;;
               etag <- lift (get currentPolicy "etag") ;;
               policy <-
                 setProjectIamPolicy projectId
                   (VObj [(lit "version", version);
                          (lit "bindings",
                           VArr (map (fun b =>
                                        VObj [(lit "role", VStr (fst b));
                                              (lit "members", strings (snd b))])
                                     bindings));
                          (lit "etag", etag)]) ;;
               respond (VObj [(lit "success", VBool true);
                              (lit "message", VStr "IAM policy updated");
                              (lit "policy", policy)]) None)
  | gcloud_list_roles projectId =>
      (result <- listRoles projectId ;;
               items <- lift (get result "roles") ;;
               respond (or_else items (VArr [])) (Some (lit "roles")))
  (* ---- secretmanager.ts ---- *)
  | gcloud_list_secrets projectId =>
      (result <- listSecrets projectId ;;
               items <- lift (get result "secrets") ;;
               respond (or_else items (VArr [])) (Some (lit "secrets")))
  | gcloud_get_secret projectId secretName =>
      (secret <- getSecret projectId secretName ;;
               respond secret (Some (lit "secret")))
  | gcloud_create_secret projectId secretId automatic =>
      (let replication :=
                 if automatic then VObj [(lit "automatic", VObj [])] else VUndefined in
               secret <- createSecret projectId secretId replication ;;
               respond (VObj [(lit "success", VBool true);
                              (lit "message", VStr ("Secret " +++ secretId +++ " created"));
                              (lit "secret", secret)]) None)
  | gcloud_delete_secret projectId secretName =>
      (deleteSecret projectId secretName ;;;
               respond (VObj [(lit "success", VBool true);
                              (lit "message",
                               VStr ("Secret " +++ secretName +++ " deleted"))]) None)
  | gcloud_list_secret_versions projectId secretName =>
      (result <- listSecretVersions projectId secretName ;;
               items <- lift (get result "versions") ;;
               respond (or_else items (VArr [])) (Some (lit "versions")))
  | gcloud_access_secret_version projectId secretName version =>
      (payload <- accessSecretVersion projectId secretName (Some version) ;;
               encoded <- lift (get payload "data") ;;
               data <- lift (if truthy encoded then
                               match String_of encoded with
                               | inl e => inl e
                               | inr d => Base64.atob d
                               end
                             else inr []) ;;
               respond (VObj [(lit "secretName", VStr secretName);
                              (lit "version", VStr version);
                              (lit "data", VStr data)])
                       (Some (lit "secret_value")))
  | gcloud_add_secret_version projectId secretName payload =>
      (version <- addSecretVersion projectId secretName payload ;;
               respond (VObj [(lit "success", VBool true);
                              (lit "message", VStr "Secret version added");
                              (lit "version", version)]) None)
  (* ---- dns.ts ---- *)
  | gcloud_list_managed_zones projectId =>
      (result <- listManagedZones projectId ;;
               items <- lift (get result "managedZones") ;;
               respond (or_else items (VArr [])) (Some (lit "managed_zones")))
  | gcloud_get_managed_zone projectId zoneName =>
      (zone <- getManagedZone projectId zoneName ;;
               respond zone (Some (lit "managed_zone")))
  | gcloud_create_managed_zone projectId name dnsName description visibility =>
      (zone <-
                 createManagedZone projectId
                   (VObj [(lit "name", VStr name);
                          (lit "dnsName", VStr dnsName);
                          (lit "description", optional_string description);
                          (lit "visibility", VStr visibility)]) ;;
               respond (VObj [(lit "success", VBool true);
                              (lit "message",
                               VStr ("Managed zone " +++ name +++ " created"));
                              (lit "zone", zone)]) None)
  | gcloud_delete_managed_zone projectId zoneName =>
      (deleteManagedZone projectId zoneName ;;;
               respond (VObj [(lit "success", VBool true);
                              (lit "message",
                               VStr ("Managed zone " +++ zoneName +++ " deleted"))]) None)
  | gcloud_list_resource_record_sets projectId zoneName =>
      (result <- listResourceRecordSets projectId zoneName ;;
               items <- lift (get result "rrsets") ;;
               respond (or_else items (VArr [])) (Some (lit "resource_record_sets")))
  | gcloud_create_resource_record_set projectId zoneName name type ttl rrdatas =>
      (rrset <-
                 createResourceRecordSet projectId zoneName
                   (VObj [(lit "name", VStr name);
                          (lit "type", VStr type);
                          (lit "ttl", VNum ttl);
                          (lit "rrdatas", strings rrdatas)]) ;;
               respond (VObj [(lit "success", VBool true);
                              (lit "message", VStr "Resource record set created");
                              (lit "rrset", rrset)]) None)
  | gcloud_delete_resource_record_set projectId zoneName name type =>
      (deleteResourceRecordSet projectId zoneName name type ;;;
               respond (VObj [(lit "success", VBool true);
                              (lit "message",
                               VStr ("Record " +++ name +++ " (" +++ type
                                       +++ ") deleted"))]) None)
  (* ---- gke.ts ---- *)
  | gcloud_list_clusters projectId location =>
      (result <- listClusters projectId location ;;
               items <- lift (get result "clusters") ;;
               respond (or_else items (VArr [])) (Some (lit "clusters")))
  | gcloud_get_cluster projectId location clusterName =>
      (cluster <- getCluster projectId location clusterName ;;
               respond cluster (Some (lit "cluster")))
  | gcloud_delete_cluster projectId location clusterName =>
      (operation <- deleteCluster projectId location clusterName ;;
               respond (VObj [(lit "success", VBool true);
                              (lit "message",
                               VStr ("Cluster " +++ clusterName +++ " deletion initiated"));
                              (lit "operation", operation)]) None)
  | gcloud_list_node_pools projectId location clusterName =>
      (result <- listNodePools projectId location clusterName ;;
               items <- lift (get result "nodePools") ;;
               respond (or_else items (VArr [])) (Some (lit "node_pools")))
  | gcloud_get_node_pool projectId location clusterName nodePoolName =>
      (nodePool <- getNodePool projectId location clusterName nodePoolName ;;
               respond nodePool (Some (lit "node_pool")))
  (* ---- logging.ts ---- *)
  | gcloud_list_log_entries projectId filter pageSize =>
      (result <- listLogEntries projectId filter (Some pageSize) ;;
               items <- lift (get result "entries") ;;
               respond (or_else items (VArr [])) (Some (lit "log_entries")))
  | gcloud_write_log_entry projectId logName severity textMessage labels =>
      (writeLogEntries projectId logName
                 (VArr [VObj [(lit "severity", VStr severity);
                              (lit "textPayload", VStr textMessage);
                              (lit "labels", optional_record labels)]]) ;;;
               respond (VObj [(lit "success", VBool true);
                              (lit "message", VStr "Log entry written")]) None)
  | gcloud_write_log_json projectId logName severity jsonPayload labels =>
      (writeLogEntries projectId logName
                 (VArr [VObj [(lit "severity", VStr severity);
                              (lit "jsonPayload", VObj jsonPayload);
                              (lit "labels", optional_record labels)]]) ;;;
               respond (VObj [(lit "success", VBool true);
                              (lit "message", VStr "JSON log entry written")]) None)
  | gcloud_list_logs projectId =>
      (result <- listLogs projectId ;;
               items <- lift (get result "logNames") ;;
               respond (or_else items (VArr [])) (Some (lit "logs")))
  (* ---- index.ts ---- *)
  | gcloud_test_connection =>
      (result <- testConnection ;;
       ret {| content := [{| type := lit "text"; text := JSON.stringify result |}];
              isError := false |})
  end.

(** The [catch] block: [formatError(error)] in [tools/*.ts], a line of
    text in [index.ts]. *)
Definition recover (t : Tool) (error : Exn) : result Envelope :=
  match t with
  | gcloud_test_connection =>
      match String_of (if instanceof_Error error
                       then err_message (describe error)
                       else VStr "Unknown error") with
      | inl e => inl e
      | inr reason =>
          inr {| content :=
                   [{| type := lit "text";
                       text := Some ("Connection failed: " +++ reason) |}];
                 isError := true |}
      end
  | _ => inr (formatError error)
  end.

(** [async (args) => { try { ... } catch (error) { return ...; } }] *)
Definition handler (t : Tool) : M Envelope :=
  try_catch (attempt t) (fun error => lift (recover t error)).

End Server.

(* ================================================================== *)
(** ** [index.ts]: the worker *)
(* ================================================================== *)

Module Worker.

(** What the handler reads of the incoming request: the path of its URL
    and its method; the credentials are parsed from its headers. *)
Record Incoming : Type := {
  pathname : jsstring;
  http_method : jsstring;
  headers : list (jsstring * jsstring)
}.

(** A [Response] the handler builds: the status, the [Content-Type] it
    sets, and the body. *)
Record Outgoing : Type := {
  out_status : Z;
  content_type : option jsstring;
  out_body : option jsstring
}.

(** The handler answers by itself, or hands the request to the MCP
    handler of a server made for the credentials. *)
Inductive Served : Type :=
| Answered (response : Outgoing)
| Delegated (credentials : TenantCredentials).

Definition SERVER_NAME : jsstring := "primrose-mcp-gcloud".
Definition SERVER_VERSION : jsstring := "1.0.0".

Definition json_response (status : Z) (v : value) : Outgoing :=
  {| out_status := status;
     content_type := Some (lit "application/json");
     out_body := JSON.compact v |}.

Section Fetch.

(** [types/env.ts] is not among the sources: how the credentials are read
    from the headers and when they are refused are parameters. *)
Variable parseTenantCredentials : Incoming -> TenantCredentials.
Variable validateCredentials : TenantCredentials -> result unit.
Variable describe : Exn -> ErrorFields.

Definition fetch (request : Incoming) : Served :=
  if JS.eqb (pathname request) "/health" then
    Answered (json_response 200
                (VObj [(lit "status", VStr "ok"); (lit "server", VStr SERVER_NAME)]))
  else if JS.eqb (pathname request) "/mcp" && JS.eqb (http_method request) "POST" then
    let credentials := parseTenantCredentials request in
    match validateCredentials credentials with
    | inl error =>
        Answered
          (json_response 401
             (VObj [(lit "error", VStr "Unauthorized");
                    (lit "message",
                     if instanceof_Error error then err_message (describe error)
                     else VStr "Invalid credentials");
                    (lit "required_headers", VArr [VStr "X-GCloud-Access-Token"])]))
    | inr _ => Delegated credentials
    end
  else if JS.eqb (pathname request) "/sse" then
    Answered
      {| out_status := 501;
         content_type := None;
         out_body :=
           Some (lit "SSE endpoint requires Durable Objects. Enable in wrangler.jsonc.") |}
  else
    Answered
      (json_response 200
         (VObj
            [(lit "name", VStr SERVER_NAME);
             (lit "version", VStr SERVER_VERSION);
             (lit "description",
              VStr "Google Cloud Platform MCP Server - Multi-tenant");
             (lit "endpoints",
              VObj [(lit "mcp", VStr "/mcp (POST) - Streamable HTTP MCP endpoint");
                    (lit "health", VStr "/health - Health check")]);
             (lit "authentication",
              VObj [(lit "description",
                     VStr "Pass tenant credentials via request headers");
                    (lit "required_headers",
                     VObj [(lit "X-GCloud-Access-Token",
                            VStr "OAuth 2.0 access token (generate with: gcloud auth print-access-token)")]);
                    (lit "optional_headers",
                     VObj [(lit "X-GCloud-Project-ID",
                            VStr "Default project ID for API calls")])]);
             (lit "services",
              VArr [VStr "Compute Engine (instances, disks, networks, firewalls)";
                    VStr "Cloud Storage (buckets, objects)";
                    VStr "Cloud Functions";
                    VStr "Cloud Run";
                    VStr "BigQuery (datasets, tables, queries)";
                    VStr "Pub/Sub (topics, subscriptions, messages)";
                    VStr "Cloud SQL (instances, databases)";
                    VStr "IAM (service accounts, policies, roles)";
                    VStr "Secret Manager (secrets, versions)";
                    VStr "Cloud DNS (managed zones, records)";
                    VStr "GKE (clusters, node pools)";
                    VStr "Cloud Logging (entries, logs)"])])).

End Fetch.

End Worker.

(* ================================================================== *)
(** ** The vocabulary of the properties *)
(* ================================================================== *)

(** The requests a computation adds to the log it starts from. *)
Definition sent {A} (m : M A) (log : list Request) : list Request :=
  skipn (List.length log) (snd (m log)).

(** What the client makes of the answer to a request. *)
Definition outcome (fetch : list Request -> Request -> option Response)
    (log : list Request) (rq : Request) : result value :=
  match fetch log rq with
  | None => inl TypeError
  | Some response => read_response (req_url rq) response
  end.

(** A computation that calls no [fetch]: it leaves the log alone and its
    result does not depend on it. *)
Definition Pure {A} (m : M A) : Prop :=
  forall log, m log = (fst (m []), log).

(** A computation that sends at most [n] requests, each of which
    satisfies [P]. *)
Definition Sends {A} (n : nat) (P : Request -> Prop) (m : M A) : Prop :=
  forall log, exists extra,
    snd (m log) = log ++ extra /\ List.length extra <= n /\ Forall P extra.

(** What a computation can return. *)
Definition Yields {A} (Q : A -> Prop) (m : M A) : Prop :=
  forall log a, fst (m log) = inr a -> Q a.

(** Whatever fails is the end: the computation stops at the first request
    whose outcome is an error [e], and answers [wrap e]. *)
Definition Fails {A} (fetch : list Request -> Request -> option Response)
    (wrap : Exn -> result A) (m : M A) : Prop :=
  forall log, exists extra,
    snd (m log) = log ++ extra
    /\ forall pre rq post e,
         extra = pre ++ rq :: post ->
         outcome fetch (log ++ pre) rq = inl e ->
         post = [] /\ fst (m log) = wrap e.

(** Two computations that send the same requests, whatever is answered. *)
Definition SameSent {A B} (m1 : M A) (m2 : M B) : Prop :=
  forall log1 log2, exists extra,
    snd (m1 log1) = log1 ++ extra /\ snd (m2 log2) = log2 ++ extra.

(** A computation that throws before it sends anything. *)
Definition Throws {A} (S : Exn -> Prop) (m : M A) : Prop :=
  forall log, exists e, m log = (inl e, log) /\ S e.

(** What a computation can throw. *)
Definition Raises {A} (Q : Exn -> Prop) (m : M A) : Prop :=
  forall log e, fst (m log) = inl e -> Q e.

(** A synchronous expression that throws instances of [Error] only. *)
Definition throws_errors {A} (r : result A) : Prop :=
  forall e, r = inl e -> instanceof_Error e = true.

(** A computation that sends exactly one request. *)
Definition SendsOne {A} (m : M A) : Prop :=
  forall log, exists rq, snd (m log) = log ++ [rq].

(** Every code unit is at most 0xFF. *)
Definition latin1 (s : jsstring) : Prop := Forall (fun c => (c < 256)%N) s.

(** The coarse kinds of error of the specification. *)
Inductive Kind : Type :=
| RateLimited
| Unauthenticated
| PermissionDenied
| NotFound
| Generic (statusCode : Z).

Definition kind_of (e : Exn) : option Kind :=
  match e with
  | RateLimitError _ _ => Some RateLimited
  | AuthenticationError _ => Some Unauthenticated
  | PermissionDeniedError _ => Some PermissionDenied
  | NotFoundError _ _ => Some NotFound
  | GCloudApiError _ s => Some (Generic s)
  | TypeError | SyntaxError | InvalidCharacterError | URIError => None
  | NotAnError _ => None
  end.

(** The kind that the specification gives to a status; [None] for a 2xx
    status, which is no error. *)
Definition kind_of_status (s : Z) : option Kind :=
  if (s =? 429)%Z then Some RateLimited
  else if (s =? 401)%Z then Some Unauthenticated
  else if (s =? 403)%Z then Some PermissionDenied
  else if (s =? 404)%Z then Some NotFound
  else if (200 <=? s)%Z && (s <=? 299)%Z then None
  else Some (Generic s).

(** The message of the provider: [error.message] of the body. *)
Definition provider_message (r : Response) : value :=
  match json r with
  | Some body => get_opt (get_opt body "error") "message"
  | None => VUndefined
  end.

(** [{ content: [{ type: 'text', text }] }], with or without [isError]. *)
Definition text_envelope (t : option jsstring) (flag : bool) : Envelope :=
  {| content := [{| type := lit "text"; text := t |}]; isError := flag |}.

Definition is_policy_update (t : Tool) : bool :=
  match t with
  | gcloud_set_project_iam_policy _ _ => true
  | _ => false
  end.

Definition is_connection_test (t : Tool) : bool :=
  match t with
  | gcloud_test_connection => true
  | _ => false
  end.

(** The tools that hand the answer of the provider to [formatResponse]
    as it is. *)
Definition passes_through (t : Tool) : bool :=
  match t with
  | gcloud_get_instance _ _ _ | gcloud_get_disk _ _ _ | gcloud_get_network _ _
  | gcloud_get_firewall _ _ | gcloud_get_bucket _ | gcloud_get_object _ _
  | gcloud_get_function _ _ _ | gcloud_get_cloud_run_service _ _ _
  | gcloud_get_dataset _ _ | gcloud_get_table _ _ _ | gcloud_bigquery_query _ _ _
  | gcloud_get_topic _ _ | gcloud_get_subscription _ _
  | gcloud_get_sql_instance _ _ | gcloud_get_database _ _ _
  | gcloud_get_service_account _ _ | gcloud_get_project_iam_policy _
  | gcloud_get_secret _ _ | gcloud_get_managed_zone _ _
  | gcloud_get_cluster _ _ _ | gcloud_get_node_pool _ _ _ _ => true
  | _ => false
  end.

(** The tools that list, with the member of the answer of the provider
    that each one hands to [formatResponse]. *)
Definition listed_member (t : Tool) : option jsstring :=
  match t with
  | gcloud_list_instances _ _ | gcloud_list_disks _ _
  | gcloud_list_networks _ | gcloud_list_firewalls _
  | gcloud_list_buckets _ | gcloud_list_objects _ _ _
  | gcloud_list_sql_instances _ | gcloud_list_databases _ _ =>
      Some (lit "items")
  | gcloud_list_functions _ _ =>
      Some (lit "functions")
  | gcloud_list_cloud_run_services _ _ =>
      Some (lit "services")
  | gcloud_list_datasets _ =>
      Some (lit "datasets")
  | gcloud_list_tables _ _ =>
      Some (lit "tables")
  | gcloud_list_topics _ =>
      Some (lit "topics")
  | gcloud_list_subscriptions _ =>
      Some (lit "subscriptions")
  | gcloud_list_service_accounts _ =>
      Some (lit "accounts")
  | gcloud_list_roles _ =>
      Some (lit "roles")
  | gcloud_list_secrets _ =>
      Some (lit "secrets")
  | gcloud_list_secret_versions _ _ =>
      Some (lit "versions")
  | gcloud_list_managed_zones _ =>
      Some (lit "managedZones")
  | gcloud_list_resource_record_sets _ _ =>
      Some (lit "rrsets")
  | gcloud_list_clusters _ _ =>
      Some (lit "clusters")
  | gcloud_list_node_pools _ _ _ =>
      Some (lit "nodePools")
  | gcloud_list_log_entries _ _ _ =>
      Some (lit "entries")
  | gcloud_list_logs _ =>
      Some (lit "logNames")
  | _ => None
  end.

(** The tools whose arguments go into the request without [btoa] or
    [encodeURIComponent], the policy update and the connection test
    apart. *)
Definition plain (t : Tool) : bool :=
  match t with
  | gcloud_get_object _ _ | gcloud_delete_object _ _ | gcloud_copy_object _ _ _ _
  | gcloud_publish_message _ _ _ _ | gcloud_add_secret_version _ _ _
  | gcloud_write_log_entry _ _ _ _ _ | gcloud_write_log_json _ _ _ _ _
  | gcloud_set_project_iam_policy _ _ | gcloud_test_connection => false
  | _ => true
  end.

Definition is_policy_call (c : Call) : bool :=
  match c with
  | GetProjectIamPolicy _ | SetProjectIamPolicy _ _ => true
  | _ => false
  end.

(** The operations that encode an argument with [btoa] or
    [encodeURIComponent] before they call [request]. *)
Definition encodes_argument (c : Call) : bool :=
  match c with
  | GetObject _ _ | DeleteObject _ _ | CopyObject _ _ _ _
  | AddSecretVersion _ _ _ | WriteLogEntries _ _ _ => true
  | _ => false
  end.

Definition is_connection_call (c : Call) : bool :=
  match c with
  | TestConnection => true
  | _ => false
  end.

(** The URL of the request begins with one of the twelve bases. *)
Definition contacts_listed_service (rq : Request) : bool :=
  existsb (fun base => JS.starts_with base (req_url rq)) API_URLS.all.

(** The two headers of [getAuthHeaders]. *)
Definition auth_headers (token : jsstring) : list (jsstring * jsstring) :=
  [(lit "Authorization", "Bearer " +++ token);
   (lit "Content-Type", lit "application/json")].

Definition bearer (credentials : TenantCredentials) (rq : Request) : Prop :=
  exists token,
    nonempty (accessToken credentials) = Some token
    /\ req_headers rq = auth_headers token.

Definition no_token : Exn :=
  AuthenticationError "No access token provided. Include X-GCloud-Access-Token header.".

(** The object whose text is the payload of an error. *)
Definition error_object (f : ErrorFields) : value :=
  VObj [(lit "error", VBool true);
        (lit "name", err_name f);
        (lit "message", err_message f);
        (lit "code", err_code f);
        (lit "statusCode", err_statusCode f)].

(** The cell of the table, in the words of the specification. *)
Definition spec_cell (v : value) : jsstring :=
  match v with
  | VUndefined | VNull => lit "-"
  | VArr _ | VObj _ => lit "[object]"
  | VBool b => firstn 50 (boolean_text b)
  | VNum n => firstn 50 (JS.of_Z n)
  | VReal t => firstn 50 t
  | VStr s => firstn 50 s
  end.

(** The table, in the words of the specification: a header of the
    columns, a separator, and one row per item. *)
Definition spec_table (items : list value) (columns : list jsstring) : jsstring :=
  JS.join JS.nl
    (row columns
     :: row (map (fun _ => lit "---") columns)
     :: map (fun item => row (map (fun key => spec_cell (get_opt item key)) columns))
            items).

(** A transport that gives the same answer to every request. *)
Definition always (r : Response) : list Request -> Request -> option Response :=
  fun _ _ => Some r.

(** Error objects that keep the message they were built with and carry
    nothing else; used where a statement needs some error classes. *)
Definition bare_errors (e : Exn) : ErrorFields :=
  {| err_name := VUndefined;
     err_message :=
       match e with
       | RateLimitError m _ | AuthenticationError m | PermissionDeniedError m => VStr m
       | GCloudApiError m _ => m
       | _ => VUndefined
       end;
     err_code := VUndefined;
     err_statusCode := VUndefined |}.

(** The items on which the table of [formatArrayAsMarkdown] cannot be
    built: the first one is an object with a key, and another one is
    [null] or [undefined]. *)
Definition has_hole (data : value) : Prop :=
  exists first rest,
    data = VArr (first :: rest)
    /\ typeof_object first = true
    /\ is_null first = false
    /\ Object_keys first <> []
    /\ Exists (fun item => nullish item = true) rest.

(** A request as the client sends them: a GET or a DELETE without a body,
    or a POST or a PUT. *)
Definition method_fits_body (rq : Request) : Prop :=
  match req_method rq with
  | None => req_body rq = None
  | Some m =>
      (m = lit "DELETE" /\ req_body rq = None) \/ m = lit "POST" \/ m = lit "PUT"
  end.

(** The body of a request is the JSON text of an object, if there is one. *)
Definition sends_object (rq : Request) : Prop :=
  req_body rq = None
  \/ exists props rest,
       req_body rq = JSON.compact (VObj props)
       /\ req_body rq = Some (lit "{" ++ rest).

(** The characters that delimit the parts of a URL: [/ ? # & = : ; @ + $ ,]
    and the space. *)
Definition is_delimiter (c : N) : bool :=
  existsb (N.eqb c) [47; 63; 35; 38; 61; 58; 59; 64; 43; 36; 44; 32]%N.

(** What the serializer of [URLSearchParams] leaves as it is. *)
Definition form_plain (c : N) : bool :=
  URI.is_alphanumeric c || existsb (N.eqb c) [42; 45; 46; 95]%N.

(** The number that a run of decimal digits adds to what was read. *)
Fixpoint uint_value (d : Decimal.uint) (acc : Z) : Z :=
  match d with
  | Decimal.Nil => acc
  | Decimal.D0 l => uint_value l (10 * acc)
  | Decimal.D1 l => uint_value l (10 * acc + 1)
  | Decimal.D2 l => uint_value l (10 * acc + 2)
  | Decimal.D3 l => uint_value l (10 * acc + 3)
  | Decimal.D4 l => uint_value l (10 * acc + 4)
  | Decimal.D5 l => uint_value l (10 * acc + 5)
  | Decimal.D6 l => uint_value l (10 * acc + 6)
  | Decimal.D7 l => uint_value l (10 * acc + 7)
  | Decimal.D8 l => uint_value l (10 * acc + 8)
  | Decimal.D9 l => uint_value l (10 * acc + 9)
  end%Z.

(** The member that an optional argument adds to a body: none when the
    argument was not given. *)
Definition given (key : jsstring) (argument : option jsstring)
    : list (jsstring * value) :=
  match argument with
  | Some v => [(key, VStr v)]
  | None => []
  end.

(** A request without its headers. *)
Definition unsigned (rq : Request) : jsstring * option jsstring * option jsstring :=
  (req_url rq, req_method rq, req_body rq).

(** Two computations that send the same requests but for the headers,
    whatever is answered. *)
Definition Alike {A B} (m1 : M A) (m2 : M B) : Prop :=
  forall log1 log2, exists x1 x2,
    snd (m1 log1) = log1 ++ x1 /\ snd (m2 log2) = log2 ++ x2
    /\ map unsigned x1 = map unsigned x2.

(** *** Numbers and inherited members *)

(** An integer that a double holds as it is. *)
Definition safe_integer (n : Z) : bool := (Z.abs n <=? 9007199254740991)%Z.

(** The numbers of a value are kept as the conventions say: what [VNum]
    holds is a safe integer. *)
Fixpoint exact (v : value) : bool :=
  match v with
  | VNum n => safe_integer n
  | VArr items =>
      (fix all (l : list value) : bool :=
         match l with
         | [] => true
         | x :: l' => exact x && all l'
         end) items
  | VObj props =>
      (fix all (l : list (jsstring * value)) : bool :=
         match l with
         | [] => true
         | (_, x) :: l' => exact x && all l'
         end) props
  | _ => true
  end.

(** The names of the members of [Object.prototype], [Array.prototype],
    [String.prototype], [Number.prototype] and [Boolean.prototype]. *)
Definition object_members : list jsstring :=
  map lit
    ["constructor"; "__defineGetter__"; "__defineSetter__"; "hasOwnProperty";
     "__lookupGetter__"; "__lookupSetter__"; "isPrototypeOf";
     "propertyIsEnumerable"; "toString"; "valueOf"; "__proto__";
     "toLocaleString"]%string.

Definition array_members : list jsstring :=
  map lit
    ["length"; "constructor"; "at"; "concat"; "copyWithin"; "fill"; "find";
     "findIndex"; "findLast"; "findLastIndex"; "lastIndexOf"; "pop"; "push";
     "reverse"; "shift"; "unshift"; "slice"; "sort"; "splice"; "includes";
     "indexOf"; "join"; "keys"; "entries"; "values"; "forEach"; "filter";
     "flat"; "flatMap"; "map"; "every"; "some"; "reduce"; "reduceRight";
     "toReversed"; "toSorted"; "toSpliced"; "with"; "toLocaleString";
     "toString"]%string.

Definition string_members : list jsstring :=
  map lit
    ["length"; "constructor"; "anchor"; "at"; "big"; "blink"; "bold";
     "charAt"; "charCodeAt"; "codePointAt"; "concat"; "endsWith";
     "fontcolor"; "fontsize"; "fixed"; "includes"; "indexOf"; "isWellFormed";
     "italics"; "lastIndexOf"; "link"; "localeCompare"; "match"; "matchAll";
     "normalize"; "padEnd"; "padStart"; "repeat"; "replace"; "replaceAll";
     "search"; "slice"; "small"; "split"; "strike"; "sub"; "substr";
     "substring"; "sup"; "startsWith"; "toString"; "toWellFormed"; "trim";
     "trimStart"; "trimLeft"; "trimEnd"; "trimRight"; "toLocaleLowerCase";
     "toLocaleUpperCase"; "toLowerCase"; "toUpperCase"; "valueOf"]%string.

Definition number_members : list jsstring :=
  map lit
    ["constructor"; "toExponential"; "toFixed"; "toPrecision"; "toString";
     "valueOf"; "toLocaleString"]%string.

Definition boolean_members : list jsstring :=
  map lit ["constructor"; "toString"; "valueOf"]%string.

(** [Object.hasOwn(v, key)] *)
Definition own (v : value) (key : jsstring) : bool :=
  match v with
  | VObj props => existsb (JS.eqb key) (map fst props)
  | VArr items =>
      match index_of_key key with
      | Some i => Nat.ltb i (List.length items)
      | None => JS.eqb key "length"
      end
  | VStr s =>
      match index_of_key key with
      | Some i => Nat.ltb i (List.length s)
      | None => JS.eqb key "length"
      end
  | _ => false
  end.

(** Reading [v[key]] finds a member of a prototype: [v] has no property
    [key] of its own, and its prototype or [Object.prototype] has one. *)
Definition inherits (v : value) (key : jsstring) : bool :=
  negb (own v key)
  && existsb (JS.eqb key)
       (match v with
        | VUndefined | VNull => []
        | VObj _ => object_members
        | VArr _ => array_members ++ object_members
        | VStr _ => string_members ++ object_members
        | VNum _ | VReal _ => number_members ++ object_members
        | VBool _ => boolean_members ++ object_members
        end).

(** *** Services and endpoints *)

(** The twelve services of [API_URLS], and the Resource Manager. *)
Inductive Service : Type :=
| Compute | Storage | Functions | Run | BigQuery | PubSub | Sql | Iam
| SecretManager | Dns | Container | Logging | ResourceManager.

Definition base_url (s : Service) : jsstring :=
  match s with
  | Compute => API_URLS.compute
  | Storage => API_URLS.storage
  | Functions => API_URLS.functions
  | Run => API_URLS.run
  | BigQuery => API_URLS.bigquery
  | PubSub => API_URLS.pubsub
  | Sql => API_URLS.sql
  | Iam => API_URLS.iam
  | SecretManager => API_URLS.secretmanager
  | Dns => API_URLS.dns
  | Container => API_URLS.container
  | Logging => API_URLS.logging
  | ResourceManager => lit "https://cloudresourcemanager.googleapis.com/v1"
  end.

(** Where a request goes: the service, the method, and the path after the
    base URL of the service, query included. *)
Record Endpoint : Type := {
  service : Service;
  verb : jsstring;
  path : jsstring
}.

Definition via (s : Service) (m p : jsstring) : option Endpoint :=
  Some {| service := s; verb := m; path := p |}.

(** The query of [listObjects]: the parameters that are given, [prefix]
    before [maxResults]. *)
Definition objects_query (prefix : option jsstring) (maxResults : option Z)
    : jsstring :=
  match nonempty prefix, maxResults with
  | None, (None | Some 0%Z) => []
  | Some p, (None | Some 0%Z) => lit "?prefix=" ++ URI.form_encode p
  | None, Some n => lit "?maxResults=" ++ JS.of_Z n
  | Some p, Some n =>
      lit "?prefix=" ++ URI.form_encode p ++ lit "&maxResults=" ++ JS.of_Z n
  end.

(** The number that an operation writes into its URL is kept as the
    conventions say: [listObjects] is the one operation that writes one. *)
Definition url_exact (c : Call) : bool :=
  match c with
  | ListObjects _ _ (Some maxResults) => safe_integer maxResults
  | _ => true
  end.

(** The endpoint of every operation of the client, as a template over its
    arguments; [None] when the operation sends nothing: an argument that
    cannot be encoded, a connection test without a project. *)
Definition endpoint (credentials : TenantCredentials) (c : Call)
    : option Endpoint :=
  match c with
  | TestConnection =>
      match nonempty (projectId credentials) with
      | Some projectId => via Compute "GET" ("/projects/" +++ projectId)
      | None => None
      end
  | ListInstances projectId zone =>
      via Compute "GET"
         ("/projects/" +++ projectId +++ "/zones/" +++ zone
            +++ "/instances")
  | GetInstance projectId zone instanceName =>
      via Compute "GET"
         ("/projects/" +++ projectId +++ "/zones/" +++ zone
            +++ "/instances/" +++ instanceName)
  | CreateInstance projectId zone _ =>
      via Compute "POST"
         ("/projects/" +++ projectId +++ "/zones/" +++ zone
            +++ "/instances")
  | DeleteInstance projectId zone instanceName =>
      via Compute "DELETE"
         ("/projects/" +++ projectId +++ "/zones/" +++ zone
            +++ "/instances/" +++ instanceName)
  | StartInstance projectId zone instanceName =>
      via Compute "POST"
         ("/projects/" +++ projectId +++ "/zones/" +++ zone
            +++ "/instances/" +++ instanceName +++ "/start")
  | StopInstance projectId zone instanceName =>
      via Compute "POST"
         ("/projects/" +++ projectId +++ "/zones/" +++ zone
            +++ "/instances/" +++ instanceName +++ "/stop")
  | ResetInstance projectId zone instanceName =>
      via Compute "POST"
         ("/projects/" +++ projectId +++ "/zones/" +++ zone
            +++ "/instances/" +++ instanceName +++ "/reset")
  | ListDisks projectId zone =>
      via Compute "GET"
         ("/projects/" +++ projectId +++ "/zones/" +++ zone
            +++ "/disks")
  | GetDisk projectId zone diskName =>
      via Compute "GET"
         ("/projects/" +++ projectId +++ "/zones/" +++ zone
            +++ "/disks/" +++ diskName)
  | CreateDisk projectId zone _ =>
      via Compute "POST"
         ("/projects/" +++ projectId +++ "/zones/" +++ zone
            +++ "/disks")
  | DeleteDisk projectId zone diskName =>
      via Compute "DELETE"
         ("/projects/" +++ projectId +++ "/zones/" +++ zone
            +++ "/disks/" +++ diskName)
  | ResizeDisk projectId zone diskName _ =>
      via Compute "POST"
         ("/projects/" +++ projectId +++ "/zones/" +++ zone
            +++ "/disks/" +++ diskName +++ "/resize")
  | ListNetworks projectId =>
      via Compute "GET"
         ("/projects/" +++ projectId +++ "/global/networks")
  | GetNetwork projectId networkName =>
      via Compute "GET"
         ("/projects/" +++ projectId +++ "/global/networks/"
            +++ networkName)
  | CreateNetwork projectId _ =>
      via Compute "POST"
         ("/projects/" +++ projectId +++ "/global/networks")
  | DeleteNetwork projectId networkName =>
      via Compute "DELETE"
         ("/projects/" +++ projectId +++ "/global/networks/"
            +++ networkName)
  | ListFirewalls projectId =>
      via Compute "GET"
         ("/projects/" +++ projectId +++ "/global/firewalls")
  | GetFirewall projectId firewallName =>
      via Compute "GET"
         ("/projects/" +++ projectId +++ "/global/firewalls/"
            +++ firewallName)
  | CreateFirewall projectId _ =>
      via Compute "POST"
         ("/projects/" +++ projectId +++ "/global/firewalls")
  | DeleteFirewall projectId firewallName =>
      via Compute "DELETE"
         ("/projects/" +++ projectId +++ "/global/firewalls/"
            +++ firewallName)
  | ListBuckets projectId =>
      via Storage "GET"
         ("/b?project=" +++ projectId)
  | GetBucket bucketName =>
      via Storage "GET"
         ("/b/" +++ bucketName)
  | CreateBucket projectId _ =>
      via Storage "POST"
         ("/b?project=" +++ projectId)
  | DeleteBucket bucketName =>
      via Storage "DELETE"
         ("/b/" +++ bucketName)
  | ListObjects bucketName prefix maxResults =>
      via Storage "GET"
         ("/b/" +++ bucketName +++ "/o" +++ objects_query prefix maxResults)
  | GetObject bucketName objectName =>
      match URI.encodeURIComponent objectName with
      | inr encoded =>
          via Storage "GET" ("/b/" +++ bucketName +++ "/o/" +++ encoded)
      | inl _ => None
      end
  | DeleteObject bucketName objectName =>
      match URI.encodeURIComponent objectName with
      | inr encoded =>
          via Storage "DELETE" ("/b/" +++ bucketName +++ "/o/" +++ encoded)
      | inl _ => None
      end
  | CopyObject sourceBucket sourceObject destBucket destObject =>
      match URI.encodeURIComponent sourceObject,
            URI.encodeURIComponent destObject with
      | inr source, inr dest =>
          via Storage "POST"
             ("/b/" +++ sourceBucket +++ "/o/" +++ source +++ "/copyTo/b/"
                +++ destBucket +++ "/o/" +++ dest)
      | _, _ => None
      end
  | ListFunctions projectId location =>
      via Functions "GET"
         ("/projects/" +++ projectId +++ "/locations/"
            +++ location +++ "/functions")
  | GetFunction projectId location functionName =>
      via Functions "GET"
         ("/projects/" +++ projectId +++ "/locations/"
            +++ location +++ "/functions/" +++ functionName)
  | DeleteFunction projectId location functionName =>
      via Functions "DELETE"
         ("/projects/" +++ projectId +++ "/locations/"
            +++ location +++ "/functions/" +++ functionName)
  | ListCloudRunServices projectId location =>
      via Run "GET"
         ("/projects/" +++ projectId +++ "/locations/"
            +++ location +++ "/services")
  | GetCloudRunService projectId location serviceName =>
      via Run "GET"
         ("/projects/" +++ projectId +++ "/locations/"
            +++ location +++ "/services/" +++ serviceName)
  | DeleteCloudRunService projectId location serviceName =>
      via Run "DELETE"
         ("/projects/" +++ projectId +++ "/locations/"
            +++ location +++ "/services/" +++ serviceName)
  | ListDatasets projectId =>
      via BigQuery "GET"
         ("/projects/" +++ projectId +++ "/datasets")
  | GetDataset projectId datasetId =>
      via BigQuery "GET"
         ("/projects/" +++ projectId +++ "/datasets/"
            +++ datasetId)
  | CreateDataset projectId _ =>
      via BigQuery "POST"
         ("/projects/" +++ projectId +++ "/datasets")
  | DeleteDataset projectId datasetId deleteContents =>
      via BigQuery "DELETE"
         ("/projects/" +++ projectId +++ "/datasets/" +++ datasetId
            +++ "?deleteContents="
            +++ match deleteContents with
                | Some true => lit "true"
                | _ => lit "false"
                end)
  | ListTables projectId datasetId =>
      via BigQuery "GET"
         ("/projects/" +++ projectId +++ "/datasets/"
            +++ datasetId +++ "/tables")
  | GetTable projectId datasetId tableId =>
      via BigQuery "GET"
         ("/projects/" +++ projectId +++ "/datasets/"
            +++ datasetId +++ "/tables/" +++ tableId)
  | RunQuery projectId _ _ =>
      via BigQuery "POST" ("/projects/" +++ projectId +++ "/queries")
  | ListTopics projectId =>
      via PubSub "GET"
         ("/projects/" +++ projectId +++ "/topics")
  | GetTopic projectId topicName =>
      via PubSub "GET"
         ("/projects/" +++ projectId +++ "/topics/" +++ topicName)
  | CreateTopic projectId topicName =>
      via PubSub "PUT"
         ("/projects/" +++ projectId +++ "/topics/" +++ topicName)
  | DeleteTopic projectId topicName =>
      via PubSub "DELETE"
         ("/projects/" +++ projectId +++ "/topics/" +++ topicName)
  | PublishMessage projectId topicName _ =>
      via PubSub "POST"
         ("/projects/" +++ projectId +++ "/topics/" +++ topicName
            +++ ":publish")
  | ListSubscriptions projectId =>
      via PubSub "GET"
         ("/projects/" +++ projectId +++ "/subscriptions")
  | GetSubscription projectId subscriptionName =>
      via PubSub "GET"
         ("/projects/" +++ projectId +++ "/subscriptions/"
            +++ subscriptionName)
  | CreateSubscription projectId subscriptionName _ =>
      via PubSub "PUT"
         ("/projects/" +++ projectId +++ "/subscriptions/"
            +++ subscriptionName)
  | DeleteSubscription projectId subscriptionName =>
      via PubSub "DELETE"
         ("/projects/" +++ projectId +++ "/subscriptions/"
            +++ subscriptionName)
  | PullMessages projectId subscriptionName _ =>
      via PubSub "POST"
         ("/projects/" +++ projectId +++ "/subscriptions/"
            +++ subscriptionName +++ ":pull")
  | AcknowledgeMessages projectId subscriptionName _ =>
      via PubSub "POST"
         ("/projects/" +++ projectId +++ "/subscriptions/"
            +++ subscriptionName +++ ":acknowledge")
  | ListSqlInstances projectId =>
      via Sql "GET"
         ("/projects/" +++ projectId +++ "/instances")
  | GetSqlInstance projectId instanceName =>
      via Sql "GET"
         ("/projects/" +++ projectId +++ "/instances/"
            +++ instanceName)
  | DeleteSqlInstance projectId instanceName =>
      via Sql "DELETE"
         ("/projects/" +++ projectId +++ "/instances/"
            +++ instanceName)
  | RestartSqlInstance projectId instanceName =>
      via Sql "POST"
         ("/projects/" +++ projectId +++ "/instances/"
            +++ instanceName +++ "/restart")
  | ListDatabases projectId instanceName =>
      via Sql "GET"
         ("/projects/" +++ projectId +++ "/instances/"
            +++ instanceName +++ "/databases")
  | GetDatabase projectId instanceName databaseName =>
      via Sql "GET"
         ("/projects/" +++ projectId +++ "/instances/"
            +++ instanceName +++ "/databases/" +++ databaseName)
  | CreateDatabase projectId instanceName _ =>
      via Sql "POST"
         ("/projects/" +++ projectId +++ "/instances/"
            +++ instanceName +++ "/databases")
  | DeleteDatabase projectId instanceName databaseName =>
      via Sql "DELETE"
         ("/projects/" +++ projectId +++ "/instances/"
            +++ instanceName +++ "/databases/" +++ databaseName)
  | ListServiceAccounts projectId =>
      via Iam "GET"
         ("/projects/" +++ projectId +++ "/serviceAccounts")
  | GetServiceAccount projectId email =>
      via Iam "GET"
         ("/projects/" +++ projectId +++ "/serviceAccounts/"
            +++ email)
  | CreateServiceAccount projectId _ _ =>
      via Iam "POST"
         ("/projects/" +++ projectId +++ "/serviceAccounts")
  | DeleteServiceAccount projectId email =>
      via Iam "DELETE"
         ("/projects/" +++ projectId +++ "/serviceAccounts/"
            +++ email)
  | GetProjectIamPolicy projectId =>
      via ResourceManager "POST" ("/projects/" +++ projectId +++ ":getIamPolicy")
  | SetProjectIamPolicy projectId _ =>
      via ResourceManager "POST" ("/projects/" +++ projectId +++ ":setIamPolicy")
  | ListRoles projectId =>
      via Iam "GET"
         (match nonempty projectId with
          | Some projectId => "/projects/" +++ projectId +++ "/roles"
          | None => lit "/roles"
          end)
  | ListSecrets projectId =>
      via SecretManager "GET"
         ("/projects/" +++ projectId +++ "/secrets")
  | GetSecret projectId secretName =>
      via SecretManager "GET"
         ("/projects/" +++ projectId +++ "/secrets/"
            +++ secretName)
  | CreateSecret projectId secretId _ =>
      via SecretManager "POST"
         ("/projects/" +++ projectId +++ "/secrets?secretId="
            +++ secretId)
  | DeleteSecret projectId secretName =>
      via SecretManager "DELETE"
         ("/projects/" +++ projectId +++ "/secrets/"
            +++ secretName)
  | ListSecretVersions projectId secretName =>
      via SecretManager "GET"
         ("/projects/" +++ projectId +++ "/secrets/"
            +++ secretName +++ "/versions")
  | AccessSecretVersion projectId secretName version =>
      via SecretManager "GET"
         ("/projects/" +++ projectId +++ "/secrets/" +++ secretName
            +++ "/versions/"
            +++ (match version with Some v => v | None => lit "latest" end)
            +++ ":access")
  | AddSecretVersion projectId secretName payload =>
      match Base64.btoa payload with
      | inr _ =>
          via SecretManager "POST"
             ("/projects/" +++ projectId +++ "/secrets/" +++ secretName
                +++ ":addVersion")
      | inl _ => None
      end
  | ListManagedZones projectId =>
      via Dns "GET"
         ("/projects/" +++ projectId +++ "/managedZones")
  | GetManagedZone projectId zoneName =>
      via Dns "GET"
         ("/projects/" +++ projectId +++ "/managedZones/"
            +++ zoneName)
  | CreateManagedZone projectId _ =>
      via Dns "POST"
         ("/projects/" +++ projectId +++ "/managedZones")
  | DeleteManagedZone projectId zoneName =>
      via Dns "DELETE"
         ("/projects/" +++ projectId +++ "/managedZones/"
            +++ zoneName)
  | ListResourceRecordSets projectId zoneName =>
      via Dns "GET"
         ("/projects/" +++ projectId +++ "/managedZones/"
            +++ zoneName +++ "/rrsets")
  | CreateResourceRecordSet projectId zoneName _ =>
      via Dns "POST"
         ("/projects/" +++ projectId +++ "/managedZones/"
            +++ zoneName +++ "/rrsets")
  | DeleteResourceRecordSet projectId zoneName name type =>
      via Dns "DELETE"
         ("/projects/" +++ projectId +++ "/managedZones/"
            +++ zoneName +++ "/rrsets/" +++ name +++ "/" +++ type)
  | ListClusters projectId location =>
      via Container "GET"
         ("/projects/" +++ projectId +++ "/locations/"
            +++ location +++ "/clusters")
  | GetCluster projectId location clusterName =>
      via Container "GET"
         ("/projects/" +++ projectId +++ "/locations/"
            +++ location +++ "/clusters/" +++ clusterName)
  | DeleteCluster projectId location clusterName =>
      via Container "DELETE"
         ("/projects/" +++ projectId +++ "/locations/"
            +++ location +++ "/clusters/" +++ clusterName)
  | ListNodePools projectId location clusterName =>
      via Container "GET"
         ("/projects/" +++ projectId +++ "/locations/"
            +++ location +++ "/clusters/" +++ clusterName
            +++ "/nodePools")
  | GetNodePool projectId location clusterName nodePoolName =>
      via Container "GET"
         ("/projects/" +++ projectId +++ "/locations/"
            +++ location +++ "/clusters/" +++ clusterName
            +++ "/nodePools/" +++ nodePoolName)
  | ListLogEntries _ _ _ => via Logging "POST" (lit "/entries:list")
  | WriteLogEntries _ logName _ =>
      match URI.encodeURIComponent logName with
      | inr _ => via Logging "POST" (lit "/entries:write")
      | inl _ => None
      end
  | ListLogs projectId =>
      via Logging "GET"
         ("/projects/" +++ projectId +++ "/logs")
  end.

(** The operation that a tool calls, with the arguments that the tool
    gives it; [None] when the tool throws before it calls. The policy
    update calls two: this is the first, the read. *)
Definition operation (t : Tool) : option Call :=
  match t with
  | gcloud_list_instances projectId zone =>
      Some (ListInstances projectId zone)
  | gcloud_get_instance projectId zone instanceName =>
      Some (GetInstance projectId zone instanceName)
  | gcloud_start_instance projectId zone instanceName =>
      Some (StartInstance projectId zone instanceName)
  | gcloud_stop_instance projectId zone instanceName =>
      Some (StopInstance projectId zone instanceName)
  | gcloud_reset_instance projectId zone instanceName =>
      Some (ResetInstance projectId zone instanceName)
  | gcloud_delete_instance projectId zone instanceName =>
      Some (DeleteInstance projectId zone instanceName)
  | gcloud_list_disks projectId zone =>
      Some (ListDisks projectId zone)
  | gcloud_get_disk projectId zone diskName =>
      Some (GetDisk projectId zone diskName)
  | gcloud_create_disk projectId zone name sizeGb type sourceImage =>
      Some (CreateDisk projectId zone
              (VObj [(lit "name", VStr name);
                     (lit "sizeGb", VStr sizeGb);
                     (lit "type", optional_string type);
                     (lit "sourceImage", optional_string sourceImage)]))
  | gcloud_delete_disk projectId zone diskName =>
      Some (DeleteDisk projectId zone diskName)
  | gcloud_resize_disk projectId zone diskName sizeGb =>
      Some (ResizeDisk projectId zone diskName sizeGb)
  | gcloud_list_networks projectId =>
      Some (ListNetworks projectId)
  | gcloud_get_network projectId networkName =>
      Some (GetNetwork projectId networkName)
  | gcloud_create_network projectId name autoCreateSubnetworks =>
      Some (CreateNetwork projectId
              (VObj [(lit "name", VStr name);
                     (lit "autoCreateSubnetworks", VBool autoCreateSubnetworks)]))
  | gcloud_delete_network projectId networkName =>
      Some (DeleteNetwork projectId networkName)
  | gcloud_list_firewalls projectId =>
      Some (ListFirewalls projectId)
  | gcloud_get_firewall projectId firewallName =>
      Some (GetFirewall projectId firewallName)
  | gcloud_delete_firewall projectId firewallName =>
      Some (DeleteFirewall projectId firewallName)
  | gcloud_list_buckets projectId =>
      Some (ListBuckets projectId)
  | gcloud_get_bucket bucketName =>
      Some (GetBucket bucketName)
  | gcloud_create_bucket projectId name location storageClass =>
      Some (CreateBucket projectId
              (VObj [(lit "name", VStr name);
                     (lit "location", optional_string location);
                     (lit "storageClass", optional_string storageClass)]))
  | gcloud_delete_bucket bucketName =>
      Some (DeleteBucket bucketName)
  | gcloud_list_objects bucketName prefix maxResults =>
      Some (ListObjects bucketName prefix maxResults)
  | gcloud_get_object bucketName objectName =>
      Some (GetObject bucketName objectName)
  | gcloud_delete_object bucketName objectName =>
      Some (DeleteObject bucketName objectName)
  | gcloud_copy_object sourceBucket sourceObject destBucket destObject =>
      Some (CopyObject sourceBucket sourceObject destBucket destObject)
  | gcloud_list_functions projectId location =>
      Some (ListFunctions projectId location)
  | gcloud_get_function projectId location functionName =>
      Some (GetFunction projectId location functionName)
  | gcloud_delete_function projectId location functionName =>
      Some (DeleteFunction projectId location functionName)
  | gcloud_list_cloud_run_services projectId location =>
      Some (ListCloudRunServices projectId location)
  | gcloud_get_cloud_run_service projectId location serviceName =>
      Some (GetCloudRunService projectId location serviceName)
  | gcloud_delete_cloud_run_service projectId location serviceName =>
      Some (DeleteCloudRunService projectId location serviceName)
  | gcloud_list_datasets projectId =>
      Some (ListDatasets projectId)
  | gcloud_get_dataset projectId datasetId =>
      Some (GetDataset projectId datasetId)
  | gcloud_create_dataset projectId datasetId location =>
      Some (CreateDataset projectId
              (VObj [(lit "datasetReference", VObj [(lit "datasetId", VStr datasetId);
                     (lit "projectId", VStr projectId)]);
                     (lit "location", optional_string location)]))
  | gcloud_delete_dataset projectId datasetId deleteContents =>
      Some (DeleteDataset projectId datasetId (Some deleteContents))
  | gcloud_list_tables projectId datasetId =>
      Some (ListTables projectId datasetId)
  | gcloud_get_table projectId datasetId tableId =>
      Some (GetTable projectId datasetId tableId)
  | gcloud_bigquery_query projectId query useLegacySql =>
      Some (RunQuery projectId query (Some useLegacySql))
  | gcloud_list_topics projectId =>
      Some (ListTopics projectId)
  | gcloud_get_topic projectId topicName =>
      Some (GetTopic projectId topicName)
  | gcloud_create_topic projectId topicName =>
      Some (CreateTopic projectId topicName)
  | gcloud_delete_topic projectId topicName =>
      Some (DeleteTopic projectId topicName)
  | gcloud_publish_message projectId topicName data attributes =>
      match Base64.btoa data with
      | inr encoded =>
          Some (PublishMessage projectId topicName
                  (VArr [VObj [(lit "data", VStr encoded);
                               (lit "attributes", optional_record attributes)]]))
      | inl _ => None
      end
  | gcloud_list_subscriptions projectId =>
      Some (ListSubscriptions projectId)
  | gcloud_get_subscription projectId subscriptionName =>
      Some (GetSubscription projectId subscriptionName)
  | gcloud_create_subscription projectId subscriptionName topicName =>
      Some (CreateSubscription projectId subscriptionName topicName)
  | gcloud_delete_subscription projectId subscriptionName =>
      Some (DeleteSubscription projectId subscriptionName)
  | gcloud_pull_messages projectId subscriptionName maxMessages =>
      Some (PullMessages projectId subscriptionName (Some maxMessages))
  | gcloud_acknowledge_messages projectId subscriptionName ackIds =>
      Some (AcknowledgeMessages projectId subscriptionName (strings ackIds))
  | gcloud_list_sql_instances projectId =>
      Some (ListSqlInstances projectId)
  | gcloud_get_sql_instance projectId instanceName =>
      Some (GetSqlInstance projectId instanceName)
  | gcloud_delete_sql_instance projectId instanceName =>
      Some (DeleteSqlInstance projectId instanceName)
  | gcloud_restart_sql_instance projectId instanceName =>
      Some (RestartSqlInstance projectId instanceName)
  | gcloud_list_databases projectId instanceName =>
      Some (ListDatabases projectId instanceName)
  | gcloud_get_database projectId instanceName databaseName =>
      Some (GetDatabase projectId instanceName databaseName)
  | gcloud_create_database projectId instanceName databaseName =>
      Some (CreateDatabase projectId instanceName databaseName)
  | gcloud_delete_database projectId instanceName databaseName =>
      Some (DeleteDatabase projectId instanceName databaseName)
  | gcloud_list_service_accounts projectId =>
      Some (ListServiceAccounts projectId)
  | gcloud_get_service_account projectId email =>
      Some (GetServiceAccount projectId email)
  | gcloud_create_service_account projectId accountId displayName =>
      Some (CreateServiceAccount projectId accountId displayName)
  | gcloud_delete_service_account projectId email =>
      Some (DeleteServiceAccount projectId email)
  | gcloud_get_project_iam_policy projectId =>
      Some (GetProjectIamPolicy projectId)
  | gcloud_set_project_iam_policy projectId bindings =>
      Some (GetProjectIamPolicy projectId)
  | gcloud_list_roles projectId =>
      Some (ListRoles projectId)
  | gcloud_list_secrets projectId =>
      Some (ListSecrets projectId)
  | gcloud_get_secret projectId secretName =>
      Some (GetSecret projectId secretName)
  | gcloud_create_secret projectId secretId automatic =>
      Some (CreateSecret projectId secretId
              (if automatic then VObj [(lit "automatic", VObj [])]
               else VUndefined))
  | gcloud_delete_secret projectId secretName =>
      Some (DeleteSecret projectId secretName)
  | gcloud_list_secret_versions projectId secretName =>
      Some (ListSecretVersions projectId secretName)
  | gcloud_access_secret_version projectId secretName version =>
      Some (AccessSecretVersion projectId secretName (Some version))
  | gcloud_add_secret_version projectId secretName payload =>
      Some (AddSecretVersion projectId secretName payload)
  | gcloud_list_managed_zones projectId =>
      Some (ListManagedZones projectId)
  | gcloud_get_managed_zone projectId zoneName =>
      Some (GetManagedZone projectId zoneName)
  | gcloud_create_managed_zone projectId name dnsName description visibility =>
      Some (CreateManagedZone projectId
              (VObj [(lit "name", VStr name);
                     (lit "dnsName", VStr dnsName);
                     (lit "description", optional_string description);
                     (lit "visibility", VStr visibility)]))
  | gcloud_delete_managed_zone projectId zoneName =>
      Some (DeleteManagedZone projectId zoneName)
  | gcloud_list_resource_record_sets projectId zoneName =>
      Some (ListResourceRecordSets projectId zoneName)
  | gcloud_create_resource_record_set projectId zoneName name type ttl rrdatas =>
      Some (CreateResourceRecordSet projectId zoneName
              (VObj [(lit "name", VStr name);
                     (lit "type", VStr type);
                     (lit "ttl", VNum ttl);
                     (lit "rrdatas", strings rrdatas)]))
  | gcloud_delete_resource_record_set projectId zoneName name type =>
      Some (DeleteResourceRecordSet projectId zoneName name type)
  | gcloud_list_clusters projectId location =>
      Some (ListClusters projectId location)
  | gcloud_get_cluster projectId location clusterName =>
      Some (GetCluster projectId location clusterName)
  | gcloud_delete_cluster projectId location clusterName =>
      Some (DeleteCluster projectId location clusterName)
  | gcloud_list_node_pools projectId location clusterName =>
      Some (ListNodePools projectId location clusterName)
  | gcloud_get_node_pool projectId location clusterName nodePoolName =>
      Some (GetNodePool projectId location clusterName nodePoolName)
  | gcloud_list_log_entries projectId filter pageSize =>
      Some (ListLogEntries projectId filter (Some pageSize))
  | gcloud_write_log_entry projectId logName severity textMessage labels =>
      Some (WriteLogEntries projectId logName
              (VArr [VObj [(lit "severity", VStr severity);
                           (lit "textPayload", VStr textMessage);
                           (lit "labels", optional_record labels)]]))
  | gcloud_write_log_json projectId logName severity jsonPayload labels =>
      Some (WriteLogEntries projectId logName
              (VArr [VObj [(lit "severity", VStr severity);
                           (lit "jsonPayload", VObj jsonPayload);
                           (lit "labels", optional_record labels)]]))
  | gcloud_list_logs projectId =>
      Some (ListLogs projectId)
  | gcloud_test_connection => Some TestConnection
  end.

(** *** What a tool answers *)

(** What a confirmation carries of the answer of the provider: nothing,
    the answer itself under a key, or one member of it under a key. *)
Inductive Carried : Type :=
| Nothing
| TheBody (key : jsstring)
| MemberOf (key member : jsstring).

(** The tools that confirm a change, with the message of each and with
    what it carries. *)
Definition confirmation (t : Tool) : option (jsstring * Carried) :=
  match t with
  | gcloud_start_instance _ _ instanceName =>
      Some ("Instance " +++ instanceName +++ " start initiated",
            TheBody "operation")
  | gcloud_stop_instance _ _ instanceName =>
      Some ("Instance " +++ instanceName +++ " stop initiated",
            TheBody "operation")
  | gcloud_reset_instance _ _ instanceName =>
      Some ("Instance " +++ instanceName +++ " reset initiated",
            TheBody "operation")
  | gcloud_delete_instance _ _ instanceName =>
      Some ("Instance " +++ instanceName +++ " deletion initiated",
            TheBody "operation")
  | gcloud_create_disk _ _ name _ _ _ =>
      Some ("Disk " +++ name +++ " creation initiated", TheBody "operation")
  | gcloud_delete_disk _ _ diskName =>
      Some ("Disk " +++ diskName +++ " deletion initiated", TheBody "operation")
  | gcloud_resize_disk _ _ diskName _ =>
      Some ("Disk " +++ diskName +++ " resize initiated", TheBody "operation")
  | gcloud_create_network _ name _ =>
      Some ("Network " +++ name +++ " creation initiated", TheBody "operation")
  | gcloud_delete_network _ networkName =>
      Some ("Network " +++ networkName +++ " deletion initiated",
            TheBody "operation")
  | gcloud_delete_firewall _ firewallName =>
      Some ("Firewall " +++ firewallName +++ " deletion initiated",
            TheBody "operation")
  | gcloud_create_bucket _ name _ _ =>
      Some ("Bucket " +++ name +++ " created", TheBody "bucket")
  | gcloud_delete_bucket bucketName =>
      Some ("Bucket " +++ bucketName +++ " deleted", Nothing)
  | gcloud_delete_object bucketName objectName =>
      Some ("Object " +++ objectName +++ " deleted from " +++ bucketName,
            Nothing)
  | gcloud_copy_object _ _ _ _ =>
      Some (lit "Object copied successfully", TheBody "object")
  | gcloud_delete_function _ _ functionName =>
      Some ("Function " +++ functionName +++ " deletion initiated",
            TheBody "operation")
  | gcloud_delete_cloud_run_service _ _ serviceName =>
      Some ("Service " +++ serviceName +++ " deletion initiated",
            TheBody "operation")
  | gcloud_create_dataset _ datasetId _ =>
      Some ("Dataset " +++ datasetId +++ " created", TheBody "dataset")
  | gcloud_delete_dataset _ datasetId _ =>
      Some ("Dataset " +++ datasetId +++ " deleted", Nothing)
  | gcloud_create_topic _ topicName =>
      Some ("Topic " +++ topicName +++ " created", TheBody "topic")
  | gcloud_delete_topic _ topicName =>
      Some ("Topic " +++ topicName +++ " deleted", Nothing)
  | gcloud_publish_message _ _ _ _ =>
      Some (lit "Message published", MemberOf "messageIds" "messageIds")
  | gcloud_create_subscription _ subscriptionName _ =>
      Some ("Subscription " +++ subscriptionName +++ " created",
            TheBody "subscription")
  | gcloud_delete_subscription _ subscriptionName =>
      Some ("Subscription " +++ subscriptionName +++ " deleted", Nothing)
  | gcloud_acknowledge_messages _ _ ackIds =>
      Some (JS.of_Z (Z.of_nat (List.length ackIds)) +++ " messages acknowledged",
            Nothing)
  | gcloud_delete_sql_instance _ instanceName =>
      Some ("Instance " +++ instanceName +++ " deletion initiated",
            TheBody "operation")
  | gcloud_restart_sql_instance _ instanceName =>
      Some ("Instance " +++ instanceName +++ " restart initiated",
            TheBody "operation")
  | gcloud_create_database _ _ databaseName =>
      Some ("Database " +++ databaseName +++ " creation initiated",
            TheBody "operation")
  | gcloud_delete_database _ _ databaseName =>
      Some ("Database " +++ databaseName +++ " deletion initiated",
            TheBody "operation")
  | gcloud_create_service_account _ accountId _ =>
      Some ("Service account " +++ accountId +++ " created", TheBody "account")
  | gcloud_delete_service_account _ email =>
      Some ("Service account " +++ email +++ " deleted", Nothing)
  | gcloud_set_project_iam_policy _ _ =>
      Some (lit "IAM policy updated", TheBody "policy")
  | gcloud_create_secret _ secretId _ =>
      Some ("Secret " +++ secretId +++ " created", TheBody "secret")
  | gcloud_delete_secret _ secretName =>
      Some ("Secret " +++ secretName +++ " deleted", Nothing)
  | gcloud_add_secret_version _ _ _ =>
      Some (lit "Secret version added", TheBody "version")
  | gcloud_create_managed_zone _ name _ _ _ =>
      Some ("Managed zone " +++ name +++ " created", TheBody "zone")
  | gcloud_delete_managed_zone _ zoneName =>
      Some ("Managed zone " +++ zoneName +++ " deleted", Nothing)
  | gcloud_create_resource_record_set _ _ _ _ _ _ =>
      Some (lit "Resource record set created", TheBody "rrset")
  | gcloud_delete_resource_record_set _ _ name type =>
      Some ("Record " +++ name +++ " (" +++ type +++ ") deleted", Nothing)
  | gcloud_delete_cluster _ _ clusterName =>
      Some ("Cluster " +++ clusterName +++ " deletion initiated",
            TheBody "operation")
  | gcloud_write_log_entry _ _ _ _ _ =>
      Some (lit "Log entry written", Nothing)
  | gcloud_write_log_json _ _ _ _ _ =>
      Some (lit "JSON log entry written", Nothing)
  | _ => None
  end.

Definition confirmed (message : jsstring) (carried : list (jsstring * value))
    : value :=
  VObj ((lit "success", VBool true) :: (lit "message", VStr message) :: carried).

(** The data that a tool hands to [formatResponse] when its operation
    returned [body]: the body for a tool that reads one resource, a member
    of it or [[]] for a tool that lists, the confirmation for a tool that
    changes something (for the policy update, [body] is what the write
    returned), the decoded messages and the decoded secret for the two
    tools that decode. For the connection test, [body] is the report of
    [testConnection]. *)
Definition result_data (t : Tool) (body : value) : result value :=
  if passes_through t then inr body
  else
    match listed_member t, confirmation t with
    | Some key, _ =>
        match get body key with
        | inl e => inl e
        | inr items => inr (or_else items (VArr []))
        end
    | None, Some (message, Nothing) => inr (confirmed message [])
    | None, Some (message, TheBody key) => inr (confirmed message [(key, body)])
    | None, Some (message, MemberOf key member) =>
        match get body member with
        | inl e => inl e
        | inr x => inr (confirmed message [(key, x)])
        end
    | None, None =>
        match t with
        | gcloud_pull_messages _ _ _ =>
            match get body "receivedMessages" with
            | inl e => inl e
            | inr received => map_array received decode_received
            end
        | gcloud_access_secret_version _ secretName version =>
            match get body "data" with
            | inl e => inl e
            | inr encoded =>
                match (if truthy encoded then
                         match String_of encoded with
                         | inl e => inl e
                         | inr d => Base64.atob d
                         end
                       else inr []) with
                | inl e => inl e
                | inr data =>
                    inr (VObj [(lit "secretName", VStr secretName);
                               (lit "version", VStr version);
                               (lit "data", VStr data)])
                end
            end
        | _ => inr body
        end
    end.

(** A value that [String] cannot convert: an object with a property of
    its own named [toString], or an array that holds such a value. *)
Fixpoint unprintable (v : value) : bool :=
  match v with
  | VObj props => existsb (JS.eqb (lit "toString")) (map fst props)
  | VArr items =>
      (fix any (l : list value) : bool :=
         match l with
         | [] => false
         | x :: l' => unprintable x || any l'
         end) items
  | _ => false
  end.

(** An array that [formatArrayAsMarkdown] lists item by item, with an
    item that [String] cannot convert. *)
Definition has_unprintable (data : value) : Prop :=
  exists first rest,
    data = VArr (first :: rest)
    /\ (typeof_object first = false \/ is_null first = true)
    /\ Exists (fun item => unprintable item = true) rest.


(* ================================================================== *)
(** ** The model at work *)
(* ================================================================== *)

Example lit_abc : lit "abc" = [97%N; 98%N; 99%N].
Proof. reflexivity. Qed.

Example of_Z_examples :
  JS.of_Z 404 = lit "404" /\ JS.of_Z 0 = lit "0" /\ JS.of_Z (-12) = lit "-12".
Proof. repeat split. Qed.

Example stringify_object :
  JSON.stringify
    (VObj [(lit "error", VBool true); (lit "code", VUndefined);
           (lit "statusCode", VNum 500); (lit "l", VArr [VUndefined; VStr "a"])])
  = Some (lit "{" ++ JS.nl
          ++ lit "  " ++ JS.dq ++ lit "error" ++ JS.dq ++ lit ": true," ++ JS.nl
          ++ lit "  " ++ JS.dq ++ lit "statusCode" ++ JS.dq ++ lit ": 500," ++ JS.nl
          ++ lit "  " ++ JS.dq ++ lit "l" ++ JS.dq ++ lit ": [" ++ JS.nl
          ++ lit "    null," ++ JS.nl
          ++ lit "    " ++ JS.dq ++ lit "a" ++ JS.dq ++ JS.nl
          ++ lit "  ]" ++ JS.nl
          ++ lit "}").
Proof. reflexivity. Qed.

Example stringify_undefined : JSON.stringify VUndefined = None.
Proof. reflexivity. Qed.

Example quote_escapes :
  JSON.quote [34; 10; 1; 55357; 56832; 55357]%N
  = JS.dq ++ [92; 34]%N ++ lit "\n" ++ lit "\u0001" ++ [55357; 56832]%N
      ++ lit "\ud83d" ++ JS.dq.
Proof. reflexivity. Qed.

Example btoa_hi : Base64.btoa (lit "hi") = inr (lit "aGk=").
Proof. reflexivity. Qed.

Example btoa_wide : Base64.btoa [104; 256]%N = inl InvalidCharacterError.
Proof. reflexivity. Qed.

Example atob_examples :
  Base64.atob (lit "aGk=") = inr (lit "hi")
  /\ Base64.atob (lit "aG k") = inr (lit "hi")
  /\ Base64.atob (lit "aGVsbG8gd29ybGQ=") = inr (lit "hello world")
  /\ Base64.atob (lit "a") = inl InvalidCharacterError
  /\ Base64.atob (lit "a===") = inl InvalidCharacterError
  /\ Base64.atob (lit "") = inr [].
Proof. repeat split. Qed.

Example encodeURIComponent_examples :
  URI.encodeURIComponent (lit "a b/c.txt") = inr (lit "a%20b%2Fc.txt")
  /\ URI.encodeURIComponent [233; 8364; 55357; 56832]%N
     = inr (lit "%C3%A9%E2%82%AC%F0%9F%98%80")
  /\ URI.encodeURIComponent [97; 55357]%N = inl URIError.
Proof. repeat split. Qed.

Example search_params_example :
  URI.search_params [(lit "prefix", lit "a b/c"); (lit "maxResults", JS.of_Z 10)]
  = lit "prefix=a+b%2Fc&maxResults=10".
Proof. reflexivity. Qed.

Example parseInt_examples :
  ParseInt.parseInt (lit " 120s") = Some 120%Z
  /\ ParseInt.parseInt (lit "-7") = Some (-7)%Z
  /\ ParseInt.parseInt (lit "Wed, 21 Oct 2015 07:28:00 GMT") = None.
Proof. repeat split. Qed.

Example list_buckets_answers_the_items :
  let body := VObj [(lit "kind", VStr "storage#buckets");
                    (lit "items", VArr [VObj [(lit "name", VStr "b")]]);
                    (lit "nextPageToken", VStr "t")] in
  let response := {| status := 200; retry_after := None; json := Some body |} in
  let credentials := {| accessToken := Some (lit "token"); projectId := None |} in
  handler (always response) credentials bare_errors
    (gcloud_list_buckets (lit "p")) []
  = (inr (text_envelope
            (Some (lit "[" ++ JS.nl
                   ++ lit "  {" ++ JS.nl
                   ++ lit "    " ++ JS.dq ++ lit "name" ++ JS.dq ++ lit ": "
                   ++ JS.dq ++ lit "b" ++ JS.dq ++ JS.nl
                   ++ lit "  }" ++ JS.nl
                   ++ lit "]"))
            false),
     [{| req_url := lit "https://storage.googleapis.com/storage/v1/b?project=p";
         req_method := None;
         req_headers := auth_headers (lit "token");
         req_body := None |}]).
Proof. reflexivity. Qed.

Example delete_bucket_confirms :
  let response := {| status := 204; retry_after := None; json := None |} in
  let credentials := {| accessToken := Some (lit "token"); projectId := None |} in
  fst (handler (always response) credentials bare_errors
         (gcloud_delete_bucket (lit "b")) [])
  = inr (text_envelope
           (JSON.stringify (VObj [(lit "success", VBool true);
                                  (lit "message", VStr "Bucket b deleted")]))
           false).
Proof. reflexivity. Qed.

Example get_bucket_not_found :
  let response := {| status := 404; retry_after := None; json := None |} in
  let credentials := {| accessToken := Some (lit "token"); projectId := None |} in
  fst (handler (always response) credentials bare_errors
         (gcloud_get_bucket (lit "b")) [])
  = inr (formatError bare_errors
           (NotFoundError "Resource"
              (lit "https://storage.googleapis.com/storage/v1/b/b"))).
Proof. reflexivity. Qed.

Example rate_limit_reads_retry_after :
  read_response (lit "u")
    {| status := 429; retry_after := Some (lit "120"); json := None |}
  = inl (RateLimitError "Rate limit exceeded" (Some 120%Z))
  /\ read_response (lit "u") {| status := 429; retry_after := None; json := None |}
     = inl (RateLimitError "Rate limit exceeded" (Some 60%Z)).
Proof. split; reflexivity. Qed.

Example generic_error_message :
  read_response (lit "u")
    {| status := 400; retry_after := None;
       json := Some (VObj [(lit "error", VObj [(lit "message", VStr "Bad zone")])]) |}
  = inl (GCloudApiError (VStr "Bad zone") 400)
  /\ read_response (lit "u")
       {| status := 400; retry_after := None; json := Some (VObj [(lit "message", VStr "m")]) |}
     = inl (GCloudApiError (VStr "m") 400)
  /\ read_response (lit "u") {| status := 502; retry_after := None; json := None |}
     = inl (GCloudApiError (VStr "API error: 502") 502)
  /\ read_response (lit "u") {| status := 500; retry_after := None; json := Some VNull |}
     = inl (GCloudApiError (VStr "API error: 500") 500).
Proof. repeat split. Qed.

Example connection_test_reports :
  let response := {| status := 200; retry_after := None; json := Some (VObj []) |} in
  let credentials :=
    {| accessToken := Some (lit "token"); projectId := Some (lit "p") |} in
  testConnection (always response) credentials bare_errors []
  = (inr (VObj [(lit "connected", VBool true);
                (lit "message", VStr "Successfully connected to GCP project: p")]),
     [{| req_url := lit "https://compute.googleapis.com/compute/v1/projects/p";
         req_method := None;
         req_headers := auth_headers (lit "token");
         req_body := None |}]).
Proof. reflexivity. Qed.

Example markdown_of_an_object :
  formatResponse (VObj [(lit "name", VStr "b"); (lit "labels", VNull)])
    Markdown (Some (lit "bucket"))
  = inr (text_envelope
           (Some (lit "## bucket" ++ JS.nl ++ JS.nl
                  ++ lit "**name:** b" ++ JS.nl ++ JS.nl
                  ++ lit "**labels:** -"))
           false).
Proof. reflexivity. Qed.

Example markdown_of_strings :
  formatArrayAsMarkdown [VStr "a"; VNum 2; VNull] None
  = inr (lit "- a" ++ JS.nl ++ lit "- 2" ++ JS.nl ++ lit "- null").
Proof. reflexivity. Qed.

Example health_check :
  Worker.fetch (fun _ => {| accessToken := None; projectId := None |})
    (fun _ => inl (AuthenticationError "none")) bare_errors
    {| Worker.pathname := lit "/health"; Worker.http_method := lit "DELETE";
       Worker.headers := [] |}
  = Worker.Answered
      {| Worker.out_status := 200;
         Worker.content_type := Some (lit "application/json");
         Worker.out_body :=
           Some (lit "{" ++ JS.dq ++ lit "status" ++ JS.dq ++ lit ":"
                   ++ JS.dq ++ lit "ok" ++ JS.dq ++ lit ","
                   ++ JS.dq ++ lit "server" ++ JS.dq ++ lit ":"
                   ++ JS.dq ++ lit "primrose-mcp-gcloud" ++ JS.dq ++ lit "}") |}.
Proof. reflexivity. Qed.

Example truncate_examples :
  truncate (lit "primrose") 8 = lit "primrose"
  /\ truncate (lit "primrose-mcp") 8 = lit "primr..."
  /\ truncate (lit "primrose") 0 = lit "...".
Proof. repeat split. Qed.

(* ================================================================== *)
(** ** Facts about [btoa] and [atob] *)
(* ================================================================== *)

Module Base64Facts.
Import Base64.

Ltac ndiv := zify; Z.to_euclidean_division_equations; lia.

Lemma latin1_forallb s :
  forallb (fun c => (c <=? 255)%N) s = true <-> latin1 s.
Proof.
  unfold latin1. rewrite forallb_forall, Forall_forall.
  split; intros H c Hc; specialize (H c Hc).
  - apply N.leb_le in H. lia.
  - apply N.leb_le. lia.
Qed.

Lemma list_ind3 (A : Type) (P : list A -> Prop) :
  P [] -> (forall a, P [a]) -> (forall a b, P [a; b]) ->
  (forall a b c l, P l -> P (a :: b :: c :: l)) ->
  forall l, P l.
Proof.
  intros H0 H1 H2 H3.
  fix IH 1. intros [|a [|b [|c l]]];
    [apply H0 | apply H1 | apply H2 | apply H3, IH].
Qed.

Lemma value_of_char_of n : (n < 64)%N -> value_of (char_of n) = Some n.
Proof.
  intros H. rewrite <- (N2Nat.id n).
  assert (K : N.to_nat n < 64) by lia.
  generalize dependent (N.to_nat n). clear. intros k K.
  do 64 (destruct k as [|k]; [reflexivity|]). lia.
Qed.

Lemma char_of_range n : (43 <= char_of n <= 122)%N /\ char_of n <> pad.
Proof.
  unfold char_of, pad.
  destruct (N.ltb_spec n 26); [lia|].
  destruct (N.ltb_spec n 52); [lia|].
  destruct (N.ltb_spec n 62); [lia|].
  destruct (N.eqb_spec n 62); lia.
Qed.

Lemma char_of_not_whitespace n : is_ascii_whitespace (char_of n) = false.
Proof.
  pose proof (char_of_range n) as [H _]. unfold is_ascii_whitespace.
  repeat (apply orb_false_intro); apply N.eqb_neq; lia.
Qed.

Lemma char_of_not_pad n : (char_of n =? pad)%N = false.
Proof. apply N.eqb_neq, char_of_range. Qed.

Lemma encode_keeps s :
  filter (fun c => negb (is_ascii_whitespace c)) (encode s) = encode s.
Proof.
  induction s using list_ind3; cbn [encode filter];
    rewrite ?char_of_not_whitespace; cbn [negb]; try reflexivity.
  now rewrite IHs.
Qed.

Lemma encode_length s : exists k, List.length (encode s) = 4 * k.
Proof.
  induction s using list_ind3.
  - now exists 0.
  - now exists 1.
  - now exists 1.
  - destruct IHs as [k Hk]. exists (S k). cbn [encode List.length]. lia.
Qed.

Lemma encode_length_mod s : List.length (encode s) mod 4 = 0.
Proof.
  destruct (encode_length s) as [k ->]. rewrite Nat.mul_comm.
  apply Nat.Div0.mod_mul.
Qed.

Lemma strip_padding_cons x l :
  2 <= List.length l -> strip_padding (x :: l) = x :: strip_padding l.
Proof. destruct l as [|a [|b l]]; cbn [List.length]; try lia. reflexivity. Qed.

Lemma encode_nonempty a s : 4 <= List.length (encode (a :: s)).
Proof.
  destruct s as [|b [|c s]]; cbn [encode List.length]; lia.
Qed.

(** The data without its padding, as sextets, and back. *)
Lemma decode_encode s :
  latin1 s ->
  exists v,
    sextets (strip_padding (encode s)) = Some v
    /\ decode v = s
    /\ List.length (strip_padding (encode s)) = List.length v
    /\ List.length v mod 4 <> 1.
Proof.
  induction s as [|a|a b|a b c s IH] using list_ind3; intros L.
  - exists []. repeat split; cbn; lia.
  - apply Forall_inv in L. cbv beta in L.
    exists [a / 4; a mod 4 * 16]%N.
    cbn [encode]. rewrite !strip_padding_cons by (cbn; lia).
    cbn [strip_padding]. rewrite N.eqb_refl.
    cbn [sextets]. rewrite !value_of_char_of by ndiv.
    repeat split; [ cbn [decode]; f_equal; ndiv | cbn; lia ].
  - pose proof (Forall_inv L) as La. apply Forall_inv_tail, Forall_inv in L.
    cbv beta in La, L.
    exists [a / 4; a mod 4 * 16 + b / 16; b mod 16 * 4]%N.
    cbn [encode]. rewrite !strip_padding_cons by (cbn; lia).
    cbn [strip_padding]. rewrite N.eqb_refl, char_of_not_pad.
    cbn [sextets]. rewrite !value_of_char_of by ndiv.
    repeat split; [ cbn [decode]; repeat f_equal; ndiv | cbn; lia ].
  - pose proof (Forall_inv L) as La.
    pose proof (Forall_inv (Forall_inv_tail L)) as Lb.
    pose proof (Forall_inv (Forall_inv_tail (Forall_inv_tail L))) as Lc.
    cbv beta in La, Lb, Lc.
    destruct (IH (Forall_inv_tail (Forall_inv_tail (Forall_inv_tail L))))
      as (v & Hv & Hd & Hl & Hm).
    exists ((a / 4) :: (a mod 4 * 16 + b / 16) :: (b mod 16 * 4 + c / 64)
              :: (c mod 64) :: v)%N.
    assert (E : strip_padding (encode (a :: b :: c :: s))
                = char_of (a / 4) :: char_of (a mod 4 * 16 + b / 16)
                    :: char_of (b mod 16 * 4 + c / 64) :: char_of (c mod 64)
                    :: strip_padding (encode s)).
    { cbn [encode]. destruct s as [|x s].
      - cbn [encode]. rewrite !strip_padding_cons by (cbn; lia).
        cbn [strip_padding]. now rewrite !char_of_not_pad.
      - pose proof (encode_nonempty x s).
        rewrite !strip_padding_cons by (cbn [List.length]; lia). reflexivity. }
    rewrite E. cbn [sextets]. rewrite !value_of_char_of by ndiv. rewrite Hv.
    repeat split.
    + cbn [decode]. rewrite Hd. repeat f_equal; ndiv.
    + cbn [List.length]. lia.
    + cbn [List.length].
      replace (S (S (S (S (List.length v))))) with (List.length v + 1 * 4) by lia.
      now rewrite Nat.Div0.mod_add.
Qed.

(** [atob(btoa(s))] is [s] for every string that [btoa] accepts. *)
Lemma atob_encode s : latin1 s -> atob (encode s) = inr s.
Proof.
  intros L. unfold atob. rewrite encode_keeps, encode_length_mod.
  cbn [Nat.eqb].
  destruct (decode_encode L) as (v & Hv & Hd & Hl & Hm).
  rewrite Hl, Hv, Hd.
  destruct (Nat.eqb_spec (List.length v mod 4) 1); [contradiction|reflexivity].
Qed.

Lemma btoa_latin1 s : latin1 s -> btoa s = inr (encode s).
Proof.
  intros L. unfold btoa. now rewrite (proj2 (latin1_forallb s) L).
Qed.

Lemma btoa_rejects s : ~ latin1 s -> btoa s = inl InvalidCharacterError.
Proof.
  intros L. unfold btoa.
  destruct (forallb _ s) eqn:E; [|reflexivity].
  now apply latin1_forallb in E.
Qed.

Lemma encode_nil_inv s : encode s = [] -> s = [].
Proof. destruct s as [|a [|b [|c s]]]; cbn [encode]; congruence. Qed.

End Base64Facts.

(* ================================================================== *)
(** ** Facts about the monad *)
(* ================================================================== *)

Section MonadFacts.

Variable fetch : list Request -> Request -> option Response.
Variable credentials : TenantCredentials.
Variable describe : Exn -> ErrorFields.

Lemma sent_app A (m : M A) log extra :
  snd (m log) = log ++ extra -> sent m log = extra.
Proof.
  unfold sent. intros ->. rewrite skipn_app, skipn_all, Nat.sub_diag. reflexivity.
Qed.

(** *** Pure computations *)

Lemma Pure_ret A (a : A) : Pure (ret a).
Proof. intro; reflexivity. Qed.

Lemma Pure_throw A e : Pure (@throw A e).
Proof. intro; reflexivity. Qed.

Lemma Pure_lift A (r : result A) : Pure (lift r).
Proof. destruct r; intro; reflexivity. Qed.

Lemma Pure_intro A (m : M A) r : (forall log, m log = (r, log)) -> Pure m.
Proof. intros H log. now rewrite (H log), (H []). Qed.

Lemma Pure_elim A (m : M A) : Pure m -> exists r, forall log, m log = (r, log).
Proof. intros H. now exists (fst (m [])). Qed.

Lemma Pure_bind A B (m : M A) (f : A -> M B) :
  Pure m -> (forall a, Pure (f a)) -> Pure (bind m f).
Proof.
  intros Hm Hf. destruct (Pure_elim Hm) as [[e|a] Em].
  - apply Pure_intro with (r := inl e). intros log. unfold bind. now rewrite Em.
  - destruct (Pure_elim (Hf a)) as [r Ef].
    apply Pure_intro with (r := r). intros log. unfold bind. now rewrite Em, Ef.
Qed.

Lemma Pure_try_catch A (m : M A) h :
  Pure m -> (forall e, Pure (h e)) -> Pure (try_catch m h).
Proof.
  intros Hm Hh. destruct (Pure_elim Hm) as [[e|a] Em].
  - destruct (Pure_elim (Hh e)) as [r Eh].
    apply Pure_intro with (r := r). intros log. unfold try_catch. now rewrite Em, Eh.
  - apply Pure_intro with (r := inr a). intros log. unfold try_catch. now rewrite Em.
Qed.

Lemma Pure_snd A (m : M A) log : Pure m -> snd (m log) = log.
Proof. intros H. now rewrite (H log). Qed.

(** *** Counting and inspecting the requests *)

Lemma Sends_pure A n P (m : M A) : Pure m -> Sends n P m.
Proof.
  intros H log. exists []. rewrite (Pure_snd log H), app_nil_r.
  repeat split; [cbn; lia | constructor].
Qed.

Lemma Sends_weaken A n n' P (m : M A) : Sends n P m -> n <= n' -> Sends n' P m.
Proof.
  intros H Hn log. destruct (H log) as (extra & E & L & F).
  exists extra. repeat split; auto; lia.
Qed.

Lemma Sends_bind A B n1 n2 P (m : M A) (f : A -> M B) :
  Sends n1 P m -> (forall a, Sends n2 P (f a)) -> Sends (n1 + n2) P (bind m f).
Proof.
  intros Hm Hf log. destruct (Hm log) as (x1 & E1 & L1 & F1).
  unfold bind. destruct (m log) as [[e|a] log1]; cbn [snd] in *; subst log1.
  - exists x1. repeat split; auto; lia.
  - destruct (Hf a (log ++ x1)) as (x2 & E2 & L2 & F2).
    exists (x1 ++ x2). rewrite E2, app_assoc, length_app.
    repeat split; [lia | now apply Forall_app].
Qed.

Lemma Sends_try_catch A n1 n2 P (m : M A) h :
  Sends n1 P m -> (forall e, Sends n2 P (h e)) -> Sends (n1 + n2) P (try_catch m h).
Proof.
  intros Hm Hh log. destruct (Hm log) as (x1 & E1 & L1 & F1).
  unfold try_catch. destruct (m log) as [[e|a] log1]; cbn [snd] in *; subst log1.
  - destruct (Hh e (log ++ x1)) as (x2 & E2 & L2 & F2).
    exists (x1 ++ x2). rewrite E2, app_assoc, length_app.
    repeat split; [lia | now apply Forall_app].
  - exists x1. repeat split; auto; lia.
Qed.

Lemma request_run url options log :
  request fetch credentials url options log =
  match getAuthHeaders credentials with
  | inl e => (inl e, log)
  | inr headers =>
      let init := {| req_url := url; req_method := method options;
                     req_headers := headers; req_body := body options |} in
      (outcome fetch log init, log ++ [init])
  end.
Proof.
  unfold request, outcome. destruct (getAuthHeaders credentials); [reflexivity|].
  cbn [req_url]. destruct (fetch log _); reflexivity.
Qed.

Lemma Sends_request (P : Request -> Prop) url options :
  (forall headers, getAuthHeaders credentials = inr headers ->
     P {| req_url := url; req_method := method options;
          req_headers := headers; req_body := body options |}) ->
  Sends 1 P (request fetch credentials url options).
Proof.
  intros H log. rewrite request_run.
  destruct (getAuthHeaders credentials) as [e|headers] eqn:E.
  - exists []. rewrite app_nil_r. repeat split; [cbn; lia | constructor].
  - eexists [_]. cbn [snd]. repeat split; [cbn; lia|].
    constructor; [now apply H | constructor].
Qed.

Lemma Sends_bind_l A B n P (m : M A) (f : A -> M B) :
  Pure m -> (forall a, Sends n P (f a)) -> Sends n P (bind m f).
Proof. intros Hm Hf. apply (Sends_bind (n1 := 0)); auto using Sends_pure. Qed.

Lemma Sends_bind_r A B n P (m : M A) (f : A -> M B) :
  Sends n P m -> (forall a, Pure (f a)) -> Sends n P (bind m f).
Proof.
  intros Hm Hf. apply Sends_weaken with (n := n + 0); [|lia].
  apply Sends_bind; auto using Sends_pure.
Qed.

Lemma Sends_bind_1 A B n P (m : M A) (f : A -> M B) :
  Sends 1 P m -> (forall a, Sends n P (f a)) -> Sends (S n) P (bind m f).
Proof. intros Hm Hf. now apply (Sends_bind (n1 := 1)). Qed.

Lemma Sends_bind_ret A B n P (a : A) (f : A -> M B) :
  Sends n P (f a) -> Sends n P (bind (lift (inr a)) f).
Proof. intros H log. exact (H log). Qed.

Lemma Sends_catch A n P (m : M A) h :
  Sends n P m -> (forall e, Pure (h e)) -> Sends n P (try_catch m h).
Proof.
  intros Hm Hh. apply Sends_weaken with (n := n + 0); [|lia].
  apply Sends_try_catch; auto using Sends_pure.
Qed.

(** *** The requests of a computation *)

Lemma sent_pure A (m : M A) log : Pure m -> sent m log = [].
Proof. intros H. unfold sent. rewrite (Pure_snd log H). apply skipn_all. Qed.

Lemma sent_bind_pure A B (m : M A) (k : A -> M B) log :
  (forall a, Pure (k a)) -> sent (bind m k) log = sent m log.
Proof.
  intros K. unfold sent, bind.
  destruct (m log) as [[e|a] log1]; cbn [snd]; [reflexivity|].
  now rewrite (Pure_snd log1 (K a)).
Qed.

Lemma sent_catch_pure A (m : M A) h log :
  (forall e, Pure (h e)) -> sent (try_catch m h) log = sent m log.
Proof.
  intros H. unfold sent, try_catch.
  destruct (m log) as [[e|a] log1]; cbn [snd]; [|reflexivity].
  now rewrite (Pure_snd log1 (H e)).
Qed.

Lemma sent_bind_lift A B (r : result A) (k : A -> M B) log :
  sent (bind (lift r) k) log
  = match r with
    | inr a => sent (k a) log
    | inl _ => []
    end.
Proof.
  destruct r as [e|a]; [|reflexivity].
  unfold sent, bind. cbn. apply skipn_all.
Qed.

Lemma sent_bind_request B n url options (k : value -> M B) log :
  (forall a, Sends n (fun _ => True) (k a)) ->
  sent (bind (request fetch credentials url options) k) log
  = sent (request fetch credentials url options) log
      ++ match request fetch credentials url options log with
         | (inr a, log') => sent (k a) log'
         | (inl _, _) => []
         end.
Proof.
  intros K. unfold sent at 1 2, bind. rewrite request_run.
  destruct (getAuthHeaders credentials) as [e|headers].
  - cbn [snd]. now rewrite skipn_all.
  - cbv zeta. destruct (outcome fetch log _) as [e|a]; cbn [snd].
    + now rewrite app_nil_r.
    + destruct (K a (log ++ [{| req_url := url; req_method := method options;
                                req_headers := headers;
                                req_body := body options |}]))
        as (x & E & _).
      rewrite (sent_app _ _ _ E), E, <- app_assoc.
      now rewrite !skipn_app, !skipn_all, Nat.sub_diag.
Qed.

(** *** Stopping at the first failure *)

Lemma Fails_pure A wrap (m : M A) : Pure m -> Fails fetch wrap m.
Proof.
  intros H log. exists []. rewrite (Pure_snd log H), app_nil_r. split; [reflexivity|].
  intros [|? ?] ? ? ? E; discriminate E.
Qed.

Lemma Fails_request url options : Fails fetch inl (request fetch credentials url options).
Proof.
  intros log. rewrite request_run.
  destruct (getAuthHeaders credentials) as [e|headers].
  - exists []. rewrite app_nil_r. split; [reflexivity|].
    intros [|? ?] ? ? ? E; discriminate E.
  - eexists [_]. split; [reflexivity|].
    intros [|? [|? ?]] rq post e E; try discriminate E.
    injection E as <- <-. rewrite app_nil_r. cbn [fst]. auto.
Qed.

Lemma Fails_bind A B (m : M A) (f : A -> M B) :
  Fails fetch inl m -> (forall a, Fails fetch inl (f a)) -> Fails fetch inl (bind m f).
Proof.
  intros Hm Hf log. destruct (Hm log) as (x1 & E1 & F1).
  unfold bind. destruct (m log) as [[e|a] log1]; cbn [fst snd] in *; subst log1.
  - exists x1. split; [reflexivity|]. intros pre rq post e' E O.
    destruct (F1 pre rq post e' E O) as [-> K]. now injection K as ->.
  - destruct (Hf a (log ++ x1)) as (x2 & E2 & F2).
    exists (x1 ++ x2). rewrite E2, app_assoc. split; [reflexivity|].
    intros pre rq post e E O.
    apply app_eq_app in E. destruct E as (l & [[E3 E4]|[E3 E4]]).
    + destruct l as [|y l].
      * rewrite app_nil_r in E3. subst x1. cbn [app] in E4.
        apply (F2 [] rq post e); [now symmetry|]. now rewrite app_nil_r.
      * injection E4 as <- E4. subst x1.
        destruct (F1 pre rq l e eq_refl O) as [_ K]. discriminate K.
    + subst pre. apply (F2 l rq post e E4). now rewrite <- app_assoc.
Qed.

Lemma lift_run A (r : result A) log : lift r log = (r, log).
Proof. now destruct r. Qed.

Lemma Fails_catch A (m : M A) (h : Exn -> result A) :
  Fails fetch inl m ->
  Fails fetch h (try_catch m (fun e => lift (h e))).
Proof.
  intros Hm log. destruct (Hm log) as (x1 & E1 & F1).
  exists x1. unfold try_catch.
  destruct (m log) as [[e|a] log1]; cbn [fst snd] in *; subst log1.
  - rewrite lift_run. split; [reflexivity|]. intros pre rq post e' E O.
    destruct (F1 pre rq post e' E O) as [-> K]. now injection K as ->.
  - split; [reflexivity|]. intros pre rq post e' E O.
    destruct (F1 pre rq post e' E O) as [_ K]. discriminate K.
Qed.

(** *** Exactly one request *)

Lemma SendsOne_request url options :
  nonempty (accessToken credentials) <> None ->
  SendsOne (request fetch credentials url options).
Proof.
  intros T log. rewrite request_run. unfold getAuthHeaders.
  destruct (nonempty (accessToken credentials)); [|contradiction].
  eexists. reflexivity.
Qed.

Lemma SendsOne_bind A B (m : M A) (f : A -> M B) :
  SendsOne m -> (forall a, Pure (f a)) -> SendsOne (bind m f).
Proof.
  intros Hm Hf log. destruct (Hm log) as (rq & E). exists rq. unfold bind.
  destruct (m log) as [[e|a] log1]; cbn [snd] in *; subst log1; [reflexivity|].
  apply Pure_snd, Hf.
Qed.

Lemma SendsOne_catch A (m : M A) h :
  SendsOne m -> (forall e, Pure (h e)) -> SendsOne (try_catch m h).
Proof.
  intros Hm Hh log. destruct (Hm log) as (rq & E). exists rq. unfold try_catch.
  destruct (m log) as [[e|a] log1]; cbn [snd] in *; subst log1; [|reflexivity].
  apply Pure_snd, Hh.
Qed.

(** *** Without a token *)

Lemma request_without_token url options log :
  nonempty (accessToken credentials) = None ->
  request fetch credentials url options log = (inl no_token, log).
Proof.
  intros T. rewrite request_run. unfold getAuthHeaders. now rewrite T.
Qed.

Lemma Throws_request (S : Exn -> Prop) url options :
  nonempty (accessToken credentials) = None ->
  S no_token ->
  Throws S (request fetch credentials url options).
Proof.
  intros T H log. exists no_token. now rewrite request_without_token.
Qed.

Lemma Throws_bind A B (S : Exn -> Prop) (m : M A) (f : A -> M B) :
  Throws S m -> Throws S (bind m f).
Proof.
  intros Hm log. destruct (Hm log) as (e & E & H). exists e.
  unfold bind. now rewrite E.
Qed.

Lemma Throws_bind_lift A B (S : Exn -> Prop) (r : result A) (f : A -> M B) :
  (forall e, r = inl e -> S e) -> (forall a, Throws S (f a)) ->
  Throws S (bind (lift r) f).
Proof.
  intros Hr Hf log. destruct r as [e|a]; cbn.
  - exists e. auto.
  - apply Hf.
Qed.

Lemma Throws_snd A (S : Exn -> Prop) (m : M A) log : Throws S m -> snd (m log) = log.
Proof. intros H. now destruct (H log) as (e & -> & _). Qed.

(** *** What a computation can return *)

Lemma Yields_ret A (Q : A -> Prop) a : Q a -> Yields Q (ret a).
Proof. intros H log b E. injection E as <-. exact H. Qed.

Lemma Yields_lift A (Q : A -> Prop) (r : result A) :
  (forall a, r = inr a -> Q a) -> Yields Q (lift r).
Proof. intros H log a. destruct r; cbn; intros E; [discriminate E|]. auto. Qed.

Lemma Yields_bind A B (Q : B -> Prop) (m : M A) (f : A -> M B) :
  (forall a, Yields Q (f a)) -> Yields Q (bind m f).
Proof.
  intros Hf log b. unfold bind. destruct (m log) as [[e|a] log1]; cbn [fst].
  - discriminate.
  - apply Hf.
Qed.

(** *** What a computation can throw *)

Lemma Raises_ret A (Q : Exn -> Prop) (a : A) : Raises Q (ret a).
Proof. intros log e E. discriminate E. Qed.

Lemma Raises_lift A (Q : Exn -> Prop) (r : result A) :
  (forall e, r = inl e -> Q e) -> Raises Q (lift r).
Proof. intros H log e. destruct r; cbn; intros E; [|discriminate E]. auto. Qed.

Lemma Raises_bind A B (Q : Exn -> Prop) (m : M A) (f : A -> M B) :
  Raises Q m -> (forall a, Raises Q (f a)) -> Raises Q (bind m f).
Proof.
  intros Hm Hf log e. unfold bind. specialize (Hm log).
  destruct (m log) as [[e'|a] log1]; cbn [fst] in *.
  - intros E. injection E as <-. now apply Hm.
  - apply Hf.
Qed.

Lemma Raises_catch A (Q : Exn -> Prop) (m : M A) (h : Exn -> A) :
  Raises Q (try_catch m (fun e => ret (h e))).
Proof.
  intros log e. unfold try_catch, ret.
  destruct (m log) as [[e'|a] log1]; cbn [fst]; discriminate.
Qed.

Lemma read_response_throws_errors url response :
  throws_errors (read_response url response).
Proof.
  intros e. unfold read_response.
  repeat match goal with
         | |- context [if ?b then _ else _] => destruct b
         | |- context [match json response with _ => _ end] =>
             destruct (json response)
         end;
    intros E; try discriminate E; now injection E as <-.
Qed.

Lemma Raises_request url options :
  Raises (fun e => instanceof_Error e = true)
         (request fetch credentials url options).
Proof.
  intros log e. rewrite request_run. unfold getAuthHeaders, outcome.
  destruct (nonempty (accessToken credentials)); cbn [fst].
  - destruct (fetch log _).
    + apply read_response_throws_errors.
    + intros E. now injection E as <-.
  - intros E. now injection E as <-.
Qed.

(** *** The same requests under two transports *)

Lemma sent_same A B (m1 : M A) (m2 : M B) log1 log2 :
  SameSent m1 m2 -> sent m1 log1 = sent m2 log2.
Proof.
  intros H. destruct (H log1 log2) as (extra & E1 & E2).
  now rewrite (sent_app _ _ _ E1), (sent_app _ _ _ E2).
Qed.

End MonadFacts.

Section TwoTransports.

Variables fetch1 fetch2 : list Request -> Request -> option Response.
Variable credentials : TenantCredentials.

Lemma Same_pure A B (m1 : M A) (m2 : M B) : Pure m1 -> Pure m2 -> SameSent m1 m2.
Proof.
  intros H1 H2 log1 log2. exists [].
  now rewrite (Pure_snd log1 H1), (Pure_snd log2 H2), !app_nil_r.
Qed.

Lemma Same_request url options :
  SameSent (request fetch1 credentials url options)
           (request fetch2 credentials url options).
Proof.
  intros log1 log2. rewrite !request_run.
  destruct (getAuthHeaders credentials).
  - exists []. now rewrite !app_nil_r.
  - eexists [_]. split; reflexivity.
Qed.

Lemma Same_bind_lift A B C (r : result A) (k1 : A -> M B) (k2 : A -> M C) :
  (forall a, SameSent (k1 a) (k2 a)) -> SameSent (bind (lift r) k1) (bind (lift r) k2).
Proof.
  intros H log1 log2. destruct r as [e|a]; cbn.
  - exists []. now rewrite !app_nil_r.
  - apply H.
Qed.

Lemma Same_bind A1 A2 B C (m1 : M A1) (m2 : M A2) (k1 : A1 -> M B) (k2 : A2 -> M C) :
  SameSent m1 m2 -> (forall a, Pure (k1 a)) -> (forall a, Pure (k2 a)) ->
  SameSent (bind m1 k1) (bind m2 k2).
Proof.
  intros H H1 H2 log1 log2. destruct (H log1 log2) as (extra & E1 & E2).
  exists extra. unfold bind.
  destruct (m1 log1) as [[e1|a1] l1], (m2 log2) as [[e2|a2] l2];
    cbn [snd] in *; subst;
    rewrite ?(Pure_snd _ (H1 _)), ?(Pure_snd _ (H2 _)); auto.
Qed.

Lemma Same_catch A1 A2 (m1 : M A1) (m2 : M A2) h1 h2 :
  SameSent m1 m2 -> (forall e, Pure (h1 e)) -> (forall e, Pure (h2 e)) ->
  SameSent (try_catch m1 h1) (try_catch m2 h2).
Proof.
  intros H H1 H2 log1 log2. destruct (H log1 log2) as (extra & E1 & E2).
  exists extra. unfold try_catch.
  destruct (m1 log1) as [[e1|a1] l1], (m2 log2) as [[e2|a2] l2];
    cbn [snd] in *; subst;
    rewrite ?(Pure_snd _ (H1 _)), ?(Pure_snd _ (H2 _)); auto.
Qed.

End TwoTransports.

Ltac head t := lazymatch t with ?f _ => head f | _ => t end.

Ltac pure :=
  cbv zeta;
  lazymatch goal with
  | |- Pure (ret _) => apply Pure_ret
  | |- Pure (throw _) => apply Pure_throw
  | |- Pure (lift _) => apply Pure_lift
  | |- Pure (bind _ _) => apply Pure_bind; [pure | intro; pure]
  | |- Pure (try_catch _ _) => apply Pure_try_catch; [pure | intro; pure]
  | |- Pure (match ?x with _ => _ end) => destruct x; pure
  | |- Pure ?m => let h := head m in unfold h; pure
  end.

Ltac fails :=
  cbv zeta;
  lazymatch goal with
  | |- Fails _ _ (request _ _ _ _) => apply Fails_request
  | |- Fails _ _ (bind _ _) => apply Fails_bind; [fails | intro; fails]
  | |- Fails _ _ (match ?x with _ => _ end) => destruct x; fails
  | |- Fails _ _ ?m =>
      first [ solve [apply Fails_pure; pure]
            | let h := head m in unfold h; fails ]
  end.

Ltac one side :=
  cbv zeta;
  lazymatch goal with
  | |- SendsOne (request _ _ _ _) => apply SendsOne_request; side
  | |- SendsOne (bind _ _) => apply SendsOne_bind; [one side | intro; pure]
  | |- SendsOne (try_catch _ _) => apply SendsOne_catch; [one side | intro; pure]
  | |- SendsOne (match ?x with _ => _ end) => destruct x; one side
  | |- SendsOne ?m => let h := head m in unfold h; one side
  end.

Ltac throws side :=
  cbv zeta;
  lazymatch goal with
  | |- Throws _ (request _ _ _ _) => apply Throws_request; side
  | |- Throws _ (bind (lift _) _) =>
      apply Throws_bind_lift; [side | intro; throws side]
  | |- Throws _ (bind _ _) => apply Throws_bind; throws side
  | |- Throws _ (match ?x with _ => _ end) => destruct x; throws side
  | |- Throws _ ?m => let h := head m in unfold h; throws side
  end.

Ltac raises side :=
  cbv zeta;
  lazymatch goal with
  | |- Raises _ (ret _) => apply Raises_ret
  | |- Raises _ (lift _) => apply Raises_lift; side
  | |- Raises _ (request _ _ _ _) => apply Raises_request
  | |- Raises _ (bind _ _) => apply Raises_bind; [raises side | intro; raises side]
  | |- Raises _ (try_catch _ (fun e => ret _)) => apply Raises_catch
  | |- Raises _ (match ?x with _ => _ end) => destruct x; raises side
  | |- Raises _ ?m => let h := head m in unfold h; raises side
  end.

Ltac same :=
  cbv zeta;
  lazymatch goal with
  | |- SameSent (request _ _ _ _) (request _ _ _ _) => apply Same_request
  | |- SameSent (bind (lift _) _) (bind (lift _) _) =>
      apply Same_bind_lift; intro; same
  | |- SameSent (bind _ _) (bind _ _) =>
      apply Same_bind; [same | intro; pure | intro; pure]
  | |- SameSent (try_catch _ _) (try_catch _ _) =>
      apply Same_catch; [same | intro; pure | intro; pure]
  | |- SameSent (match ?x with _ => _ end) _ => destruct x; same
  | |- SameSent ?m1 ?m2 =>
      first [ solve [apply Same_pure; pure]
            | let h1 := head m1 in let h2 := head m2 in unfold h1; same ]
  end.

Ltac sends side :=
  cbv zeta;
  lazymatch goal with
  | |- Sends _ _ (request _ _ _ _) =>
      first [ apply Sends_request
            | eapply Sends_weaken; [apply Sends_request | lia] ]; side
  | |- Sends _ _ (bind _ _) =>
      first [ solve [apply Sends_bind_l; [pure | intro; sends side]]
            | solve [apply Sends_bind_r; [sends side | intro; pure]]
            | solve [apply Sends_bind_1; [sends side | intro; sends side]] ]
  | |- Sends _ _ (try_catch _ _) => apply Sends_catch; [sends side | intro; pure]
  | |- Sends _ _ (match ?x with _ => _ end) => destruct x; sends side
  | |- Sends _ _ ?m =>
      first [ solve [apply Sends_pure; pure]
            | let h := head m in unfold h; sends side ]
  end.

(* ================================================================== *)
(** ** The status of a response and the kind of error *)
(* ================================================================== *)

Section Status.

Variable fetch : list Request -> Request -> option Response.
Variable credentials : TenantCredentials.

Lemma request_sent_one url options log rq :
  snd (request fetch credentials url options log) = log ++ [rq] ->
  exists token,
    nonempty (accessToken credentials) = Some token
    /\ rq = {| req_url := url; req_method := method options;
               req_headers := auth_headers token; req_body := body options |}
    /\ fst (request fetch credentials url options log) = outcome fetch log rq.
Proof.
  rewrite request_run. unfold getAuthHeaders.
  destruct (nonempty (accessToken credentials)) as [token|]; cbn [fst snd].
  - intros E. apply app_inv_head in E. injection E as <-.
    exists token. auto.
  - intros E. rewrite <- (app_nil_r log) in E at 1.
    apply app_inv_head in E. discriminate E.
Qed.

Lemma read_response_kind url response :
  match kind_of_status (status response) with
  | Some k => exists e, read_response url response = inl e /\ kind_of e = Some k
  | None =>
      read_response url response =
      if (status response =? 204)%Z then inr VUndefined
      else match json response with
           | Some data => inr data
           | None => inl SyntaxError
           end
  end.
Proof.
  unfold kind_of_status, read_response, ok.
  destruct (status response =? 429)%Z; [eauto|].
  destruct (status response =? 401)%Z; [eauto|].
  destruct (status response =? 403)%Z; [eauto|].
  destruct (status response =? 404)%Z; [eauto|].
  destruct ((200 <=? status response)%Z && (status response <=? 299)%Z);
    cbn [negb]; eauto.
Qed.

(** C1, as amended. When a response is received, its status decides the
    outcome of [request]: 429 raises the rate-limit error, 401 the
    authentication error, 403 the permission-denied error, 404 the
    not-found error, every other status outside 200..299 the generic API
    error with that status; a status in 200..299 raises none of these:
    the call returns [undefined] for 204 and the parsed body otherwise,
    and only a body that is not JSON makes it throw, a [SyntaxError]. *)
Theorem status_decides_error_kind url options log rq response :
  snd (request fetch credentials url options log) = log ++ [rq] ->
  fetch log rq = Some response ->
  match kind_of_status (status response) with
  | Some k =>
      exists e,
        fst (request fetch credentials url options log) = inl e
        /\ kind_of e = Some k
  | None =>
      fst (request fetch credentials url options log) =
      if (status response =? 204)%Z then inr VUndefined
      else match json response with
           | Some data => inr data
           | None => inl SyntaxError
           end
  end.
Proof.
  intros S F. destruct (@request_sent_one url options log rq S) as (token & _ & -> & ->).
  unfold outcome. rewrite F. cbn [req_url]. apply read_response_kind.
Qed.

End Status.

Lemma status_decides_error_kind_witness :
  let response := {| status := 503; retry_after := None; json := None |} in
  let credentials := {| accessToken := Some (lit "token"); projectId := None |} in
  let url := lit "https://example.test/" in
  let rq := {| req_url := url; req_method := None;
               req_headers := auth_headers (lit "token"); req_body := None |} in
  snd (request (always response) credentials url no_options []) = [] ++ [rq]
  /\ always response [] rq = Some response
  /\ exists e,
       fst (request (always response) credentials url no_options []) = inl e
       /\ kind_of e = Some (Generic 503).
Proof.
  intros response credentials url rq.
  split; [reflexivity|]. split; [reflexivity|].
  exact (@status_decides_error_kind (always response) credentials url no_options []
           rq response eq_refl eq_refl).
Defined.

(** C1 as stated fails: a response with status 200 whose body is not JSON
    makes [request] throw. *)
Lemma ok_status_can_throw :
  let response := {| status := 200; retry_after := None; json := None |} in
  let credentials := {| accessToken := Some (lit "token"); projectId := None |} in
  kind_of_status (status response) = None
  /\ fst (request (always response) credentials
            (API_URLS.storage +++ "/b/bucket") no_options [])
     = inl SyntaxError.
Proof. split; reflexivity. Qed.

(* ================================================================== *)
(** ** Errors reach the caller; requests are not repeated *)
(* ================================================================== *)

Section Handlers.

Variable fetch : list Request -> Request -> option Response.
Variable credentials : TenantCredentials.
Variable describe : Exn -> ErrorFields.

Lemma attempt_fails t :
  is_connection_test t = false ->
  Fails fetch inl (attempt fetch credentials describe t).
Proof.
  destruct t; intros Ht; try discriminate Ht; cbn [attempt]; fails.
Qed.

Lemma recover_formatError t e :
  is_connection_test t = false ->
  recover describe t e = inr (formatError describe e).
Proof. destruct t; intros Ht; try discriminate Ht; reflexivity. Qed.

Lemma handler_fails t :
  is_connection_test t = false ->
  Fails fetch (fun e => inr (formatError describe e))
        (handler fetch credentials describe t).
Proof.
  intros Ht log.
  destruct (Fails_catch (recover describe t) (attempt_fails t Ht) log)
    as (extra & E & F).
  exists extra. split; [exact E|].
  intros pre rq post e E' O. destruct (F pre rq post e E' O) as [-> K].
  split; [reflexivity|]. rewrite <- (recover_formatError t e Ht). exact K.
Qed.

Lemma handler_sends t :
  Sends (if is_policy_update t then 2 else 1) (bearer credentials)
        (handler fetch credentials describe t).
Proof.
  assert (B : forall url options headers,
             getAuthHeaders credentials = inr headers ->
             bearer credentials
               {| req_url := url; req_method := method options;
                  req_headers := headers; req_body := body options |}).
  { intros url options headers. unfold getAuthHeaders, bearer.
    destruct (nonempty (accessToken credentials)) as [token|]; [|discriminate].
    intros E. injection E as <-. exists token. auto. }
  unfold handler.
  destruct t; cbn [attempt is_policy_update]; sends ltac:(apply B).
Qed.

Lemma sent_of_sends A n P (m : M A) log :
  Sends n P m ->
  exists extra,
    snd (m log) = log ++ extra /\ sent m log = extra
    /\ List.length extra <= n /\ Forall P extra.
Proof.
  intros H. destruct (H log) as (extra & E & L & F).
  exists extra. repeat split; auto. now apply sent_app.
Qed.

Lemma handler_sends_one t :
  plain t = true ->
  nonempty (accessToken credentials) <> None ->
  SendsOne (handler fetch credentials describe t).
Proof.
  intros Ht T. unfold handler.
  destruct t; try discriminate Ht; cbn [attempt]; one ltac:(exact T).
Qed.

Lemma read_response_provider_message url response m :
  kind_of_status (status response) = Some (Generic (status response)) ->
  provider_message response = VStr m ->
  m <> [] ->
  read_response url response = inl (GCloudApiError (VStr m) (status response)).
Proof.
  unfold kind_of_status, read_response, ok, provider_message.
  destruct (status response =? 429)%Z; [discriminate|].
  destruct (status response =? 401)%Z; [discriminate|].
  destruct (status response =? 403)%Z; [discriminate|].
  destruct (status response =? 404)%Z; [discriminate|].
  destruct ((200 <=? status response)%Z && (status response <=? 299)%Z);
    [discriminate|]. intros _. cbn [negb].
  destruct (json response) as [errorJson|]; [|discriminate].
  unfold get_opt at 2. destruct (get errorJson "error") as [e|error].
  - discriminate.
  - intros -> Hm. unfold or_else at 2. cbn [truthy].
    destruct m; [contradiction|]. reflexivity.
Qed.

Lemma read_response_fixed url response :
  ((status response = 429)%Z ->
   exists retryAfter,
     read_response url response
     = inl (RateLimitError "Rate limit exceeded" retryAfter))
  /\ ((status response = 401)%Z ->
      read_response url response
      = inl (AuthenticationError "Authentication failed. Check your access token."))
  /\ ((status response = 403)%Z ->
      read_response url response
      = inl (PermissionDeniedError "Permission denied. Check your IAM permissions."))
  /\ ((status response = 404)%Z ->
      read_response url response = inl (NotFoundError "Resource" url)).
Proof.
  unfold read_response. repeat split; intros ->; cbn; eauto.
Qed.

(** C2, as amended. For every tool but the connection test, a response
    that is an error ends the invocation and the error that [request]
    made of it is what [formatError] is given. When the status is none of
    429, 401, 403, 404 and the body of the response holds a non-empty
    string at [error.message], that string is the message of the payload,
    unaltered, provided [GCloudApiError] keeps the message it is built
    with. For 429, 401, 403 and 404 the error carries the client's own
    words, whatever the body says. *)
Theorem provider_message_surfaced t log pre rq post response :
  is_connection_test t = false ->
  sent (handler fetch credentials describe t) log = pre ++ rq :: post ->
  fetch (log ++ pre) rq = Some response ->
  (forall e,
     read_response (req_url rq) response = inl e ->
     fst (handler fetch credentials describe t log)
     = inr (formatError describe e))
  /\ (forall m,
        kind_of_status (status response) = Some (Generic (status response)) ->
        provider_message response = VStr m ->
        m <> [] ->
        (forall msg s,
           err_message (describe (GCloudApiError (VStr msg) s)) = VStr msg) ->
        let e := GCloudApiError (VStr m) (status response) in
        fst (handler fetch credentials describe t log) =
        inr (text_envelope
               (JSON.stringify
                  (VObj [(lit "error", VBool true);
                         (lit "name", err_name (describe e));
                         (lit "message", VStr m);
                         (lit "code", err_code (describe e));
                         (lit "statusCode", err_statusCode (describe e))]))
               true))
  /\ ((status response = 429)%Z ->
      exists retryAfter,
        read_response (req_url rq) response
        = inl (RateLimitError "Rate limit exceeded" retryAfter))
  /\ ((status response = 401)%Z ->
      read_response (req_url rq) response
      = inl (AuthenticationError "Authentication failed. Check your access token."))
  /\ ((status response = 403)%Z ->
      read_response (req_url rq) response
      = inl (PermissionDeniedError "Permission denied. Check your IAM permissions."))
  /\ ((status response = 404)%Z ->
      read_response (req_url rq) response
      = inl (NotFoundError "Resource" (req_url rq))).
Proof.
  intros Ht S F.
  destruct (handler_fails t Ht log) as (extra & E & H).
  rewrite (sent_app _ _ _ E) in S. subst extra.
  assert (G : forall e,
             read_response (req_url rq) response = inl e ->
             fst (handler fetch credentials describe t log)
             = inr (formatError describe e)).
  { intros e R. apply (H pre rq post e eq_refl). unfold outcome. now rewrite F. }
  split; [exact G|]. split; [|apply read_response_fixed].
  intros m K P Hm Hd e.
  rewrite (G e) by now apply read_response_provider_message.
  unfold formatError, error_payload, text_envelope. subst e. now rewrite Hd.
Qed.

(** C3, as amended. A tool sends at most one request, the policy update
    at most two (it reads the policy before it writes it); nothing is
    sent after a request that failed; and with a token, a tool whose
    arguments need no encoding sends exactly one. *)
Theorem one_call_per_invocation t log :
  List.length (sent (handler fetch credentials describe t) log)
    <= (if is_policy_update t then 2 else 1)
  /\ (forall pre rq post e,
        sent (handler fetch credentials describe t) log = pre ++ rq :: post ->
        outcome fetch (log ++ pre) rq = inl e ->
        post = [])
  /\ (plain t = true ->
      nonempty (accessToken credentials) <> None ->
      List.length (sent (handler fetch credentials describe t) log) = 1).
Proof.
  destruct (sent_of_sends log (handler_sends t)) as (extra & E & -> & L & _).
  split; [exact L|]. split.
  - intros pre rq post e S O.
    destruct (is_connection_test t) eqn:Ht.
    + destruct t; try discriminate Ht. cbn [is_policy_update] in L. subst extra.
      rewrite length_app in L. cbn [List.length] in L.
      destruct post; [reflexivity|]. cbn [List.length] in L. lia.
    + destruct (handler_fails t Ht log) as (extra' & E' & H).
      rewrite E in E'. apply app_inv_head in E'. subst extra'.
      now destruct (H pre rq post e S O).
  - intros Ht T. destruct (handler_sends_one t Ht T log) as (rq & E1).
    rewrite E in E1. apply app_inv_head in E1. now subst extra.
Qed.

End Handlers.

Lemma provider_message_surfaced_witness :
  let body :=
    VObj [(lit "error",
           VObj [(lit "code", VNum 500);
                 (lit "message", VStr "Internal error encountered.")])] in
  let response := {| status := 500; retry_after := None; json := Some body |} in
  let credentials := {| accessToken := Some (lit "token"); projectId := None |} in
  let t := gcloud_get_bucket (lit "bucket") in
  let rq := {| req_url := API_URLS.storage +++ "/b/" +++ lit "bucket";
               req_method := None; req_headers := auth_headers (lit "token");
               req_body := None |} in
  let e := GCloudApiError (VStr "Internal error encountered.") 500 in
  is_connection_test t = false
  /\ sent (handler (always response) credentials bare_errors t) [] = [] ++ rq :: []
  /\ always response ([] ++ []) rq = Some response
  /\ kind_of_status (status response) = Some (Generic (status response))
  /\ provider_message response = VStr "Internal error encountered."
  /\ fst (handler (always response) credentials bare_errors t []) =
     inr (text_envelope
            (JSON.stringify
               (VObj [(lit "error", VBool true);
                      (lit "name", err_name (bare_errors e));
                      (lit "message", VStr "Internal error encountered.");
                      (lit "code", err_code (bare_errors e));
                      (lit "statusCode", err_statusCode (bare_errors e))]))
            true).
Proof.
  intros body response credentials t rq e.
  repeat (split; [reflexivity|]).
  refine (proj1 (proj2 (@provider_message_surfaced (always response) credentials
                          bare_errors t [] [] rq [] response
                          eq_refl eq_refl eq_refl))
            (lit "Internal error encountered.") eq_refl eq_refl _ _).
  - discriminate.
  - intros msg s. reflexivity.
Defined.

(** C2 as stated fails: on a 401 the payload is built from the client's
    own message, whatever message the provider sent; and the connection
    test answers a failed request without the error flag. *)
Lemma fixed_message_on_401 :
  let answer (m : jsstring) :=
    {| status := 401; retry_after := None;
       json := Some (VObj [(lit "error",
                            VObj [(lit "code", VNum 401);
                                  (lit "message", VStr m)])]) |} in
  let r1 := answer "Request had invalid authentication credentials." in
  let r2 := answer "Token has been expired or revoked." in
  let credentials := {| accessToken := Some (lit "token"); projectId := None |} in
  let t := gcloud_get_bucket (lit "bucket") in
  let e := AuthenticationError "Authentication failed. Check your access token." in
  provider_message r1 = VStr "Request had invalid authentication credentials."
  /\ provider_message r2 = VStr "Token has been expired or revoked."
  /\ forall describe,
       fst (handler (always r1) credentials describe t []) = inr (formatError describe e)
       /\ fst (handler (always r2) credentials describe t []) = inr (formatError describe e)
       /\ fst (handler (always r1)
                 {| accessToken := Some (lit "token"); projectId := Some (lit "p") |}
                 describe gcloud_test_connection [])
          = inr (text_envelope
                   (JSON.stringify
                      (VObj [(lit "connected", VBool false);
                             (lit "message", err_message (describe e))]))
                   false).
Proof.
  intros answer r1 r2 credentials t e.
  split; [reflexivity|]. split; [reflexivity|].
  intros describe. repeat split; reflexivity.
Qed.

Lemma one_call_per_invocation_witness :
  let response := {| status := 200; retry_after := None; json := Some (VObj []) |} in
  let credentials := {| accessToken := Some (lit "token"); projectId := None |} in
  let t := gcloud_list_buckets (lit "project") in
  plain t = true
  /\ nonempty (accessToken credentials) <> None
  /\ List.length (sent (handler (always response) credentials bare_errors t) []) = 1.
Proof.
  intros response credentials t.
  assert (T : nonempty (accessToken credentials) <> None) by discriminate.
  split; [reflexivity|]. split; [exact T|].
  exact (proj2 (proj2 (@one_call_per_invocation (always response) credentials
                         bare_errors t [])) eq_refl T).
Defined.

(** C3 as stated fails: the policy update calls the transport twice, and
    a tool without a token calls it not at all. *)
Lemma policy_update_calls_twice :
  let response :=
    {| status := 200; retry_after := None;
       json := Some (VObj [(lit "version", VNum 1);
                           (lit "etag", VStr "BwWWja0YfJA=")]) |} in
  let credentials := {| accessToken := Some (lit "token"); projectId := None |} in
  let t := gcloud_set_project_iam_policy (lit "project")
             [(lit "roles/viewer", [lit "user:a@example.com"])] in
  List.length (sent (handler (always response) credentials bare_errors t) []) = 2
  /\ sent (handler (always response) {| accessToken := None; projectId := None |}
             bare_errors (gcloud_list_buckets (lit "project"))) [] = [].
Proof. split; reflexivity. Qed.

(* ================================================================== *)
(** ** Endpoints and credentials *)
(* ================================================================== *)

Lemma encodeURIComponent_error s e : URI.encodeURIComponent s = inl e -> e = URIError.
Proof.
  unfold URI.encodeURIComponent. generalize (URI.code_points s) as cps.
  induction cps as [|[cp|] cps IH]; cbn [URI.encode_points].
  - discriminate.
  - destruct (URI.encode_points cps); [|discriminate].
    intros E. injection E as <-. now apply IH.
  - intros E. now injection E as <-.
Qed.

Lemma btoa_error s e : Base64.btoa s = inl e -> e = InvalidCharacterError.
Proof.
  unfold Base64.btoa. destruct (forallb _ s); [discriminate|].
  intros E. now injection E as <-.
Qed.

Lemma lit_String c s : lit (String c s) = N_of_ascii c :: lit s.
Proof. reflexivity. Qed.

Module FormFacts.

Lemma form_plain_unit c :
  form_plain c = true ->
  JSON.is_high_surrogate c = false /\ JSON.is_low_surrogate c = false
  /\ URI.utf8 c = [c] /\ URI.form_byte c = [c].
Proof.
  unfold form_plain, URI.is_alphanumeric, JSON.is_high_surrogate,
    JSON.is_low_surrogate, URI.utf8, URI.form_byte. cbn [existsb]. intros H.
  assert (B : (c < 128)%N /\ c <> 32%N).
  { repeat match type of H with
           | context [N.leb ?a ?b] => destruct (N.leb_spec a b)
           | context [N.eqb ?a ?b] => destruct (N.eqb_spec a b)
           end; cbn in H; try discriminate H; lia. }
  destruct B as [B S].
  repeat split.
  - destruct (N.leb_spec 55296 c); [lia | reflexivity].
  - destruct (N.leb_spec 56320 c); [lia | reflexivity].
  - destruct (N.ltb_spec c 128); [reflexivity | lia].
  - destruct (N.eqb_spec c 32); [contradiction|].
    fold (URI.is_alphanumeric c). unfold URI.is_alphanumeric. cbn [existsb].
    now rewrite H.
Qed.

Lemma form_encode_plain s :
  forallb form_plain s = true -> URI.form_encode s = s.
Proof.
  unfold URI.form_encode. induction s as [|c s IH]; [reflexivity|].
  cbn [forallb]. intros H. apply andb_prop in H. destruct H as [Hc Hs].
  destruct (form_plain_unit c Hc) as (Hh & Hl & U & F).
  cbn [URI.code_points]. rewrite Hh, Hl. cbn [flat_map]. rewrite U.
  cbn [flat_map]. rewrite F, app_nil_r. cbn [app]. f_equal. now apply IH.
Qed.

Lemma uint_plain d : forallb form_plain (lit (NilEmpty.string_of_uint d)) = true.
Proof.
  induction d; cbn [NilEmpty.string_of_uint]; [reflexivity|..];
    rewrite lit_String; cbn [forallb]; rewrite IHd; reflexivity.
Qed.

Lemma of_Z_plain n : forallb form_plain (JS.of_Z n) = true.
Proof.
  unfold JS.of_Z. destruct (Z.to_int n) as [d|d]; cbn [NilZero.string_of_int].
  - destruct d; try reflexivity; apply (uint_plain (_ d)).
  - rewrite lit_String. cbn [forallb]. apply andb_true_intro. split; [reflexivity|].
    destruct d; try reflexivity; apply (uint_plain (_ d)).
Qed.

Lemma form_encode_of_Z n : URI.form_encode (JS.of_Z n) = JS.of_Z n.
Proof. apply form_encode_plain, of_Z_plain. Qed.

End FormFacts.

Section Endpoints.

Variable fetch : list Request -> Request -> option Response.
Variable credentials : TenantCredentials.
Variable describe : Exn -> ErrorFields.

Lemma invoke_bearer c :
  Sends 1 (bearer credentials) (invoke fetch credentials describe c).
Proof.
  assert (B : forall url options headers,
             getAuthHeaders credentials = inr headers ->
             bearer credentials
               {| req_url := url; req_method := method options;
                  req_headers := headers; req_body := body options |}).
  { intros url options headers. unfold getAuthHeaders, bearer.
    destruct (nonempty (accessToken credentials)) as [token|]; [|discriminate].
    intros E. injection E as <-. exists token. auto. }
  destruct c; cbn [invoke]; sends ltac:(apply B).
Qed.

Lemma request_sent url options log token :
  nonempty (accessToken credentials) = Some token ->
  sent (request fetch credentials url options) log =
  [{| req_url := url; req_method := method options;
      req_headers := auth_headers token; req_body := body options |}].
Proof.
  intros T. apply sent_app. rewrite request_run. unfold getAuthHeaders.
  now rewrite T.
Qed.

Ltac reach T :=
  cbv zeta;
  lazymatch goal with
  | |- context [sent (ret _) _] => rewrite sent_pure by pure; reflexivity
  | |- context [sent (request _ _ ?url ?options) ?log] =>
      rewrite (request_sent url options log T); reflexivity
  | |- context [sent (bind (lift ?r) _) _] =>
      rewrite sent_bind_lift; destruct r; [reflexivity | reach T]
  | |- context [sent (bind _ _) _] =>
      rewrite sent_bind_pure by (intro; pure); reach T
  | |- context [sent (try_catch _ _) _] =>
      rewrite sent_catch_pure by (intro; pure); reach T
  | |- context [sent (match ?x with _ => _ end) _] => destruct x; reach T
  | |- context [sent ?m _] => let h := head m in unfold h; reach T
  end.

Lemma invoke_endpoint token c log :
  nonempty (accessToken credentials) = Some token ->
  map (fun rq => (req_url rq, effective_method rq))
      (sent (invoke fetch credentials describe c) log)
  = match endpoint credentials c with
    | Some e => [(base_url (service e) ++ path e, verb e)]
    | None => []
    end.
Proof.
  intros T.
  destruct c; cbn [invoke endpoint via service path verb];
    lazymatch goal with
    | |- context [listObjects] =>
        unfold listObjects; cbv zeta; rewrite (request_sent _ no_options log T);
        cbn [map req_url effective_method req_method method no_options];
        unfold objects_query, URI.search_params, JS.cat;
        destruct (nonempty prefix) as [p|]; destruct maxResults as [[|n|n]|];
        cbn [truthy optional_number Z.eqb negb app map JS.join fst snd];
        rewrite ?FormFacts.form_encode_of_Z;
        change (URI.form_encode (lit "prefix")) with (lit "prefix");
        change (URI.form_encode (lit "maxResults")) with (lit "maxResults");
        rewrite <- ?app_assoc; reflexivity
    | |- context [deleteDataset] =>
        unfold deleteDataset; cbv zeta;
        rewrite sent_bind_pure by (intro; pure);
        rewrite (request_sent _ _ log T);
        destruct deleteContents as [[|]|]; reflexivity
    | _ => reach T
    end.
Qed.

Lemma endpoint_service c e :
  endpoint credentials c = Some e ->
  if is_policy_call c then service e = ResourceManager
  else In (base_url (service e)) API_URLS.all.
Proof.
  destruct c; cbn [endpoint via is_policy_call];
    repeat match goal with
           | |- context [match ?x with _ => _ end] => destruct x
           end;
    intros E; try discriminate E; injection E as <-;
    cbn [service base_url]; unfold API_URLS.all; try reflexivity;
    repeat first [ left; reflexivity | right ].
Qed.

Lemma handler_operation t log :
  is_policy_update t = false ->
  sent (handler fetch credentials describe t) log
  = match operation t with
    | Some c => sent (invoke fetch credentials describe c) log
    | None => []
    end.
Proof.
  intros Ht. unfold handler. rewrite sent_catch_pure by (intro; pure).
  destruct t; try discriminate Ht; cbn [attempt operation invoke]; cbv zeta;
    lazymatch goal with
    | |- context [Base64.btoa ?d] =>
        rewrite sent_bind_lift; destruct (Base64.btoa d); [reflexivity|];
        rewrite sent_bind_pure by (intro; pure); reflexivity
    | _ => rewrite sent_bind_pure by (intro; pure); reflexivity
    end.
Qed.

Lemma policy_update_operations p bindings log :
  exists rest,
    sent (handler fetch credentials describe
            (gcloud_set_project_iam_policy p bindings)) log
    = sent (invoke fetch credentials describe (GetProjectIamPolicy p)) log ++ rest
    /\ (rest = []
        \/ exists policy log',
             rest = sent (invoke fetch credentials describe
                            (SetProjectIamPolicy p policy)) log').
Proof.
  unfold handler. rewrite sent_catch_pure by (intro; pure).
  cbn [attempt invoke]. unfold getProjectIamPolicy.
  rewrite (@sent_bind_request fetch credentials Envelope 1)
    by (intro; sends ltac:(intros; exact I)).
  eexists. split; [reflexivity|].
  destruct (request fetch credentials _ _ log) as [[e|current] log']; [now left|].
  rewrite sent_bind_lift. destruct (get current "version"); [now left|].
  rewrite sent_bind_lift. destruct (get current "etag"); [now left|].
  rewrite sent_bind_pure by (intro; pure). right. eauto.
Qed.

(** C4, as amended. With a token, [listInstances] sends one GET to the
    instances of the zone and [deleteInstance] one DELETE to the instance;
    the name of a storage object enters the URL percent-encoded. Every
    operation sends one request, to the URL and with the method that the
    table [endpoint] gives for it: the base URL of its service and the
    path of the operation with the arguments in their places (a number
    among them being one that a double holds as it is); it sends
    none when an argument cannot be encoded, or when the connection test
    has no project. The base URL is one of the twelve of [API_URLS],
    except that the two operations on the IAM policy of a project go to
    the Resource Manager. Every tool sends what its operation sends when
    called with the arguments of the tool; the policy update sends what
    the read of the policy sends and then, at most, what a write does. *)
Theorem requests_go_to_fixed_endpoints token :
  nonempty (accessToken credentials) = Some token ->
  (forall p z log,
     sent (listInstances fetch credentials p z) log =
     [{| req_url := lit "https://compute.googleapis.com/compute/v1/projects/"
                      ++ p ++ lit "/zones/" ++ z ++ lit "/instances";
         req_method := None;
         req_headers := auth_headers token;
         req_body := None |}])
  /\ (forall p z i log,
        sent (deleteInstance fetch credentials p z i) log =
        [{| req_url := lit "https://compute.googleapis.com/compute/v1/projects/"
                         ++ p ++ lit "/zones/" ++ z ++ lit "/instances/" ++ i;
            req_method := Some (lit "DELETE");
            req_headers := auth_headers token;
            req_body := None |}])
  /\ (forall b o encoded log,
        URI.encodeURIComponent o = inr encoded ->
        sent (getObject fetch credentials b o) log =
        [{| req_url := lit "https://storage.googleapis.com/storage/v1/b/"
                         ++ b ++ lit "/o/" ++ encoded;
            req_method := None;
            req_headers := auth_headers token;
            req_body := None |}])
  /\ (forall c log,
        url_exact c = true ->
        map (fun rq => (req_url rq, effective_method rq))
            (sent (invoke fetch credentials describe c) log)
        = match endpoint credentials c with
          | Some e => [(base_url (service e) ++ path e, verb e)]
          | None => []
          end)
  /\ (forall c e,
        endpoint credentials c = Some e ->
        if is_policy_call c then service e = ResourceManager
        else In (base_url (service e)) API_URLS.all)
  /\ (forall t log,
        is_policy_update t = false ->
        sent (handler fetch credentials describe t) log
        = match operation t with
          | Some c => sent (invoke fetch credentials describe c) log
          | None => []
          end)
  /\ (forall p bindings log,
        exists rest,
          sent (handler fetch credentials describe
                  (gcloud_set_project_iam_policy p bindings)) log
          = sent (invoke fetch credentials describe (GetProjectIamPolicy p)) log
              ++ rest
          /\ (rest = []
              \/ exists policy log',
                   rest = sent (invoke fetch credentials describe
                                  (SetProjectIamPolicy p policy)) log')).
Proof.
  intros T. repeat apply conj.
  - intros p z log. unfold listInstances. now rewrite (request_sent _ _ _ T).
  - intros p z i log. unfold deleteInstance. now rewrite (request_sent _ _ _ T).
  - intros b o encoded log E. unfold getObject. rewrite E.
    exact (request_sent _ no_options log T).
  - intros c log _. now apply invoke_endpoint with (token := token).
  - apply endpoint_service.
  - apply handler_operation.
  - apply policy_update_operations.
Qed.

Lemma testConnection_pure_without_token :
  nonempty (accessToken credentials) = None ->
  Pure (testConnection fetch credentials describe).
Proof.
  intros T. unfold testConnection.
  apply Pure_try_catch; [|intro; apply Pure_ret].
  destruct (nonempty (projectId credentials)); [|apply Pure_ret].
  apply Pure_bind; [|intro; apply Pure_ret].
  apply Pure_intro with (r := inl no_token). intros log.
  now apply request_without_token.
Qed.

Lemma invoke_throws_no_token c :
  nonempty (accessToken credentials) = None ->
  is_connection_call c = false ->
  encodes_argument c = false ->
  Throws (eq no_token) (invoke fetch credentials describe c).
Proof.
  intros T.
  destruct c; intros Hc He; try discriminate Hc; try discriminate He;
    cbn [invoke]; throws ltac:(first [exact T | reflexivity]).
Qed.

Lemma invoke_throws c :
  nonempty (accessToken credentials) = None ->
  is_connection_call c = false ->
  Throws (fun e => e = no_token \/ e = InvalidCharacterError \/ e = URIError)
         (invoke fetch credentials describe c).
Proof.
  intros T.
  destruct c; intros Hc; try discriminate Hc; cbn [invoke];
    throws ltac:(first [ exact T
                       | left; reflexivity
                       | intros ? E; apply encodeURIComponent_error in E; auto
                       | intros ? E; apply btoa_error in E; auto ]).
Qed.

(** C5, as amended. Every request that a tool or an operation sends
    carries [Authorization: Bearer] with the token of the tenant. Without
    a token no operation sends anything; each one but the connection test
    throws, the authentication error unless encoding an argument threw
    first, and always the authentication error when it encodes none. The
    connection test returns instead: [connected] is false and [message]
    is the message of the authentication error, or asks for a project
    when the tenant gave none. *)
Theorem bearer_token_or_nothing :
  (forall t log, Forall (bearer credentials)
                   (sent (handler fetch credentials describe t) log))
  /\ (forall c log, Forall (bearer credentials)
                      (sent (invoke fetch credentials describe c) log))
  /\ (nonempty (accessToken credentials) = None ->
      forall c log,
        sent (invoke fetch credentials describe c) log = []
        /\ (is_connection_call c = false ->
            exists e,
              fst (invoke fetch credentials describe c log) = inl e
              /\ (e = no_token \/ e = InvalidCharacterError \/ e = URIError)
              /\ (encodes_argument c = false -> e = no_token)))
  /\ (nonempty (accessToken credentials) = None ->
      forall log,
        fst (invoke fetch credentials describe TestConnection log) =
        inr (VObj [(lit "connected", VBool false);
                   (lit "message",
                    match nonempty (projectId credentials) with
                    | Some _ => err_message (describe no_token)
                    | None =>
                        VStr "No project ID provided. Set X-GCloud-Project-ID header."
                    end)])).
Proof.
  split; [|split; [|split]]; cycle 3.
  { intros T log. cbn [invoke]. unfold testConnection, try_catch.
    destruct (nonempty (projectId credentials)); [|reflexivity].
    unfold bind. now rewrite request_without_token. }
  - intros t log.
    now destruct (sent_of_sends log (handler_sends fetch credentials describe t))
      as (x & _ & -> & _ & F).
  - intros c log.
    now destruct (sent_of_sends log (invoke_bearer c)) as (x & _ & -> & _ & F).
  - intros T c log.
    destruct (is_connection_call c) eqn:Hc.
    + destruct c; try discriminate Hc. cbn [invoke]. split; [|discriminate].
      apply sent_app. rewrite app_nil_r.
      apply Pure_snd, testConnection_pure_without_token, T.
    + pose proof (invoke_throws c T Hc) as H. split.
      * apply sent_app. rewrite app_nil_r. exact (Throws_snd log H).
      * intros _. destruct (H log) as (e & E & S). exists e.
        rewrite E. split; [reflexivity|]. split; [exact S|].
        intros He. destruct (invoke_throws_no_token c T Hc He log) as (e' & E' & <-).
        rewrite E in E'. now injection E' as ->.
Qed.

End Endpoints.

Lemma requests_go_to_fixed_endpoints_witness :
  let credentials := {| accessToken := Some (lit "token"); projectId := None |} in
  let response := {| status := 200; retry_after := None; json := Some (VObj []) |} in
  nonempty (accessToken credentials) = Some (lit "token")
  /\ sent (listInstances (always response) credentials (lit "p") (lit "z")) [] =
     [{| req_url := lit "https://compute.googleapis.com/compute/v1/projects/p/zones/z/instances";
         req_method := None;
         req_headers := auth_headers (lit "token");
         req_body := None |}].
Proof.
  intros credentials response. split; [reflexivity|].
  exact (proj1 (@requests_go_to_fixed_endpoints (always response) credentials
                  bare_errors (lit "token") eq_refl)
           (lit "p") (lit "z") []).
Defined.

(** C4 as stated fails: reading the IAM policy of a project contacts a
    host that is none of the twelve of [API_URLS]; and the name of an
    object is not in the URL as it was given. *)
Lemma policy_read_contacts_resource_manager :
  let credentials := {| accessToken := Some (lit "token"); projectId := None |} in
  let response := {| status := 200; retry_after := None; json := Some (VObj []) |} in
  let rq :=
    {| req_url :=
         lit "https://cloudresourcemanager.googleapis.com/v1/projects/project:getIamPolicy";
       req_method := Some (lit "POST");
       req_headers := auth_headers (lit "token");
       req_body := Some (lit "{}") |} in
  sent (invoke (always response) credentials bare_errors
          (GetProjectIamPolicy (lit "project"))) [] = [rq]
  /\ contacts_listed_service rq = false
  /\ map req_url
       (sent (invoke (always response) credentials bare_errors
                (GetObject (lit "bucket") (lit "logs/today.txt"))) [])
     = [lit "https://storage.googleapis.com/storage/v1/b/bucket/o/logs%2Ftoday.txt"].
Proof. repeat split; reflexivity. Qed.

Lemma bearer_token_or_nothing_witness :
  let credentials := {| accessToken := None; projectId := Some (lit "project") |} in
  let response := {| status := 200; retry_after := None; json := Some (VObj []) |} in
  let c := ListBuckets (lit "project") in
  nonempty (accessToken credentials) = None
  /\ is_connection_call c = false
  /\ sent (invoke (always response) credentials bare_errors c) [] = []
  /\ exists e,
       fst (invoke (always response) credentials bare_errors c []) = inl e
       /\ (e = no_token \/ e = InvalidCharacterError \/ e = URIError)
       /\ (encodes_argument c = false -> e = no_token).
Proof.
  intros credentials response c.
  split; [reflexivity|]. split; [reflexivity|].
  pose proof (proj1 (proj2 (proj2 (@bearer_token_or_nothing (always response)
                                     credentials bare_errors)))
                eq_refl c []) as [H1 H2].
  split; [exact H1 | exact (H2 eq_refl)].
Defined.

(** C5 as stated fails: without a token, and without a project, the
    connection test does not fail with the authentication error; it
    returns. And a payload that [btoa] rejects makes [addSecretVersion]
    fail with the error of [btoa], token or not. *)
Lemma connection_test_returns_without_token :
  let credentials := {| accessToken := None; projectId := None |} in
  let response := {| status := 200; retry_after := None; json := Some (VObj []) |} in
  invoke (always response) credentials bare_errors TestConnection [] =
  (inr (VObj [(lit "connected", VBool false);
              (lit "message",
               VStr "No project ID provided. Set X-GCloud-Project-ID header.")]),
   [])
  /\ invoke (always response) credentials bare_errors
       (AddSecretVersion (lit "p") (lit "s") [8364%N]) []
     = (inl InvalidCharacterError, []).
Proof. split; reflexivity. Qed.

(* ================================================================== *)
(** ** The envelope *)
(* ================================================================== *)

Lemma join_cons sep p l : exists tail, JS.join sep (p :: l) = p ++ tail.
Proof.
  destruct l as [|q l].
  - exists []. cbn. now rewrite app_nil_r.
  - now exists (sep ++ JS.join sep (q :: l)).
Qed.

Lemma error_object_text f :
  exists rest,
    JSON.stringify (error_object f) =
    Some (lit "{" ++ JS.nl ++ lit "  " ++ JSON.quote (lit "error") ++ lit ": true"
            ++ rest ++ JS.nl ++ lit "}").
Proof.
  unfold JSON.stringify, error_object. cbn [JSON.serialize].
  match goal with
  | |- context [JS.join ?sep (?p :: ?l)] =>
      destruct (join_cons sep p l) as [tail E];
      set (j := JS.join sep (p :: l)); change (j = p ++ tail) in E;
      clearbody j; subst j
  end.
  exists tail. rewrite <- !app_assoc. reflexivity.
Qed.

(** Induction on a value, through its items and its properties. *)
Lemma value_induction (P : value -> Prop) :
  P VUndefined -> P VNull -> (forall b, P (VBool b)) -> (forall n, P (VNum n)) ->
  (forall t, P (VReal t)) -> (forall s, P (VStr s)) ->
  (forall items, Forall P items -> P (VArr items)) ->
  (forall props, Forall (fun kv => P (snd kv)) props -> P (VObj props)) ->
  forall v, P v.
Proof.
  intros HU HN HB HZ HR HS HA HO. fix IH 1.
  intros [| | b | n | t | s | items | props];
    [exact HU | exact HN | exact (HB b) | exact (HZ n) | exact (HR t)
    | exact (HS s) | | ].
  - apply HA. induction items as [|x items IHi]; constructor; [apply IH | exact IHi].
  - apply HO. induction props as [|[k x] props IHp]; constructor;
      [apply IH | exact IHp].
Qed.

(** [String] throws on the values that hide [toString], and on no
    other. *)
Lemma String_of_throws v e :
  String_of v = inl e <-> e = TypeError /\ unprintable v = true.
Proof.
  revert e. induction v using value_induction; intros e;
    try (split; [discriminate | intros [_ K]; discriminate K]).
  - cbn [String_of unprintable].
    match goal with
    | |- match ?elements items with _ => _ end = _ <-> _ /\ ?any items = true =>
        assert (G : forall e', elements items = inl e' <->
                               e' = TypeError /\ any items = true)
    end.
    { induction H as [|x items Hx _ IH]; intros e'.
      - split; [discriminate | intros [_ K]; discriminate K].
      - match goal with
        | |- match ?sx with _ => _ end = _ <-> _ =>
            assert (X : forall e0, sx = inl e0 <->
                                   e0 = TypeError /\ unprintable x = true)
              by (intros e0; destruct x; try apply Hx;
                  (split; [discriminate | intros [_ K]; discriminate K]));
            destruct sx as [e1|t]
        end.
        + destruct (proj1 (X e1) eq_refl) as [-> U]. rewrite U. cbn [orb].
          split; [intros E; injection E as <-; auto | intros [-> _]; reflexivity].
        + assert (U : unprintable x = false).
          { destruct (unprintable x); [|reflexivity].
            pose proof (proj2 (X TypeError) (conj eq_refl eq_refl)) as K.
            discriminate K. }
          rewrite U. cbn [orb].
          match goal with
          | |- match ?el with _ => _ end = _ <-> _ => destruct el as [e2|ts]
          end.
          * split; [intros E; injection E as <-; now apply IH|].
            intros K. apply IH in K. exact K.
          * split; [discriminate|]. intros K. apply IH in K. discriminate K. }
    match goal with
    | |- match ?el with _ => _ end = _ <-> _ => destruct el as [e1|ts]
    end.
    + split; [intros E; injection E as <-; now apply G|].
      intros K. apply G in K. now injection K as ->.
    + split; [discriminate|]. intros K. apply G in K. discriminate K.
  - cbn [String_of unprintable]. destruct (existsb _ _).
    + split; [intros E; injection E as <-; auto | intros [-> _]; reflexivity].
    + split; [discriminate | intros [_ K]; discriminate K].
Qed.

(** [String] throws nothing but the [TypeError] of a conversion. *)
Lemma String_of_error v e : String_of v = inl e -> e = TypeError.
Proof. intros E. now apply String_of_throws in E. Qed.

Lemma map_result_inr A B (f : A -> result B) l ys :
  map_result f l = inr ys -> Forall2 (fun x y => f x = inr y) l ys.
Proof.
  revert ys. induction l as [|x l IH]; cbn [map_result]; intros ys.
  - intros E. injection E as <-. constructor.
  - destruct (f x) as [|y] eqn:Fx; [discriminate|].
    destruct (map_result f l) as [|ys']; [discriminate|].
    intros E. injection E as <-. constructor; auto.
Qed.

Lemma map_result_inl A B (f : A -> result B) l e :
  map_result f l = inl e -> exists x, In x l /\ f x = inl e.
Proof.
  induction l as [|x l IH]; cbn [map_result]; [discriminate|].
  destruct (f x) as [e'|y] eqn:Fx.
  - intros E. injection E as <-. exists x. split; [now left | exact Fx].
  - destruct (map_result f l) as [e'|ys]; [|discriminate].
    intros E. injection E as <-. destruct (IH eq_refl) as (x' & I & Fx').
    exists x'. split; [now right | exact Fx'].
Qed.

Lemma get_returns v key : nullish v = false -> exists x, get v key = inr x.
Proof.
  destruct v; cbn [nullish get]; try discriminate; intros _;
    repeat match goal with
           | |- context [match ?x with _ => _ end] => destruct x
           | |- context [if ?x then _ else _] => destruct x
           end; eauto.
Qed.

Lemma get_of_value v key : nullish v = false -> get v key = inr (get_opt v key).
Proof.
  intros H. destruct (get_returns v key H) as [x E].
  unfold get_opt. now rewrite E.
Qed.

Section Answering.

Variable fetch : list Request -> Request -> option Response.
Variable credentials : TenantCredentials.

(** A computation that makes one request and computes its result from
    what the request returned. *)
Lemma answering A url options (k : value -> M A) log rq :
  (forall x, Pure (k x)) ->
  sent (bind (request fetch credentials url options) k) log = [rq] ->
  rq = {| req_url := url; req_method := method options;
          req_headers := req_headers rq; req_body := body options |}
  /\ fst (bind (request fetch credentials url options) k log)
     = match outcome fetch log rq with
       | inl e => inl e
       | inr data => fst (k data [])
       end.
Proof.
  intros K. unfold sent, bind. rewrite request_run.
  destruct (getAuthHeaders credentials) as [e|headers].
  - cbn. rewrite skipn_all. discriminate.
  - cbv zeta. cbn [fst snd].
    set (init := {| req_url := url; req_method := method options;
                    req_headers := headers; req_body := body options |}).
    destruct (outcome fetch log init) as [e|data] eqn:O.
    + cbn [fst snd]. rewrite skipn_app, skipn_all, Nat.sub_diag. cbn.
      intros E. injection E as <-. split; [reflexivity|]. now rewrite O.
    + rewrite (K data (log ++ [init])). cbn [fst snd].
      rewrite skipn_app, skipn_all, Nat.sub_diag. cbn.
      intros E. injection E as <-. split; [reflexivity|]. now rewrite O.
Qed.

(** The same for an operation that makes something of what its request
    returned before it returns. *)
Lemma answering_after A url options (post : value -> M value)
    (k : value -> M A) log rq :
  (forall x, Pure (post x)) ->
  (forall x, Pure (k x)) ->
  sent (bind (bind (request fetch credentials url options) post) k) log = [rq] ->
  rq = {| req_url := url; req_method := method options;
          req_headers := req_headers rq; req_body := body options |}
  /\ fst (bind (bind (request fetch credentials url options) post) k log)
     = match outcome fetch log rq with
       | inl e => inl e
       | inr data =>
           match fst (post data []) with
           | inl e => inl e
           | inr returned => fst (k returned [])
           end
       end.
Proof.
  intros P K. unfold sent, bind. rewrite request_run.
  destruct (getAuthHeaders credentials) as [e|headers].
  - cbn. rewrite skipn_all. discriminate.
  - cbv zeta. cbn [fst snd].
    set (init := {| req_url := url; req_method := method options;
                    req_headers := headers; req_body := body options |}).
    destruct (outcome fetch log init) as [e|data] eqn:O.
    + cbn [fst snd]. rewrite skipn_app, skipn_all, Nat.sub_diag. cbn.
      intros E. injection E as <-. split; [reflexivity|]. now rewrite O.
    + rewrite (P data (log ++ [init])).
      destruct (fst (post data [])) as [e|returned] eqn:R; cbn [fst snd].
      * rewrite skipn_app, skipn_all, Nat.sub_diag. cbn.
        intros E. injection E as <-. split; [reflexivity|]. now rewrite O, R.
      * rewrite (K returned (log ++ [init])). cbn [fst snd].
        rewrite skipn_app, skipn_all, Nat.sub_diag. cbn.
        intros E. injection E as <-. split; [reflexivity|]. now rewrite O, R.
Qed.

Lemma try_catch_fst A (m : M A) (h : Exn -> result A) log :
  fst (try_catch m (fun e => lift (h e)) log)
  = match fst (m log) with
    | inl e => h e
    | inr a => inr a
    end.
Proof.
  unfold try_catch. destruct (m log) as [[e|a] log']; cbn [fst]; [|reflexivity].
  now rewrite lift_run.
Qed.

End Answering.

Ltac answer S :=
  lazymatch type of S with
  | sent (bind (bind (request ?f ?c ?url ?options) ?post) ?k) ?log = [?rq] =>
      destruct (@answering_after f c _ url options post k log rq
                  ltac:(intro; cbv beta; pure) ltac:(intro; cbv beta; pure) S)
        as [_ ->]
  | sent (bind (request ?f ?c ?url ?options) ?k) ?log = [?rq] =>
      destruct (@answering f c _ url options k log rq
                  ltac:(intro; cbv beta; pure) S) as [_ ->]
  end.

(** A computation that begins with an expression that may throw: when it
    sent something, the expression returned. *)
Ltac unlift :=
  repeat match goal with
         | |- context [bind (lift ?r) ?f] =>
             lazymatch r with
             | inl _ => fail
             | inr _ => fail
             | _ => idtac
             end;
             let a := fresh "a" in
             destruct r as [?|a];
             [ let S := fresh "S" in
               intros S; exfalso;
               cbv [sent try_catch bind lift throw ret snd] in S;
               rewrite skipn_all in S; discriminate S
             | change (bind (lift (inr a)) f) with (f a); cbv beta ]
         end.

Ltac settle :=
  cbv beta iota zeta delta [bind lift ret fst snd];
  repeat (match goal with
          | |- context [get ?v ?k] => destruct (get v k)
          | |- context [map_array ?v ?f] => destruct (map_array v f)
          | |- context [truthy ?v] => destruct (truthy v)
          | |- context [String_of ?v] => destruct (String_of v)
          | |- context [Base64.atob ?d] => destruct (Base64.atob d)
          end;
          cbv beta iota zeta delta [bind lift ret fst snd]);
  reflexivity.

Section Envelope.

Variable fetch : list Request -> Request -> option Response.
Variable credentials : TenantCredentials.
Variable describe : Exn -> ErrorFields.

Lemma get_throws_errors v key : throws_errors (get v key).
Proof.
  intros e. destruct v; cbn [get];
    repeat match goal with
           | |- context [match ?x with _ => _ end] => destruct x
           | |- context [if ?x then _ else _] => destruct x
           end;
    intros E; try discriminate E; now injection E as <-.
Qed.

Lemma btoa_throws_errors s : throws_errors (Base64.btoa s).
Proof. intros e E. now rewrite (btoa_error s E). Qed.

Lemma atob_throws_errors d : throws_errors (Base64.atob d).
Proof.
  intros e. unfold Base64.atob.
  repeat match goal with
         | |- context [if ?b then _ else _] => destruct b
         | |- context [match ?x with _ => _ end] => destruct x
         end;
    intros E; try discriminate E; now injection E as <-.
Qed.

Lemma String_of_throws_errors v : throws_errors (String_of v).
Proof. intros e E. now rewrite (String_of_error v E). Qed.

Lemma decoding_throws_errors v :
  throws_errors (match String_of v with
                 | inl e => inl e
                 | inr d => Base64.atob d
                 end).
Proof.
  intros e. destruct (String_of v) as [e1|d] eqn:S.
  - intros E. injection E as <-. exact (String_of_throws_errors v S).
  - apply atob_throws_errors.
Qed.

Lemma encodeURIComponent_throws_errors s : throws_errors (URI.encodeURIComponent s).
Proof. intros e E. now rewrite (encodeURIComponent_error s E). Qed.

Lemma decode_received_throws_errors rm : throws_errors (decode_received rm).
Proof.
  intros e. unfold decode_received.
  destruct (get rm "ackId") as [e1|ackId] eqn:G.
  - intros E. injection E as <-. exact (get_throws_errors rm _ G).
  - destruct (truthy _); [|discriminate].
    destruct (String_of _) as [e2|d] eqn:S.
    + intros E. injection E as <-. exact (String_of_throws_errors _ S).
    + destruct (Base64.atob d) as [e2|t] eqn:D; [|discriminate].
      intros E. injection E as <-. exact (atob_throws_errors _ D).
Qed.

Lemma map_result_throws_errors (f : value -> result value) l :
  (forall x, throws_errors (f x)) -> throws_errors (map_result f l).
Proof.
  intros H e. induction l as [|x l IH]; cbn [map_result]; [discriminate|].
  destruct (f x) as [e1|y] eqn:F.
  - intros E. injection E as <-. exact (H x _ F).
  - destruct (map_result f l); [|discriminate].
    intros E. injection E as <-. now apply IH.
Qed.

Lemma map_array_throws_errors v (f : value -> result value) :
  (forall x, throws_errors (f x)) -> throws_errors (map_array v f).
Proof.
  intros H e. unfold map_array.
  destruct (or_else v (VArr [])); try (intros E; now injection E as <-).
  destruct (map_result f items) as [e1|l] eqn:R; [|discriminate].
  intros E. injection E as <-. exact (map_result_throws_errors f items H R).
Qed.

Lemma formatResponse_json_returns data resourceType :
  throws_errors (formatResponse data Json resourceType).
Proof. intros e E. discriminate E. Qed.

Ltac errors :=
  first [ apply get_throws_errors
        | apply btoa_throws_errors
        | apply encodeURIComponent_throws_errors
        | apply formatResponse_json_returns
        | apply map_array_throws_errors, decode_received_throws_errors
        | match goal with
          | |- forall e, (if ?b then _ else _) = inl e -> _ =>
              destruct b; [apply decoding_throws_errors | discriminate]
          end ].

Lemma attempt_raises_errors t :
  Raises (fun e => instanceof_Error e = true)
         (attempt fetch credentials describe t).
Proof.
  destruct t; cbn [attempt]; raises errors.
Qed.

Lemma testConnection_returns log :
  exists v, fst (testConnection fetch credentials describe log) = inr v.
Proof.
  unfold testConnection, try_catch.
  match goal with
  | |- context [match ?m log with _ => _ end] => destruct (m log) as [[e|v] log']
  end; cbn [fst ret]; eauto.
Qed.

Lemma formatError_of_error e :
  instanceof_Error e = true ->
  formatError describe e
  = text_envelope (JSON.stringify (error_object (describe e))) true.
Proof. destruct e; intros H; try discriminate H; reflexivity. Qed.

(** What the [try] block of a tool makes of the one request it sent. *)
Lemma attempt_answers t log rq :
  is_policy_update t = false ->
  is_connection_test t = false ->
  sent (attempt fetch credentials describe t) log = [rq] ->
  fst (attempt fetch credentials describe t log)
  = match outcome fetch log rq with
    | inl e => inl e
    | inr body =>
        match result_data t body with
        | inl e => inl e
        | inr data => inr (text_envelope (JSON.stringify data) false)
        end
    end.
Proof.
  intros Hp Hc.
  destruct t; try discriminate Hp; try discriminate Hc; cbn [attempt];
    cbv zeta; unlift;
    lazymatch goal with
    | |- sent (bind ?m _) _ = _ -> _ => let h := head m in unfold h; cbv zeta
    end;
    unlift;
    try match goal with
        | |- context [match nonempty ?p with _ => _ end] => destruct (nonempty p)
        end;
    intros S; answer S;
    (destruct (outcome fetch log rq) as [e|body]; [reflexivity|]);
    unfold result_data; cbn [passes_through listed_member confirmation];
    settle.
Qed.

Lemma handler_answers t log rq :
  is_policy_update t = false ->
  is_connection_test t = false ->
  sent (handler fetch credentials describe t) log = [rq] ->
  fst (handler fetch credentials describe t log)
  = match outcome fetch log rq with
    | inl e => inr (formatError describe e)
    | inr body =>
        match result_data t body with
        | inl e => inr (formatError describe e)
        | inr data => inr (text_envelope (JSON.stringify data) false)
        end
    end.
Proof.
  intros Hp Hc S. unfold handler in *.
  rewrite sent_catch_pure in S by (intro; pure).
  rewrite try_catch_fst, (attempt_answers t log Hp Hc S).
  destruct (outcome fetch log rq) as [e|body].
  - apply recover_formatError, Hc.
  - destruct (result_data t body); [apply recover_formatError, Hc | reflexivity].
Qed.

(** The run of the policy update: the read, and the write when the read
    returned a policy. *)
Lemma policy_update_run p bindings log :
  handler fetch credentials describe (gcloud_set_project_iam_policy p bindings) log
  = match getAuthHeaders credentials with
    | inl e => (inr (formatError describe e), log)
    | inr headers =>
        let read :=
          {| req_url := "https://cloudresourcemanager.googleapis.com/v1/projects/"
                          +++ p +++ ":getIamPolicy";
             req_method := Some (lit "POST");
             req_headers := headers;
             req_body := Some (lit "{}") |} in
        match outcome fetch log read with
        | inl e => (inr (formatError describe e), log ++ [read])
        | inr current =>
            if nullish current
            then (inr (formatError describe TypeError), log ++ [read])
            else
              let write :=
                {| req_url :=
                     "https://cloudresourcemanager.googleapis.com/v1/projects/"
                       +++ p +++ ":setIamPolicy";
                   req_method := Some (lit "POST");
                   req_headers := headers;
                   req_body :=
                     JSON.compact
                       (VObj [(lit "policy",
                               VObj [(lit "version", get_opt current "version");
                                     (lit "bindings",
                                      VArr (map (fun b =>
                                                   VObj [(lit "role", VStr (fst b));
                                                         (lit "members",
                                                          strings (snd b))])
                                                bindings));
                                     (lit "etag", get_opt current "etag")])]) |} in
              (match outcome fetch (log ++ [read]) write with
               | inl e => inr (formatError describe e)
               | inr policy =>
                   inr (text_envelope
                          (JSON.stringify
                             (confirmed "IAM policy updated"
                                [(lit "policy", policy)]))
                          false)
               end, (log ++ [read]) ++ [write])
        end
    end.
Proof.
  unfold handler. cbn [attempt recover].
  unfold getProjectIamPolicy, setProjectIamPolicy, try_catch.
  unfold bind at 1. rewrite request_run.
  destruct (getAuthHeaders credentials) as [e|headers] eqn:A; [reflexivity|].
  cbv zeta. cbn [method body with_body].
  change (JSON.compact (VObj [])) with (Some (lit "{}")).
  destruct (outcome fetch log _) as [e|current]; [reflexivity|].
  destruct (nullish current) eqn:N.
  - destruct current; try discriminate N; reflexivity.
  - unfold bind at 1. unfold lift at 1.
    rewrite (get_of_value current "version" N).
    unfold bind at 1. unfold lift at 1.
    rewrite (get_of_value current "etag" N).
    unfold ret. cbv beta iota.
    unfold bind at 1. rewrite request_run, A. cbv zeta.
    cbn [method body with_body].
    destruct (outcome fetch _ _); reflexivity.
Qed.

Lemma reads_one_resource t :
  passes_through t = true ->
  is_policy_update t = false /\ is_connection_test t = false.
Proof. destruct t; intros H; try discriminate H; now split. Qed.

Lemma lists t key :
  listed_member t = Some key ->
  passes_through t = false /\ is_policy_update t = false
  /\ is_connection_test t = false.
Proof. destruct t; intros H; try discriminate H; now repeat split. Qed.

Lemma confirms t c :
  confirmation t = Some c ->
  passes_through t = false /\ listed_member t = None
  /\ is_connection_test t = false.
Proof. destruct t; intros H; try discriminate H; now repeat split. Qed.

Lemma policy_update_answers p bindings log read write current policy :
  sent (handler fetch credentials describe
          (gcloud_set_project_iam_policy p bindings)) log = [read; write] ->
  outcome fetch log read = inr current ->
  outcome fetch (log ++ [read]) write = inr policy ->
  fst (handler fetch credentials describe
         (gcloud_set_project_iam_policy p bindings) log)
  = inr (text_envelope
           (JSON.stringify (confirmed "IAM policy updated" [(lit "policy", policy)]))
           false).
Proof.
  unfold sent. rewrite policy_update_run.
  destruct (getAuthHeaders credentials) as [e|headers].
  { cbn [snd]. rewrite skipn_all. discriminate. }
  cbv zeta.
  match goal with
  | |- context [outcome fetch log ?r] =>
      set (read0 := r); destruct (outcome fetch log read0) as [e|current0] eqn:O
  end.
  { cbn [snd]. rewrite skipn_app, skipn_all, Nat.sub_diag. discriminate. }
  destruct (nullish current0).
  { cbn [snd]. rewrite skipn_app, skipn_all, Nat.sub_diag. discriminate. }
  cbn [fst snd]. rewrite <- app_assoc, skipn_app, skipn_all, Nat.sub_diag.
  intros E O1 O2. injection E as <- <-.
  assert (C : inr current0 = (inr current : result value))
    by (rewrite <- O; exact O1).
  injection C as ->.
  match goal with
  | |- context [outcome fetch (log ++ [read0]) ?w] =>
      change (outcome fetch (log ++ [read0]) w = inr policy) in O2
  end.
  now rewrite O2.
Qed.

(** C6, as amended. A tool always answers one content of type [text].
    When its [try] block returns, the answer is what the block returned
    and carries no [isError]; when the block throws, what it throws is an
    [Error], the answer carries [isError: true] and its text is the JSON
    text of [error: true] and the name, message, code and statusCode of
    the error, from which the [undefined] ones are left out; it begins
    with the member [error]. A block that sent one request returns the
    JSON text of its result data when the request and the making of the
    data succeeded (for a body whose numbers are kept and that inherits
    nothing under the name that a tool that lists reads), a text that is
    [undefined] when the data is; it throws
    the error of the request or of the making otherwise. The block of
    the connection test never throws and returns the text of the report;
    the policy update whose two requests succeeded returns the text of
    its confirmation. *)
Theorem uniform_envelope t log :
  exists env text,
    fst (handler fetch credentials describe t log) = inr env
    /\ content env = [{| type := lit "text"; text := text |}]
    /\ match fst (attempt fetch credentials describe t log) with
       | inr returned => env = returned /\ isError env = false
       | inl e =>
           is_connection_test t = false
           /\ instanceof_Error e = true
           /\ isError env = true
           /\ text = JSON.stringify
                       (VObj [(lit "error", VBool true);
                              (lit "name", err_name (describe e));
                              (lit "message", err_message (describe e));
                              (lit "code", err_code (describe e));
                              (lit "statusCode", err_statusCode (describe e))])
           /\ exists rest,
                text = Some (lit "{" ++ JS.nl ++ lit "  " ++ JSON.quote (lit "error")
                               ++ lit ": true" ++ rest ++ JS.nl ++ lit "}")
       end
    /\ (forall rq,
          is_policy_update t = false ->
          is_connection_test t = false ->
          sent (handler fetch credentials describe t) log = [rq] ->
          (forall body,
             outcome fetch log rq = inr body ->
             exact body = true
             /\ forall key, listed_member t = Some key -> inherits body key = false) ->
          fst (attempt fetch credentials describe t log)
          = match outcome fetch log rq with
            | inl e => inl e
            | inr body =>
                match result_data t body with
                | inl e => inl e
                | inr data => inr (text_envelope (JSON.stringify data) false)
                end
            end)
    /\ (t = gcloud_test_connection ->
        exists report,
          fst (testConnection fetch credentials describe log) = inr report
          /\ env = text_envelope (JSON.stringify report) false)
    /\ (forall p bindings read write current policy,
          t = gcloud_set_project_iam_policy p bindings ->
          sent (handler fetch credentials describe t) log = [read; write] ->
          outcome fetch log read = inr current ->
          outcome fetch (log ++ [read]) write = inr policy ->
          exact policy = true ->
          env = text_envelope
                  (JSON.stringify
                     (VObj [(lit "success", VBool true);
                            (lit "message", VStr "IAM policy updated");
                            (lit "policy", policy)]))
                  false).
Proof.
  assert (Y : Yields (fun env => exists text,
                        env = text_envelope text false)
                (attempt fetch credentials describe t)).
  { destruct t; cbn [attempt]; cbv zeta;
      repeat (apply Yields_bind; intro);
      first [ unfold respond, formatResponse; apply Yields_lift;
              intros ? E; injection E as <-; eexists; reflexivity
            | apply Yields_ret; eexists; reflexivity ]. }
  assert (H : exists env text,
             fst (handler fetch credentials describe t log) = inr env
             /\ content env = [{| type := lit "text"; text := text |}]
             /\ match fst (attempt fetch credentials describe t log) with
                | inr returned => env = returned /\ isError env = false
                | inl e =>
                    is_connection_test t = false
                    /\ instanceof_Error e = true
                    /\ isError env = true
                    /\ text = JSON.stringify (error_object (describe e))
                    /\ exists rest,
                         text = Some (lit "{" ++ JS.nl ++ lit "  "
                                        ++ JSON.quote (lit "error")
                                        ++ lit ": true" ++ rest ++ JS.nl ++ lit "}")
                end).
  { unfold handler. pose proof (try_catch_fst
                                  (attempt fetch credentials describe t)
                                  (recover describe t) log) as E.
    specialize (Y log).
    destruct (fst (attempt fetch credentials describe t log)) as [e|returned] eqn:A.
    - destruct (is_connection_test t) eqn:Ht.
      + exfalso. destruct t; try discriminate Ht. cbn [attempt] in A.
        unfold bind in A. destruct (testConnection_returns log) as [v V].
        destruct (testConnection fetch credentials describe log) as [[e'|v'] l'];
          cbn [fst] in V; [discriminate V|]. discriminate A.
      + assert (I : instanceof_Error e = true).
        { now apply (attempt_raises_errors t log). }
        rewrite (recover_formatError describe t e Ht),
          (formatError_of_error e I) in E.
        do 2 eexists. split; [exact E|]. split; [reflexivity|].
        split; [reflexivity|]. split; [exact I|]. split; [reflexivity|].
        split; [reflexivity|]. apply error_object_text.
    - destruct (Y returned eq_refl) as [text ->].
      exists (text_envelope text false), text. repeat split; auto. }
  destruct H as (env & text & E & C & M).
  exists env, text. split; [exact E|]. split; [exact C|]. split; [exact M|].
  split; [|split].
  - intros rq Hp Hc S _. apply attempt_answers; auto.
    unfold handler in S. now rewrite sent_catch_pure in S by (intro; pure).
  - intros ->. destruct (testConnection_returns log) as [report R].
    exists report. split; [exact R|].
    unfold handler in E. rewrite try_catch_fst in E. cbn [attempt] in E.
    unfold bind in E.
    destruct (testConnection fetch credentials describe log) as [[e'|v] l'];
      cbn [fst] in R; [discriminate R|]. injection R as ->.
    cbn [fst ret] in E. now injection E as <-.
  - intros p bindings read write current policy -> S O1 O2 _.
    rewrite (policy_update_answers _ _ _ S O1 O2) in E. now injection E as <-.
Qed.

(* ================================================================== *)
(** ** What of the answer of the provider reaches the caller *)
(* ================================================================== *)

(** C7, as amended. When the request of a tool returned a body, the tool
    answers the JSON text of: the body as it is, when it reads one
    resource; one member of the body, or the empty array when that member
    is missing or falsy, when it lists (for a body on which the member is
    no inherited one); a confirmation with the body as it is under a key
    of the tool, when it starts, creates or copies something; the
    confirmation alone, the body left aside, when it deletes, writes or
    acknowledges; the confirmation with the [messageIds] of the body,
    when it publishes; the received messages rebuilt by
    [decode_received], when it pulls; the name, the version and the
    decoded [data], when it reads a secret. The policy update answers a
    confirmation with what its write returned as it is. *)
Theorem resource_passed_through t log :
  (forall rq body,
     sent (handler fetch credentials describe t) log = [rq] ->
     outcome fetch log rq = inr body ->
     exact body = true ->
     (passes_through t = true ->
      fst (handler fetch credentials describe t log)
      = inr (text_envelope (JSON.stringify body) false))
     /\ (forall key,
           listed_member t = Some key ->
           nullish body = false ->
           inherits body key = false ->
           fst (handler fetch credentials describe t log)
           = inr (text_envelope
                    (JSON.stringify (or_else (get_opt body key) (VArr []))) false))
     /\ (forall message key,
           is_policy_update t = false ->
           confirmation t = Some (message, TheBody key) ->
           fst (handler fetch credentials describe t log)
           = inr (text_envelope
                    (JSON.stringify
                       (VObj [(lit "success", VBool true);
                              (lit "message", VStr message);
                              (key, body)]))
                    false))
     /\ (forall message,
           confirmation t = Some (message, Nothing) ->
           fst (handler fetch credentials describe t log)
           = inr (text_envelope
                    (JSON.stringify
                       (VObj [(lit "success", VBool true);
                              (lit "message", VStr message)]))
                    false))
     /\ (forall message key member,
           confirmation t = Some (message, MemberOf key member) ->
           nullish body = false ->
           inherits body member = false ->
           fst (handler fetch credentials describe t log)
           = inr (text_envelope
                    (JSON.stringify
                       (VObj [(lit "success", VBool true);
                              (lit "message", VStr message);
                              (key, get_opt body member)]))
                    false))
     /\ (forall projectId subscriptionName maxMessages received messages,
           t = gcloud_pull_messages projectId subscriptionName maxMessages ->
           get body "receivedMessages" = inr (VArr received) ->
           map_result decode_received received = inr messages ->
           fst (handler fetch credentials describe t log)
           = inr (text_envelope (JSON.stringify (VArr messages)) false))
     /\ (forall projectId secretName version encoded decoded,
           t = gcloud_access_secret_version projectId secretName version ->
           get body "data" = inr (VStr encoded) ->
           Base64.atob encoded = inr decoded ->
           fst (handler fetch credentials describe t log)
           = inr (text_envelope
                    (JSON.stringify
                       (VObj [(lit "secretName", VStr secretName);
                              (lit "version", VStr version);
                              (lit "data", VStr decoded)]))
                    false)))
  /\ (forall projectId bindings read write current policy,
        t = gcloud_set_project_iam_policy projectId bindings ->
        sent (handler fetch credentials describe t) log = [read; write] ->
        outcome fetch log read = inr current ->
        outcome fetch (log ++ [read]) write = inr policy ->
        exact policy = true ->
        fst (handler fetch credentials describe t log)
        = inr (text_envelope
                 (JSON.stringify
                    (VObj [(lit "success", VBool true);
                           (lit "message", VStr "IAM policy updated");
                           (lit "policy", policy)]))
                 false)).
Proof.
  split.
  - intros rq body S O _.
    assert (A : is_policy_update t = false -> is_connection_test t = false ->
                fst (handler fetch credentials describe t log)
                = match result_data t body with
                  | inl e => inr (formatError describe e)
                  | inr data => inr (text_envelope (JSON.stringify data) false)
                  end).
    { intros Hp Hc. now rewrite (handler_answers t log Hp Hc S), O. }
    repeat apply conj.
    + intros Ht. destruct (reads_one_resource t Ht) as [Hp Hc].
      rewrite (A Hp Hc). unfold result_data. now rewrite Ht.
    + intros key Hk N _. destruct (lists t Hk) as (Ht & Hp & Hc).
      rewrite (A Hp Hc). unfold result_data.
      now rewrite Ht, Hk, (get_of_value body key N).
    + intros message key Hp Hk. destruct (confirms t Hk) as (Ht & Hl & Hc).
      rewrite (A Hp Hc). unfold result_data. now rewrite Ht, Hl, Hk.
    + intros message Hk. destruct (confirms t Hk) as (Ht & Hl & Hc).
      assert (Hp : is_policy_update t = false)
        by (destruct t; try discriminate Hk; reflexivity).
      rewrite (A Hp Hc). unfold result_data. now rewrite Ht, Hl, Hk.
    + intros message key member Hk N _. destruct (confirms t Hk) as (Ht & Hl & Hc).
      assert (Hp : is_policy_update t = false)
        by (destruct t; try discriminate Hk; reflexivity).
      rewrite (A Hp Hc). unfold result_data.
      now rewrite Ht, Hl, Hk, (get_of_value body member N).
    + intros projectId subscriptionName maxMessages received messages -> G M.
      rewrite (A eq_refl eq_refl). cbn [result_data passes_through listed_member
                                          confirmation].
      rewrite G. unfold map_array. cbn [or_else truthy]. now rewrite M.
    + intros projectId secretName version encoded decoded -> G D.
      rewrite (A eq_refl eq_refl). cbn [result_data passes_through listed_member
                                          confirmation].
      rewrite G. cbn [truthy String_of].
      destruct encoded as [|c encoded]; [|now rewrite D].
      now injection D as <-.
  - intros projectId bindings read write current policy -> S O1 O2 _.
    exact (policy_update_answers _ _ _ S O1 O2).
Qed.

End Envelope.

Lemma uniform_envelope_witness :
  let body := VObj [(lit "name", VStr "b")] in
  let response := {| status := 200; retry_after := None; json := Some body |} in
  let credentials := {| accessToken := Some (lit "token"); projectId := None |} in
  let t := gcloud_create_bucket (lit "p") (lit "b") None None in
  exists rq,
    sent (handler (always response) credentials bare_errors t) [] = [rq]
    /\ fst (attempt (always response) credentials bare_errors t [])
       = inr (text_envelope
                (JSON.stringify
                   (VObj [(lit "success", VBool true);
                          (lit "message", VStr "Bucket b created");
                          (lit "bucket", body)]))
                false).
Proof.
  intros body response credentials t. eexists. split; [reflexivity|].
  destruct (@uniform_envelope (always response) credentials bare_errors t [])
    as (env & text & _ & _ & _ & H & _).
  refine (H _ eq_refl eq_refl eq_refl _).
  intros body0 E. injection E as <-. split; [reflexivity | discriminate].
Defined.

(** C6 as stated fails: a tool that reads one resource answers a 204
    with a text that is [undefined], the JSON rendering of no data; and
    the text of an error that has neither [code] nor [statusCode] holds
    neither. *)
Lemma no_content_is_answered_without_text :
  let credentials := {| accessToken := Some (lit "token"); projectId := None |} in
  let t := gcloud_get_bucket (lit "b") in
  let describe (_ : Exn) :=
    {| err_name := VStr "TypeError"; err_message := VStr "fetch failed";
       err_code := VUndefined; err_statusCode := VUndefined |} in
  fst (handler (always {| status := 204; retry_after := None; json := None |})
         credentials describe t [])
  = inr {| content := [{| type := lit "text"; text := None |}]; isError := false |}
  /\ fst (handler (fun _ _ => None) credentials describe t [])
     = inr {| content :=
                [{| type := lit "text";
                    text := Some (lit "{" ++ JS.nl
                                  ++ lit "  " ++ JS.dq ++ lit "error" ++ JS.dq
                                  ++ lit ": true," ++ JS.nl
                                  ++ lit "  " ++ JS.dq ++ lit "name" ++ JS.dq
                                  ++ lit ": " ++ JS.dq ++ lit "TypeError" ++ JS.dq
                                  ++ lit "," ++ JS.nl
                                  ++ lit "  " ++ JS.dq ++ lit "message" ++ JS.dq
                                  ++ lit ": " ++ JS.dq ++ lit "fetch failed" ++ JS.dq
                                  ++ JS.nl ++ lit "}") |}];
              isError := true |}.
Proof. split; reflexivity. Qed.

Lemma resource_passed_through_witness :
  let data := VObj [(lit "name", VStr "projects/p/topics/t")] in
  let response := {| status := 200; retry_after := None; json := Some data |} in
  let credentials := {| accessToken := Some (lit "token"); projectId := None |} in
  let t := gcloud_get_topic (lit "p") (lit "t") in
  let rq := {| req_url := API_URLS.pubsub +++ "/projects/" +++ lit "p"
                            +++ "/topics/" +++ lit "t";
               req_method := None; req_headers := auth_headers (lit "token");
               req_body := None |} in
  passes_through t = true
  /\ sent (handler (always response) credentials bare_errors t) [] = [rq]
  /\ outcome (always response) [] rq = inr data
  /\ fst (handler (always response) credentials bare_errors t [])
     = inr (text_envelope (JSON.stringify data) false).
Proof.
  intros data response credentials t rq.
  split; [reflexivity|]. split; [reflexivity|]. split; [reflexivity|].
  exact (proj1 (proj1 (@resource_passed_through (always response) credentials
                         bare_errors t [])
                  rq data eq_refl eq_refl eq_refl) eq_refl).
Defined.

(** C7 as stated fails: the messages that [gcloud_pull_messages] answers
    are rebuilt from the received ones, with the data decoded and the
    other members of the provider left out; a tool that lists answers the
    items of the body, not the body; a tool that deletes leaves the body
    aside, and a tool that creates answers it inside a confirmation. *)
Lemma pulled_messages_are_rebuilt :
  let received :=
    VObj [(lit "ackId", VStr "ack-1");
          (lit "message",
           VObj [(lit "data", VStr "aGk=");
                 (lit "messageId", VStr "1");
                 (lit "orderingKey", VStr "k")]);
          (lit "deliveryAttempt", VNum 2)] in
  let data := VObj [(lit "receivedMessages", VArr [received])] in
  let response := {| status := 200; retry_after := None; json := Some data |} in
  let credentials := {| accessToken := Some (lit "token"); projectId := None |} in
  let t := gcloud_pull_messages (lit "p") (lit "s") 10 in
  let rebuilt :=
    VArr [VObj [(lit "ackId", VStr "ack-1");
                (lit "messageId", VStr "1");
                (lit "data", VStr "hi");
                (lit "attributes", VUndefined);
                (lit "publishTime", VUndefined)]] in
  let listed := VArr [VObj [(lit "name", VStr "b")]] in
  let listing :=
    VObj [(lit "kind", VStr "storage#buckets");
          (lit "items", listed);
          (lit "nextPageToken", VStr "next")] in
  let answers body t :=
    fst (handler (always {| status := 200; retry_after := None; json := Some body |})
           credentials bare_errors t []) in
  fst (handler (always response) credentials bare_errors t [])
  = inr (text_envelope (JSON.stringify rebuilt) false)
  /\ JSON.stringify rebuilt <> JSON.stringify data
  /\ JSON.stringify rebuilt <> JSON.stringify (VArr [received])
  /\ answers listing (gcloud_list_buckets (lit "p"))
     = inr (text_envelope (JSON.stringify listed) false)
  /\ JSON.stringify listed <> JSON.stringify listing
  /\ answers listing (gcloud_delete_bucket (lit "b"))
     = inr (text_envelope
              (JSON.stringify (VObj [(lit "success", VBool true);
                                     (lit "message", VStr "Bucket b deleted")]))
              false)
  /\ answers listed (gcloud_create_bucket (lit "p") (lit "b") None None)
     = inr (text_envelope
              (JSON.stringify (VObj [(lit "success", VBool true);
                                     (lit "message", VStr "Bucket b created");
                                     (lit "bucket", listed)]))
              false).
Proof.
  intros received data response credentials t rebuilt listed listing answers.
  split; [reflexivity|].
  split; [intros E; vm_compute in E; discriminate E|].
  split; [intros E; vm_compute in E; discriminate E|].
  split; [reflexivity|].
  split; [intros E; vm_compute in E; discriminate E|].
  split; reflexivity.
Qed.

(* ================================================================== *)
(** ** The request depends on the arguments and the credentials only *)
(* ================================================================== *)

Section Independence.

Variables fetch1 fetch2 : list Request -> Request -> option Response.
Variable credentials : TenantCredentials.
Variables describe1 describe2 : Exn -> ErrorFields.

Lemma handler_same t :
  is_policy_update t = false ->
  SameSent (handler fetch1 credentials describe1 t)
           (handler fetch2 credentials describe2 t).
Proof.
  intros Ht. unfold handler.
  destruct t; try discriminate Ht; cbn [attempt]; same.
Qed.

Lemma policy_update_first fetch describe p b log :
  firstn 1 (sent (handler fetch credentials describe
                    (gcloud_set_project_iam_policy p b)) log)
  = match getAuthHeaders credentials with
    | inl _ => []
    | inr headers =>
        [{| req_url := "https://cloudresourcemanager.googleapis.com/v1/projects/"
                         +++ p +++ ":getIamPolicy";
            req_method := Some (lit "POST");
            req_headers := headers;
            req_body := JSON.compact (VObj []) |}]
    end.
Proof.
  unfold sent. rewrite policy_update_run.
  destruct (getAuthHeaders credentials) as [e|headers].
  - cbn [snd]. now rewrite skipn_all.
  - cbv zeta. destruct (outcome fetch log _) as [e|current].
    + cbn [snd]. now rewrite skipn_app, skipn_all, Nat.sub_diag.
    + destruct (nullish current); cbn [snd].
      * now rewrite skipn_app, skipn_all, Nat.sub_diag.
      * now rewrite <- app_assoc, skipn_app, skipn_all, Nat.sub_diag.
Qed.

(** C8, as amended. For every tool but the policy update, the requests of
    an invocation are the same whatever the transport answers and
    whatever was sent before: they depend on the arguments and the
    credentials alone. The policy update is such for its first request,
    the read; its second carries what the read returned. *)
Theorem requests_depend_on_arguments_only t log1 log2 :
  (is_policy_update t = false ->
   sent (handler fetch1 credentials describe1 t) log1
   = sent (handler fetch2 credentials describe2 t) log2)
  /\ firstn 1 (sent (handler fetch1 credentials describe1 t) log1)
     = firstn 1 (sent (handler fetch2 credentials describe2 t) log2).
Proof.
  assert (H : is_policy_update t = false ->
              sent (handler fetch1 credentials describe1 t) log1
              = sent (handler fetch2 credentials describe2 t) log2).
  { intros Ht. apply sent_same, handler_same, Ht. }
  split; [exact H|].
  destruct (is_policy_update t) eqn:Ht.
  - destruct t; try discriminate Ht. now rewrite !policy_update_first.
  - now rewrite H.
Qed.

End Independence.

Lemma requests_depend_on_arguments_only_witness :
  let r1 := {| status := 200; retry_after := None; json := Some (VObj []) |} in
  let r2 := {| status := 503; retry_after := None; json := None |} in
  let credentials := {| accessToken := Some (lit "token"); projectId := None |} in
  let t := gcloud_delete_bucket (lit "bucket") in
  let rq := {| req_url := API_URLS.storage +++ "/b/" +++ lit "bucket";
               req_method := Some (lit "DELETE");
               req_headers := auth_headers (lit "token"); req_body := None |} in
  is_policy_update t = false
  /\ sent (handler (always r1) credentials bare_errors t) []
     = sent (handler (always r2) credentials bare_errors t) [rq].
Proof.
  intros r1 r2 credentials t rq. split; [reflexivity|].
  exact (proj1 (@requests_depend_on_arguments_only (always r1) (always r2)
                  credentials bare_errors bare_errors t [] [rq]) eq_refl).
Defined.

(** C8 as stated fails: the second request of the policy update carries
    the etag that the provider returned for the first. *)
Lemma policy_write_depends_on_answer :
  let answer (etag : jsstring) :=
    {| status := 200; retry_after := None;
       json := Some (VObj [(lit "version", VNum 1); (lit "etag", VStr etag)]) |} in
  let credentials := {| accessToken := Some (lit "token"); projectId := None |} in
  let t := gcloud_set_project_iam_policy (lit "project")
             [(lit "roles/viewer", [lit "user:a@example.com"])] in
  option_map req_body
    (nth_error (sent (handler (always (answer "BwWWja0YfJA=")) credentials
                        bare_errors t) []) 1)
  <> option_map req_body
       (nth_error (sent (handler (always (answer "BwXhqDWkP2c=")) credentials
                           bare_errors t) []) 1).
Proof.
  intros answer credentials t E. vm_compute in E. discriminate E.
Qed.

(* ================================================================== *)
(** ** Publishing and pulling a message *)
(* ================================================================== *)

Lemma decode_received_data rm ackId d :
  get rm "ackId" = inr ackId ->
  get_opt (get_opt rm "message") "data" = VStr d ->
  d <> [] ->
  decode_received rm =
  match Base64.atob d with
  | inl e => inl e
  | inr decoded =>
      inr (VObj [(lit "ackId", ackId);
                 (lit "messageId", get_opt (get_opt rm "message") "messageId");
                 (lit "data", VStr decoded);
                 (lit "attributes", get_opt (get_opt rm "message") "attributes");
                 (lit "publishTime", get_opt (get_opt rm "message") "publishTime")])
  end.
Proof.
  intros A D N. unfold decode_received. rewrite A, D.
  destruct d as [|c d]; [contradiction|]. cbn [truthy String_of].
  now destruct (Base64.atob (c :: d)).
Qed.

Section PubSub.

Variable fetch : list Request -> Request -> option Response.
Variable credentials : TenantCredentials.
Variable describe : Exn -> ErrorFields.

(** What [gcloud_pull_messages] answers when its request returned a body
    whose [receivedMessages] is an array. *)
Lemma pull_answers p subscription maxMessages log rq body received :
  sent (handler fetch credentials describe
          (gcloud_pull_messages p subscription maxMessages)) log = [rq] ->
  outcome fetch log rq = inr body ->
  get body "receivedMessages" = inr (VArr received) ->
  fst (handler fetch credentials describe
         (gcloud_pull_messages p subscription maxMessages) log)
  = match map_result decode_received received with
    | inl e => inr (formatError describe e)
    | inr messages => inr (text_envelope (JSON.stringify (VArr messages)) false)
    end.
Proof.
  intros S O G.
  rewrite (handler_answers fetch credentials describe
             (gcloud_pull_messages p subscription maxMessages) log
             eq_refl eq_refl S), O.
  cbn [result_data passes_through listed_member confirmation]. rewrite G.
  unfold map_array. cbn [or_else truthy].
  now destruct (map_result decode_received received).
Qed.

(** C9, as amended. For a message [s] of code units up to 0xFF,
    [gcloud_publish_message] called with a token sends one request, a POST
    to the [:publish] of the topic whose body is the compact JSON text of
    one message with [btoa(s)] as its data. When its request returned a
    body whose [receivedMessages] is an array, [gcloud_pull_messages]
    answers the text of the array of what [decode_received] makes of each
    received message, which decodes a data field [d] that is a non-empty
    string to [atob(d)] and answers a data field that is missing, empty
    or otherwise falsy as [undefined]; so when [s] is not empty, a
    received message that carries the published data is answered with
    [s] as its data. For an [s] with a code unit above 0xFF, publishing
    answers the error of [btoa] and sends nothing. *)
Theorem published_data_is_pulled_back p topic s attributes log :
  (latin1 s ->
   exists encoded,
     Base64.btoa s = inr encoded
     /\ (forall token,
           nonempty (accessToken credentials) = Some token ->
           sent (handler fetch credentials describe
                   (gcloud_publish_message p topic s attributes)) log
           = [{| req_url := API_URLS.pubsub +++ "/projects/" +++ p +++ "/topics/"
                              +++ topic +++ ":publish";
                 req_method := Some (lit "POST");
                 req_headers := auth_headers token;
                 req_body :=
                   JSON.compact
                     (VObj [(lit "messages",
                             VArr [VObj [(lit "data", VStr encoded);
                                         (lit "attributes",
                                          optional_record attributes)]])]) |}])
     /\ Base64.atob encoded = inr s
     /\ (s <> [] ->
         forall subscription maxMessages log' rq body rm ackId,
           sent (handler fetch credentials describe
                   (gcloud_pull_messages p subscription maxMessages)) log' = [rq] ->
           outcome fetch log' rq = inr body ->
           exact body = true ->
           get body "receivedMessages" = inr (VArr [rm]) ->
           get rm "ackId" = inr ackId ->
           get_opt (get_opt rm "message") "data" = VStr encoded ->
           fst (handler fetch credentials describe
                  (gcloud_pull_messages p subscription maxMessages) log')
           = inr (text_envelope
                    (JSON.stringify
                       (VArr [VObj [(lit "ackId", ackId);
                                    (lit "messageId",
                                     get_opt (get_opt rm "message") "messageId");
                                    (lit "data", VStr s);
                                    (lit "attributes",
                                     get_opt (get_opt rm "message") "attributes");
                                    (lit "publishTime",
                                     get_opt (get_opt rm "message") "publishTime")]]))
                    false)))
  /\ (forall subscription maxMessages log' rq body received,
        sent (handler fetch credentials describe
                (gcloud_pull_messages p subscription maxMessages)) log' = [rq] ->
        outcome fetch log' rq = inr body ->
        exact body = true ->
        get body "receivedMessages" = inr (VArr received) ->
        fst (handler fetch credentials describe
               (gcloud_pull_messages p subscription maxMessages) log')
        = match map_result decode_received received with
          | inl e => inr (formatError describe e)
          | inr messages =>
              inr (text_envelope (JSON.stringify (VArr messages)) false)
          end)
  /\ (forall rm ackId d,
        get rm "ackId" = inr ackId ->
        get_opt (get_opt rm "message") "data" = VStr d ->
        d <> [] ->
        decode_received rm =
        match Base64.atob d with
        | inl e => inl e
        | inr decoded =>
            inr (VObj [(lit "ackId", ackId);
                       (lit "messageId", get_opt (get_opt rm "message") "messageId");
                       (lit "data", VStr decoded);
                       (lit "attributes", get_opt (get_opt rm "message") "attributes");
                       (lit "publishTime",
                        get_opt (get_opt rm "message") "publishTime")])
        end)
  /\ (forall rm ackId,
        get rm "ackId" = inr ackId ->
        truthy (get_opt (get_opt rm "message") "data") = false ->
        decode_received rm =
        inr (VObj [(lit "ackId", ackId);
                   (lit "messageId", get_opt (get_opt rm "message") "messageId");
                   (lit "data", VUndefined);
                   (lit "attributes", get_opt (get_opt rm "message") "attributes");
                   (lit "publishTime",
                    get_opt (get_opt rm "message") "publishTime")]))
  /\ (~ latin1 s ->
      handler fetch credentials describe
        (gcloud_publish_message p topic s attributes) log
      = (inr (formatError describe InvalidCharacterError), log)).
Proof.
  split; [|split; [|split; [|split]]].
  - intros L. exists (Base64.encode s).
    split; [now apply Base64Facts.btoa_latin1|]. split; [|split].
    + intros token T. unfold handler.
      rewrite sent_catch_pure by (intro; pure). cbn [attempt].
      rewrite sent_bind_lift, (Base64Facts.btoa_latin1 L).
      rewrite sent_bind_pure by (intro; cbv beta; pure).
      unfold publishMessage.
      now rewrite (request_sent fetch credentials _ _ log T).
    + now apply Base64Facts.atob_encode.
    + intros N subscription maxMessages log' rq body rm ackId S O _ G A D.
      rewrite (pull_answers _ _ _ _ S O G). cbn [map_result].
      rewrite (decode_received_data rm A D).
      * now rewrite (Base64Facts.atob_encode L).
      * intros E. now apply Base64Facts.encode_nil_inv in E.
  - intros subscription maxMessages log' rq body received S O _ G.
    exact (pull_answers _ _ _ _ S O G).
  - apply decode_received_data.
  - intros rm ackId A D. unfold decode_received. now rewrite A, D.
  - intros L. unfold handler. cbn [attempt].
    now rewrite (Base64Facts.btoa_rejects L).
Qed.

End PubSub.

Lemma published_data_is_pulled_back_witness :
  let rm :=
    VObj [(lit "ackId", VStr "ack-1");
          (lit "message", VObj [(lit "data", VStr "aGk=");
                                (lit "messageId", VStr "1")])] in
  let body := VObj [(lit "receivedMessages", VArr [rm])] in
  let response := {| status := 200; retry_after := None; json := Some body |} in
  let credentials := {| accessToken := Some (lit "token"); projectId := None |} in
  let pull := gcloud_pull_messages (lit "p") (lit "s") 10 in
  latin1 (lit "hi")
  /\ sent (handler (always response) credentials bare_errors
             (gcloud_publish_message (lit "p") (lit "t") (lit "hi") None)) []
     = [{| req_url := API_URLS.pubsub +++ "/projects/" +++ lit "p" +++ "/topics/"
                        +++ lit "t" +++ ":publish";
           req_method := Some (lit "POST");
           req_headers := auth_headers (lit "token");
           req_body :=
             Some (lit "{" ++ JS.dq ++ lit "messages" ++ JS.dq ++ lit ":[{"
                     ++ JS.dq ++ lit "data" ++ JS.dq ++ lit ":"
                     ++ JS.dq ++ lit "aGk=" ++ JS.dq ++ lit "}]}") |}]
  /\ fst (handler (always response) credentials bare_errors pull [])
     = inr (text_envelope
              (JSON.stringify
                 (VArr [VObj [(lit "ackId", VStr "ack-1");
                              (lit "messageId", VStr "1");
                              (lit "data", VStr "hi");
                              (lit "attributes", VUndefined);
                              (lit "publishTime", VUndefined)]]))
              false).
Proof.
  intros rm body response credentials pull.
  assert (L : latin1 (lit "hi"))
    by (apply Base64Facts.latin1_forallb; reflexivity).
  split; [exact L|].
  destruct (proj1 (@published_data_is_pulled_back (always response) credentials
                     bare_errors (lit "p") (lit "t") (lit "hi") None []) L)
    as (encoded & B & S & _ & R).
  injection B as <-.
  split; [exact (S (lit "token") eq_refl)|].
  refine (R _ (lit "s") 10%Z [] _ body rm (VStr "ack-1")
            eq_refl eq_refl eq_refl eq_refl eq_refl eq_refl).
  discriminate.
Defined.

(** C9 as stated fails for the empty message: its published data is the
    empty string, and a received message with empty data is answered
    without data. *)
Lemma empty_message_is_not_pulled_back :
  let rm :=
    VObj [(lit "ackId", VStr "ack-1");
          (lit "message", VObj [(lit "data", VStr (lit ""));
                                (lit "messageId", VStr "1")])] in
  let body := VObj [(lit "receivedMessages", VArr [rm])] in
  let response := {| status := 200; retry_after := None; json := Some body |} in
  let credentials := {| accessToken := Some (lit "token"); projectId := None |} in
  Base64.btoa (lit "") = inr (lit "")
  /\ Base64.atob (lit "") = inr (lit "")
  /\ decode_received rm =
     inr (VObj [(lit "ackId", VStr "ack-1");
                (lit "messageId", VStr "1");
                (lit "data", VUndefined);
                (lit "attributes", VUndefined);
                (lit "publishTime", VUndefined)])
  /\ fst (handler (always response) credentials bare_errors
            (gcloud_pull_messages (lit "p") (lit "s") 10) [])
     = inr (text_envelope
              (JSON.stringify
                 (VArr [VObj [(lit "ackId", VStr "ack-1");
                              (lit "messageId", VStr "1")]]))
              false).
Proof. repeat split. Qed.

(* ================================================================== *)
(** ** The markdown table *)
(* ================================================================== *)

Lemma cell_spec v : cell v = inr (spec_cell v).
Proof. destruct v; reflexivity. Qed.

Lemma cells_spec item keys :
  nullish item = false ->
  cells item keys = inr (map (fun key => spec_cell (get_opt item key)) keys).
Proof.
  intros H. unfold cells. induction keys as [|key keys IH]; [reflexivity|].
  cbn [map_result map]. now rewrite (get_of_value item key H), cell_spec, IH.
Qed.

Lemma rows_spec items keys :
  Forall (fun item => nullish item = false) items ->
  rows items keys =
  inr (map (fun item => row (map (fun key => spec_cell (get_opt item key)) keys))
           items).
Proof.
  unfold rows. induction 1 as [|item items H _ IH]; [reflexivity|].
  cbn [map_result map]. now rewrite (cells_spec item keys H), IH.
Qed.

(** C10, as amended. For an empty array the text is
    [No {resourceType} found.], with [items] for a resource type that is
    missing or empty. For an array whose first element is an object, and
    whose other elements are neither [null] nor [undefined] and inherit
    no member under the name of a column, the text is the table whose
    columns are the first six keys of the first element: a cell is [-]
    for [null] or [undefined], [[object]] for an object, and the first 50
    characters of the value otherwise; a key of a later element only is
    no column. *)
Theorem markdown_table_of_array :
  (forall resourceType,
     formatArrayAsMarkdown [] resourceType =
     inr (lit "No "
            ++ match nonempty resourceType with
               | Some r => r
               | None => lit "items"
               end
            ++ lit " found."))
  /\ (forall first rest resourceType,
        typeof_object first = true ->
        is_null first = false ->
        Forall (fun item => nullish item = false) rest ->
        Forall (fun item =>
                  Forall (fun key => inherits item key = false)
                         (firstn 6 (Object_keys first))) rest ->
        Forall (fun item => exact item = true) (first :: rest) ->
        formatArrayAsMarkdown (first :: rest) resourceType =
        inr (spec_table (first :: rest) (firstn 6 (Object_keys first))))
  /\ (forall items resourceType,
        formatAsMarkdown (VArr items) resourceType =
        formatArrayAsMarkdown items resourceType).
Proof.
  split; [|split].
  - reflexivity.
  - intros first rest resourceType O N F _ _. unfold formatArrayAsMarkdown.
    rewrite O, N. cbn [negb orb]. cbv zeta. rewrite rows_spec; [reflexivity|].
    constructor; [|exact F]. destruct first; try discriminate; reflexivity.
  - reflexivity.
Qed.

Lemma markdown_table_of_array_witness :
  let first := VObj [(lit "name", VStr "a"); (lit "labels", VObj []);
                     (lit "zone", VNull)] in
  let second := VObj [(lit "name", VStr "b"); (lit "extra", VNum 1)] in
  typeof_object first = true
  /\ is_null first = false
  /\ Forall (fun item => nullish item = false) [second]
  /\ Forall (fun item =>
               Forall (fun key => inherits item key = false)
                      (firstn 6 (Object_keys first))) [second]
  /\ Forall (fun item => exact item = true) [first; second]
  /\ formatArrayAsMarkdown [first; second] None =
     inr (lit "| name | labels | zone |" ++ JS.nl
          ++ lit "| --- | --- | --- |" ++ JS.nl
          ++ lit "| a | [object] | - |" ++ JS.nl
          ++ lit "| b | - | - |").
Proof.
  intros first second.
  assert (F : Forall (fun item => nullish item = false) [second])
    by (repeat constructor).
  assert (I : Forall (fun item =>
                        Forall (fun key => inherits item key = false)
                               (firstn 6 (Object_keys first))) [second])
    by (repeat constructor).
  assert (E : Forall (fun item => exact item = true) [first; second])
    by (repeat constructor).
  split; [reflexivity|]. split; [reflexivity|]. split; [exact F|].
  split; [exact I|]. split; [exact E|].
  exact (proj1 (proj2 markdown_table_of_array) first [second] None
           eq_refl eq_refl F I E).
Defined.

(** C10 as stated fails: with an empty resource type, or none, the text
    for an empty array names [items]; and an array whose first element is
    an object gives no table when a later element is [null]: reading a
    property of it throws. *)
Lemma empty_resource_type_says_items :
  formatArrayAsMarkdown [] (Some (lit "")) = inr (lit "No items found.")
  /\ formatArrayAsMarkdown [] (Some (lit ""))
     <> inr (lit "No " ++ lit "" ++ lit " found.")
  /\ formatArrayAsMarkdown [] None = inr (lit "No items found.")
  /\ formatArrayAsMarkdown [VObj [(lit "name", VStr "a")]; VNull]
       (Some (lit "disks"))
     = inl TypeError.
Proof. split; [reflexivity|]. split; [discriminate|]. split; reflexivity. Qed.

(* ================================================================== *)
(** * Further properties of the code *)
(* ================================================================== *)

(* ================================================================== *)
(** ** [truncate] *)
(* ================================================================== *)

Lemma truncate_keep str maxLength :
  (Z.of_nat (List.length str) <= maxLength)%Z -> truncate str maxLength = str.
Proof.
  intros H. unfold truncate.
  now destruct (Z.leb_spec (Z.of_nat (List.length str)) maxLength); [|lia].
Qed.

Lemma truncate_cut str maxLength :
  (maxLength < Z.of_nat (List.length str))%Z ->
  truncate str maxLength = firstn (Z.to_nat (maxLength - 3)) str ++ lit "...".
Proof.
  intros H. unfold truncate.
  destruct (Z.leb_spec (Z.of_nat (List.length str)) maxLength); [lia|].
  unfold JS.substring, JS.cat. now rewrite Nat.sub_0_r.
Qed.

Lemma truncate_cut_length str maxLength :
  (maxLength < Z.of_nat (List.length str))%Z -> (3 <= maxLength)%Z ->
  Z.of_nat (List.length (truncate str maxLength)) = maxLength.
Proof.
  intros H H3. rewrite (truncate_cut _ H), length_app, length_firstn.
  change (List.length (lit "...")) with 3. lia.
Qed.

Lemma truncate_dots str maxLength :
  (maxLength < Z.of_nat (List.length str))%Z -> (maxLength < 3)%Z ->
  truncate str maxLength = lit "...".
Proof.
  intros H H3. rewrite (truncate_cut _ H).
  replace (Z.to_nat (maxLength - 3)) with 0 by lia. reflexivity.
Qed.

(** X1. [truncate] keeps a string that fits; a longer one becomes its
    first [maxLength - 3] code units and three dots, [maxLength] units in
    all when [maxLength] is at least 3. Under 3 the result is the three
    dots alone, which is longer than asked. *)
Theorem truncate_bounds str maxLength :
  ((Z.of_nat (List.length str) <= maxLength)%Z -> truncate str maxLength = str)
  /\ ((maxLength < Z.of_nat (List.length str))%Z ->
      truncate str maxLength = firstn (Z.to_nat (maxLength - 3)) str ++ lit "..."
      /\ ((3 <= maxLength)%Z ->
          Z.of_nat (List.length (truncate str maxLength)) = maxLength)
      /\ ((maxLength < 3)%Z -> truncate str maxLength = lit "..."))
  /\ ((3 <= maxLength)%Z ->
      (Z.of_nat (List.length (truncate str maxLength)) <= maxLength)%Z).
Proof.
  split; [apply truncate_keep|]. split.
  - intros H. split; [now apply truncate_cut|].
    split; [now apply truncate_cut_length | now apply truncate_dots].
  - intros H3. destruct (Z.leb_spec (Z.of_nat (List.length str)) maxLength) as [H|H].
    + now rewrite truncate_keep.
    + rewrite (truncate_cut_length _ H H3). lia.
Qed.

Lemma truncate_bounds_witness :
  (3 <= 8)%Z
  /\ (8 < Z.of_nat (List.length (lit "primrose-mcp")))%Z
  /\ truncate (lit "primrose-mcp") 8 = lit "primr..."
  /\ truncate (lit "primrose-mcp") 2 = lit "...".
Proof.
  split; [lia|]. split; [cbn; lia|].
  split.
  - exact (proj1 (proj1 (proj2 (truncate_bounds (lit "primrose-mcp") 8))
             ltac:(cbn; lia))).
  - exact (proj2 (proj2 (proj1 (proj2 (truncate_bounds (lit "primrose-mcp") 2))
             ltac:(cbn; lia))) ltac:(lia)).
Defined.

(** X2. Truncating twice to the same length is truncating once. *)
Theorem truncate_idempotent str maxLength :
  truncate (truncate str maxLength) maxLength = truncate str maxLength.
Proof.
  destruct (Z.leb_spec (Z.of_nat (List.length str)) maxLength) as [H|H].
  - now rewrite !(truncate_keep _ H).
  - destruct (Z.ltb_spec maxLength 3) as [H3|H3].
    + rewrite (truncate_dots _ H H3). apply truncate_dots; [cbn; lia | exact H3].
    + apply truncate_keep. rewrite (truncate_cut_length _ H H3). lia.
Qed.

(* ================================================================== *)
(** ** The markdown format: when it throws, and the shape of the table *)
(* ================================================================== *)

(* ---------- markdown: when it throws ---------- *)

Lemma get_throws v key e : get v key = inl e -> nullish v = true /\ e = TypeError.
Proof.
  destruct v; cbn [get nullish];
    repeat match goal with
           | |- context [match ?x with _ => _ end] => destruct x
           | |- context [if ?x then _ else _] => destruct x
           end; intros E; try discriminate E; injection E as <-; auto.
Qed.

Lemma get_nullish v key : nullish v = true -> get v key = inl TypeError.
Proof. destruct v; try discriminate; reflexivity. Qed.

Lemma cells_throws record keys e :
  cells record keys = inl e <-> e = TypeError /\ keys <> [] /\ nullish record = true.
Proof.
  unfold cells. split.
  - induction keys as [|key keys IH]; cbn [map_result]; [discriminate|].
    destruct (get record key) as [e'|v] eqn:G.
    + intros E. injection E as <-. destruct (get_throws _ _ G) as [N ->].
      repeat split; [discriminate | exact N].
    + rewrite cell_spec. destruct (map_result _ keys); [|discriminate].
      intros E. injection E as <-. destruct (IH eq_refl) as (-> & _ & N).
      repeat split; [discriminate | exact N].
  - intros (-> & K & N). destruct keys as [|key keys]; [contradiction|].
    cbn [map_result]. now rewrite (get_nullish _ _ N).
Qed.

Lemma rows_throws items keys e :
  rows items keys = inl e <->
  e = TypeError /\ keys <> [] /\ Exists (fun item => nullish item = true) items.
Proof.
  unfold rows. split.
  - induction items as [|item items IH]; cbn [map_result]; [discriminate|].
    destruct (cells item keys) as [e'|cs] eqn:C.
    + intros E. injection E as <-. apply cells_throws in C.
      destruct C as (-> & K & N). repeat split; auto.
    + destruct (map_result _ items); [|discriminate].
      intros E. injection E as <-. destruct (IH eq_refl) as (-> & K & X).
      repeat split; auto.
  - intros (-> & K & X).
    induction X as [item items N|item items X IH]; cbn [map_result].
    + now rewrite (proj2 (cells_throws item keys TypeError)).
    + destruct (cells item keys) as [e'|cs] eqn:C.
      * apply cells_throws in C. now destruct C as (-> & _).
      * now rewrite IH.
Qed.

Lemma firstn_nil_iff A n (l : list A) : 0 < n -> (firstn n l = [] <-> l = []).
Proof. destruct n; [lia|]. destruct l; cbn; intuition congruence. Qed.

(** The list of the items, one per line: it throws when [String] does. *)
Lemma bullets_throw items e :
  map_result (fun item =>
                match String_of item with
                | inl e => inl e
                | inr t => inr ("- " +++ t)
                end) items = inl e
  <-> e = TypeError /\ Exists (fun item => unprintable item = true) items.
Proof.
  split.
  - induction items as [|item items IH]; cbn [map_result]; [discriminate|].
    destruct (String_of item) as [e'|t] eqn:S.
    + intros E. injection E as <-. apply String_of_throws in S.
      destruct S as [-> U]. split; [reflexivity | now left].
    + destruct (map_result _ items); [|discriminate].
      intros E. injection E as <-. destruct (IH eq_refl) as [-> X].
      split; [reflexivity | now right].
  - intros [-> X].
    induction X as [item items U|item items X IH]; cbn [map_result].
    + now rewrite (proj2 (String_of_throws item TypeError) (conj eq_refl U)).
    + destruct (String_of item) as [e'|t] eqn:S.
      * apply String_of_throws in S. now destruct S as [-> _].
      * now rewrite IH.
Qed.

(** The lines of an object are always made. *)
Lemma formatObjectAsMarkdown_returns obj resourceType :
  exists t, formatObjectAsMarkdown obj resourceType = inr t.
Proof.
  unfold formatObjectAsMarkdown. cbv zeta.
  match goal with
  | |- context [map_result ?f obj] =>
      destruct (map_result f obj) as [e|lines] eqn:R; [|eauto];
      destruct (map_result_inl f obj R) as ([key v] & _ & F)
  end.
  exfalso. cbn [fst snd] in F.
  destruct v; cbn [nullish typeof_object String_of] in F; discriminate F.
Qed.

(** X3. [formatResponse] throws in the markdown format only, and there in
    two cases: on an array whose first item is an object with a key and
    that holds a [null] or an [undefined] further on, where the property
    read throws; and on an array whose first item is no object and that
    holds a value that [String] cannot convert, an object with a property
    of its own named [toString] or an array of such. What it throws is a
    [TypeError]. In the JSON format it always returns. *)
Theorem formatResponse_throws data format resourceType e :
  formatResponse data format resourceType = inl e <->
  format = Markdown /\ e = TypeError /\ (has_hole data \/ has_unprintable data).
Proof.
  destruct format; cbn [formatResponse].
  1:{ split; [discriminate | intros (? & _); discriminate]. }
  assert (H : formatAsMarkdown data resourceType = inl e <->
              e = TypeError /\ (has_hole data \/ has_unprintable data)).
  { destruct data as [| | b | n | t | s | items | obj];
      cbn [formatAsMarkdown String_of];
      try (split; [discriminate
                  | intros (_ & [(f & r & E & _)|(f & r & E & _)]);
                    discriminate E]).
    - destruct items as [|first rest]; cbn [formatArrayAsMarkdown].
      { split; [discriminate
               | intros (_ & [(f & r & E & _)|(f & r & E & _)]); discriminate E]. }
      destruct (negb (typeof_object first) || is_null first) eqn:B.
      + assert (U : unprintable first = false).
        { destruct first; try reflexivity; discriminate B. }
        match goal with
        | |- match ?m with _ => _ end = _ <-> _ =>
            pose proof (bullets_throw (first :: rest)) as T;
            change (forall e, m = inl e <-> e = TypeError
                    /\ Exists (fun item => unprintable item = true) (first :: rest))
              in T;
            destruct m as [e'|lines]
        end.
        * destruct (proj1 (T e') eq_refl) as [-> X].
          split.
          -- intros E. injection E as <-. split; [reflexivity|]. right.
             exists first, rest. split; [reflexivity|]. split.
             ++ destruct (typeof_object first); [right|left]; [|reflexivity].
                now destruct (is_null first).
             ++ inversion X; subst; [congruence | assumption].
          -- now intros (-> & _).
        * split; [discriminate|].
          intros (-> & [(f & r & E & O & N & _)|(f & r & E & _ & X)]);
            injection E as <- <-.
          -- rewrite O, N in B. discriminate B.
          -- assert (K : @inr Exn (list jsstring) lines = inl TypeError)
               by (apply T; split; [reflexivity | now right]).
             discriminate K.
      + apply Bool.orb_false_iff in B. destruct B as [O N].
        apply Bool.negb_false_iff in O. cbv zeta.
        assert (F : nullish first = false)
          by (destruct first; try discriminate; reflexivity).
        destruct (rows (first :: rest) (firstn 6 (Object_keys first)))
          as [e'|rs] eqn:R.
        * apply rows_throws in R. destruct R as (-> & K & X).
          split.
          -- intros E. injection E as <-. split; [reflexivity|]. left.
             exists first, rest. repeat split; auto.
             ++ intros Z. apply K. now rewrite Z.
             ++ inversion X; subst; [congruence | assumption].
          -- now intros (-> & _).
        * split; [discriminate|].
          intros (-> & [(f & r & E & _ & _ & K & X)|(f & r & E & [O'|N'] & _)]);
            injection E as <- <-; [|congruence|congruence].
          assert (R' : rows (first :: rest) (firstn 6 (Object_keys first))
                       = inl TypeError).
          { apply rows_throws. repeat split.
            - intros Z. apply K. apply (firstn_nil_iff (n := 6)); [lia | exact Z].
            - now right. }
          congruence.
    - destruct (formatObjectAsMarkdown_returns obj resourceType) as [t ->].
      split; [discriminate
             | intros (_ & [(f & r & E & _)|(f & r & E & _)]); discriminate E]. }
  destruct (formatAsMarkdown data resourceType) as [e'|t] eqn:F.
  - split.
    + intros E. injection E as <-. split; [reflexivity|]. now apply H.
    + intros (_ & K). apply H in K. congruence.
  - split; [discriminate|]. intros (_ & K). apply H in K. discriminate K.
Qed.

Lemma formatResponse_throws_witness :
  let data := VArr [VObj [(lit "name", VStr "a")]; VNum 1; VNull] in
  let list := VArr [VStr "a"; VObj [(lit "toString", VNum 1)]] in
  has_hole data
  /\ formatResponse data Markdown (Some (lit "disks")) = inl TypeError
  /\ has_unprintable list
  /\ formatResponse list Markdown None = inl TypeError.
Proof.
  intros data list.
  assert (H : has_hole data).
  { exists (VObj [(lit "name", VStr "a")]), [VNum 1; VNull].
    repeat split; [discriminate|]. right. now left. }
  assert (U : has_unprintable list).
  { exists (VStr "a"), [VObj [(lit "toString", VNum 1)]].
    split; [reflexivity|]. split; [now left | now left]. }
  split; [exact H|]. split; [|split; [exact U|]].
  - exact (proj2 (formatResponse_throws data Markdown (Some (lit "disks")) TypeError)
             (conj eq_refl (conj eq_refl (or_introl H)))).
  - exact (proj2 (formatResponse_throws list Markdown None TypeError)
             (conj eq_refl (conj eq_refl (or_intror U)))).
Defined.

(* ---------- markdown: the shape of the table ---------- *)

Lemma cell_length v c : cell v = inr c -> List.length c <= 50.
Proof.
  rewrite cell_spec. intros E. injection E as <-.
  destruct v; cbn [spec_cell]; first [rewrite length_firstn; lia | cbn; lia].
Qed.

Lemma cells_shape record keys cs :
  cells record keys = inr cs ->
  List.length cs = List.length keys /\ Forall (fun c => List.length c <= 50) cs.
Proof.
  unfold cells. revert cs. induction keys as [|key keys IH]; cbn [map_result];
    intros cs.
  - intros E. injection E as <-. split; [reflexivity | constructor].
  - destruct (get record key) as [|v]; [discriminate|].
    destruct (cell v) as [|c] eqn:C; [discriminate|].
    destruct (map_result _ keys) as [|cs']; [discriminate|].
    intros E. injection E as <-. destruct (IH cs' eq_refl) as [L F].
    split; [cbn; now rewrite L|].
    constructor; [exact (cell_length v C) | exact F].
Qed.

Lemma rows_shape items keys rs :
  rows items keys = inr rs ->
  exists matrix,
    rs = map row matrix
    /\ List.length matrix = List.length items
    /\ Forall (fun cs => List.length cs = List.length keys
                         /\ Forall (fun c => List.length c <= 50) cs) matrix.
Proof.
  unfold rows. revert rs. induction items as [|item items IH]; cbn [map_result];
    intros rs.
  - intros E. injection E as <-. exists []. repeat split. constructor.
  - destruct (cells item keys) as [|cs] eqn:C; [discriminate|].
    destruct (map_result _ items) as [|rs']; [discriminate|].
    intros E. injection E as <-. destruct (IH rs' eq_refl) as (matrix & -> & L & F).
    exists (cs :: matrix). repeat split; [cbn; now rewrite L|].
    constructor; [now apply cells_shape with (record := item) | exact F].
Qed.

(** X4. When [formatArrayAsMarkdown] answers a table, the table has at
    most six columns, one row per item, as many cells in every row as
    there are columns, and no cell longer than 50 code units. *)
Theorem markdown_table_is_rectangular first rest resourceType t :
  typeof_object first = true ->
  is_null first = false ->
  formatArrayAsMarkdown (first :: rest) resourceType = inr t ->
  let columns := firstn 6 (Object_keys first) in
  exists matrix,
    t = JS.join JS.nl
          (row columns :: row (map (fun _ => lit "---") columns) :: map row matrix)
    /\ List.length columns <= 6
    /\ List.length matrix = S (List.length rest)
    /\ Forall (fun cs => List.length cs = List.length columns
                         /\ Forall (fun c => List.length c <= 50) cs) matrix.
Proof.
  intros O N. cbn [formatArrayAsMarkdown]. rewrite O, N. cbn [negb orb]. cbv zeta.
  destruct (rows (first :: rest) (firstn 6 (Object_keys first))) as [|rs] eqn:R;
    [discriminate|].
  intros E. injection E as <-.
  destruct (rows_shape _ _ R) as (matrix & -> & L & F).
  exists matrix. repeat split; auto. rewrite length_firstn. lia.
Qed.

Lemma markdown_table_is_rectangular_witness :
  let first := VObj [(lit "name", VStr "a"); (lit "labels", VObj [])] in
  let rest := [VObj [(lit "name", VStr "b")]] in
  typeof_object first = true
  /\ is_null first = false
  /\ exists t matrix,
       formatArrayAsMarkdown (first :: rest) None = inr t
       /\ t = JS.join JS.nl
                (row [lit "name"; lit "labels"]
                 :: row [lit "---"; lit "---"] :: map row matrix)
       /\ List.length matrix = 2.
Proof.
  intros first rest. split; [reflexivity|]. split; [reflexivity|].
  eexists.
  destruct (@markdown_table_is_rectangular first rest None _ eq_refl eq_refl eq_refl)
    as (matrix & E & _ & L & _).
  exists matrix. split; [reflexivity|]. split; [exact E | exact L].
Defined.

(* ================================================================== *)
(** ** [Retry-After] *)
(* ================================================================== *)

Module ParseIntFacts.

Lemma digits_seen d acc :
  ParseInt.digits (lit (NilEmpty.string_of_uint d)) true acc = Some (uint_value d acc).
Proof.
  revert acc. induction d; intros acc; cbn [NilEmpty.string_of_uint uint_value];
    [reflexivity|..]; rewrite lit_String; cbn [ParseInt.digits];
    match goal with
    | |- context [ParseInt.is_digit ?c] =>
        change (ParseInt.is_digit c) with true; cbv iota
    end;
    rewrite IHd; do 2 f_equal; cbn; lia.
Qed.

Lemma digits_unseen d acc :
  d <> Decimal.Nil ->
  ParseInt.digits (lit (NilEmpty.string_of_uint d)) false acc = Some (uint_value d acc).
Proof.
  destruct d; intros H; [contradiction|..];
    cbn [NilEmpty.string_of_uint uint_value]; rewrite lit_String;
    cbn [ParseInt.digits];
    match goal with
    | |- context [ParseInt.is_digit ?c] =>
        change (ParseInt.is_digit c) with true; cbv iota
    end;
    rewrite digits_seen; do 2 f_equal; cbn; lia.
Qed.

Lemma uint_value_acc d acc :
  uint_value d (Z.pos acc) = Z.pos (Pos.of_uint_acc d acc).
Proof.
  revert acc. induction d; intros acc; cbn [uint_value Pos.of_uint_acc];
    [reflexivity|..];
    match goal with
    | |- uint_value _ ?z = Z.pos (Pos.of_uint_acc _ ?p) =>
        replace z with (Z.pos p) by lia
    end; apply IHd.
Qed.

Lemma uint_value_of_uint d : uint_value d 0 = Z.of_uint d.
Proof.
  unfold Z.of_uint. induction d; cbn [uint_value Pos.of_uint];
    [reflexivity | exact IHd |..];
    match goal with
    | |- uint_value _ ?z = Z.of_N (N.pos (Pos.of_uint_acc _ ?p)) =>
        change z with (Z.pos p)
    end; apply uint_value_acc.
Qed.

Lemma digits_of_uint d :
  ParseInt.digits (lit (NilZero.string_of_uint d)) false 0 = Some (Z.of_uint d).
Proof.
  destruct (Decimal.uint_eq_dec d Decimal.Nil) as [->|H]; [reflexivity|].
  rewrite <- uint_value_of_uint, <- (digits_unseen 0 H).
  now destruct d.
Qed.

Lemma starts_with_digit d :
  exists c rest,
    lit (NilZero.string_of_uint d) = c :: rest
    /\ ParseInt.is_whitespace c = false /\ c <> 45%N /\ c <> 43%N.
Proof.
  destruct d; cbn [NilZero.string_of_uint NilEmpty.string_of_uint];
    rewrite lit_String; do 2 eexists; (split; [reflexivity|]);
    repeat split; discriminate.
Qed.

Lemma parseInt_of_Z n : ParseInt.parseInt (JS.of_Z n) = Some n.
Proof.
  unfold JS.of_Z. rewrite <- (DecimalZ.of_to n) at 2.
  destruct (Z.to_int n) as [d|d]; cbn [NilZero.string_of_int Z.of_int].
  - destruct (starts_with_digit d) as (c & rest & E & W & M & P).
    unfold ParseInt.parseInt. pose proof (digits_of_uint d) as D.
    rewrite E in *. cbn [ParseInt.skip_whitespace]. rewrite W.
    destruct c as [|p]; [exact D|].
    do 6 (destruct p as [p|p|]; try exact D); congruence.
  - rewrite lit_String. unfold ParseInt.parseInt.
    change (N_of_ascii "-") with 45%N.
    cbn [ParseInt.skip_whitespace].
    change (ParseInt.is_whitespace 45) with false. cbv iota.
    now rewrite digits_of_uint.
Qed.

Lemma of_Z_nonempty n : JS.of_Z n <> [].
Proof.
  unfold JS.of_Z. destruct (Z.to_int n) as [d|d]; cbn [NilZero.string_of_int].
  - destruct (starts_with_digit d) as (c & rest & -> & _). discriminate.
  - rewrite lit_String. discriminate.
Qed.

End ParseIntFacts.

(** X5. On a 429 the error carries the seconds of [Retry-After]: the
    integer that the header spells, when it is one of at most 2^53 - 1
    that a double holds as it is, 60 without a header or with an empty
    one, and [NaN] when the header does not begin with a number. *)
Theorem rate_limit_retry_after url response :
  status response = 429%Z ->
  (forall n, (Z.abs n <= 9007199254740991)%Z ->
     retry_after response = Some (JS.of_Z n) ->
     read_response url response = inl (RateLimitError "Rate limit exceeded" (Some n)))
  /\ (nonempty (retry_after response) = None ->
      read_response url response
      = inl (RateLimitError "Rate limit exceeded" (Some 60%Z)))
  /\ (forall c rest,
        retry_after response = Some (c :: rest) ->
        ParseInt.is_whitespace c = false ->
        ParseInt.is_digit c = false ->
        c <> 45%N -> c <> 43%N ->
        read_response url response
        = inl (RateLimitError "Rate limit exceeded" None)).
Proof.
  intros S. unfold read_response. rewrite S. cbn [Z.eqb Pos.eqb]. cbv iota.
  split; [|split].
  - intros n _ ->. pose proof (ParseIntFacts.of_Z_nonempty n) as N.
    destruct (JS.of_Z n) as [|c rest] eqn:E; [contradiction|].
    cbn [nonempty]. now rewrite <- E, ParseIntFacts.parseInt_of_Z.
  - now intros ->.
  - intros c rest -> W D M P. cbn [nonempty]. unfold ParseInt.parseInt.
    cbn [ParseInt.skip_whitespace]. rewrite W.
    destruct c as [|p]; [cbn [ParseInt.digits]; now rewrite D|].
    do 6 (destruct p as [p|p|]; try (cbn [ParseInt.digits]; now rewrite D));
      congruence.
Qed.

Lemma rate_limit_retry_after_witness :
  let response := {| status := 429; retry_after := Some (lit "120"); json := None |} in
  status response = 429%Z
  /\ read_response (lit "u") response
     = inl (RateLimitError "Rate limit exceeded" (Some 120%Z)).
Proof.
  intros response. split; [reflexivity|].
  refine (proj1 (@rate_limit_retry_after (lit "u") response eq_refl) 120%Z _ eq_refl).
  cbn. lia.
Defined.

(* ================================================================== *)
(** ** Methods and bodies *)
(* ================================================================== *)

Lemma compact_object_text props :
  exists rest, JSON.compact (VObj props) = Some (lit "{" ++ rest).
Proof. cbn [JSON.compact]. eexists. reflexivity. Qed.

Section Requests.

Variable fetch : list Request -> Request -> option Response.
Variable credentials : TenantCredentials.
Variable describe : Exn -> ErrorFields.

(** X6. Whatever operation of the client runs, a request without a method
    (a GET) and a DELETE carry no body, and no method other than POST, PUT
    and DELETE is ever set. *)
Theorem requests_are_well_formed c log :
  Forall method_fits_body (sent (invoke fetch credentials describe c) log).
Proof.
  assert (S : Sends 1 method_fits_body (invoke fetch credentials describe c)).
  { destruct c; cbn [invoke];
      sends ltac:(intros; unfold method_fits_body; cbn;
                  first [ reflexivity
                        | left; split; reflexivity
                        | right; left; reflexivity
                        | right; right; reflexivity ]). }
  destruct (sent_of_sends log S) as (x & _ & E & _ & F).
  rewrite E. exact F.
Qed.

(** X7. The body of every request that a tool sends is the compact JSON
    text of an object, never [undefined] and never a bare value: it
    begins with a brace. *)
Theorem tools_send_json_objects t log :
  Forall sends_object (sent (handler fetch credentials describe t) log).
Proof.
  assert (S : Sends (if is_policy_update t then 2 else 1) sends_object
                (handler fetch credentials describe t)).
  { unfold handler.
    destruct t; cbn [attempt is_policy_update];
      sends ltac:(intros; unfold sends_object;
                  cbn [req_body body no_options with_method with_body];
                  first [ left; reflexivity
                        | right;
                          match goal with
                          | |- context [JSON.compact (VObj ?props)] =>
                              destruct (compact_object_text props) as [rest E];
                              exists props, rest; split; [reflexivity | exact E]
                          end ]). }
  destruct (sent_of_sends log S) as (x & _ & E & _ & F).
  rewrite E. exact F.
Qed.

End Requests.

(* ================================================================== *)
(** ** The names of objects in the path *)
(* ================================================================== *)

Module URIFacts.

Lemma upper_hex_plain n : is_delimiter (URI.upper_hex n) = false.
Proof.
  unfold URI.upper_hex, is_delimiter.
  destruct (N.ltb_spec n 10) as [H|H]; cbn [existsb];
    repeat match goal with
           | |- context [N.eqb ?a ?b] => destruct (N.eqb_spec a b); [lia|]
           end; reflexivity.
Qed.

Lemma percent_plain b : forallb (fun c => negb (is_delimiter c)) (URI.percent b) = true.
Proof.
  unfold URI.percent. cbn [forallb]. now rewrite !upper_hex_plain.
Qed.

Lemma unreserved_plain c : URI.is_unreserved c = true -> is_delimiter c = false.
Proof.
  unfold URI.is_unreserved, URI.is_alphanumeric, is_delimiter. cbn [existsb].
  intros H.
  repeat match goal with
         | |- context [N.eqb ?a ?b] =>
             destruct (N.eqb_spec a b) as [->|?]; [discriminate H|]
         end; reflexivity.
Qed.

Lemma flat_map_percent_plain bytes :
  forallb (fun c => negb (is_delimiter c)) (flat_map URI.percent bytes) = true.
Proof.
  induction bytes as [|b bytes IH]; [reflexivity|].
  cbn [flat_map]. now rewrite forallb_app, percent_plain, IH.
Qed.

Lemma encode_points_plain cps t :
  URI.encode_points cps = inr t ->
  forallb (fun c => negb (is_delimiter c)) t = true.
Proof.
  revert t. induction cps as [|[cp|] cps IH]; cbn [URI.encode_points]; intros t.
  - intros E. now injection E as <-.
  - destruct (URI.encode_points cps) as [|t']; [discriminate|].
    intros E. injection E as <-. rewrite forallb_app, (IH t' eq_refl), andb_true_r.
    destruct (URI.is_unreserved cp) eqn:U.
    + cbn [forallb]. now rewrite (unreserved_plain _ U).
    + apply flat_map_percent_plain.
  - discriminate.
Qed.

Lemma encodeURIComponent_plain s t :
  URI.encodeURIComponent s = inr t ->
  Forall (fun c => is_delimiter c = false) t.
Proof.
  intros E. apply encode_points_plain in E. rewrite forallb_forall in E.
  apply Forall_forall. intros c H. specialize (E c H).
  now destruct (is_delimiter c).
Qed.

End URIFacts.

Section Segments.

Variable fetch : list Request -> Request -> option Response.
Variable credentials : TenantCredentials.
Variable describe : Exn -> ErrorFields.

Lemma encoded_request_sent objectName (url : jsstring -> jsstring) options
    (k : value -> M value) log rq :
  (forall v, Pure (k v)) ->
  In rq (sent (bind (lift (URI.encodeURIComponent objectName))
                 (fun encoded =>
                    bind (request fetch credentials (url encoded) options) k)) log) ->
  exists encoded,
    URI.encodeURIComponent objectName = inr encoded
    /\ req_url rq = url encoded
    /\ req_method rq = method options
    /\ Forall (fun c => is_delimiter c = false) encoded.
Proof.
  intros K. destruct (URI.encodeURIComponent objectName) as [e|encoded] eqn:E.
  - cbn. unfold sent. cbn. rewrite skipn_all. intros [].
  - intros H. exists encoded. split; [reflexivity|].
    assert (S : Sends 1 (fun rq => req_url rq = url encoded
                                   /\ req_method rq = method options)
                  (bind (lift (inr encoded))
                     (fun encoded =>
                        bind (request fetch credentials (url encoded) options) k))).
    { apply Sends_bind_ret. apply Sends_bind_r; [|exact K].
      apply Sends_request. intros; split; reflexivity. }
    destruct (sent_of_sends log S) as (x & _ & X & _ & F).
    rewrite X in H. rewrite Forall_forall in F. destruct (F rq H) as [U Me].
    repeat split; auto. now apply URIFacts.encodeURIComponent_plain with (s := objectName).
Qed.

(** X8. The name of an object takes one segment of the path: what
    [getObject] and [deleteObject] put after [/o/] holds no [/], [?], [#]
    or other delimiter, whatever the name. *)
Theorem object_name_is_one_segment bucketName objectName log rq :
  In rq (sent (getObject fetch credentials bucketName objectName) log)
  \/ In rq (sent (deleteObject fetch credentials bucketName objectName) log) ->
  exists encoded,
    URI.encodeURIComponent objectName = inr encoded
    /\ req_url rq
       = lit "https://storage.googleapis.com/storage/v1/b/" ++ bucketName
           ++ lit "/o/" ++ encoded
    /\ Forall (fun c => is_delimiter c = false) encoded.
Proof.
  intros [H|H].
  - unfold getObject in H.
    assert (H' : In rq (sent (bind (lift (URI.encodeURIComponent objectName))
                 (fun encoded =>
                    bind (request fetch credentials
                            (API_URLS.storage +++ "/b/" +++ bucketName +++ "/o/"
                               +++ encoded) no_options) (@ret value))) log)).
    { revert H. unfold sent, bind, lift, ret, throw.
      destruct (URI.encodeURIComponent objectName); [exact (fun H => H)|].
      now destruct (request _ _ _ _ log) as [[?|?] ?]. }
    destruct (encoded_request_sent objectName
                (fun encoded => API_URLS.storage +++ "/b/" +++ bucketName +++ "/o/"
                                  +++ encoded) no_options (@ret value) log rq
                (fun v => Pure_ret v) H') as (encoded & E & U & _ & F).
    exists encoded. repeat split; auto.
  - unfold deleteObject in H.
    destruct (encoded_request_sent objectName
                (fun encoded => API_URLS.storage +++ "/b/" +++ bucketName +++ "/o/"
                                  +++ encoded) (with_method "DELETE")
                (fun _ => ret VUndefined) log rq
                (fun v => Pure_ret VUndefined) H) as (encoded & E & U & _ & F).
    exists encoded. repeat split; auto.
Qed.

End Segments.

Lemma object_name_is_one_segment_witness :
  let response := {| status := 200; retry_after := None; json := Some (VObj []) |} in
  let credentials := {| accessToken := Some (lit "token"); projectId := None |} in
  let rq := {| req_url := lit "https://storage.googleapis.com/storage/v1/b/bucket/o/a%2Fb%3Fc";
               req_method := None; req_headers := auth_headers (lit "token");
               req_body := None |} in
  In rq (sent (getObject (always response) credentials (lit "bucket") (lit "a/b?c")) [])
  /\ exists encoded,
       URI.encodeURIComponent (lit "a/b?c") = inr encoded
       /\ req_url rq
          = lit "https://storage.googleapis.com/storage/v1/b/" ++ lit "bucket"
              ++ lit "/o/" ++ encoded
       /\ Forall (fun c => is_delimiter c = false) encoded.
Proof.
  intros response credentials rq.
  assert (H : In rq (sent (getObject (always response) credentials (lit "bucket")
                             (lit "a/b?c")) [])) by (left; reflexivity).
  split; [exact H|].
  exact (@object_name_is_one_segment (always response) credentials (lit "bucket")
           (lit "a/b?c") [] rq (or_introl H)).
Defined.

(* ================================================================== *)
(** ** The query of [listObjects] *)
(* ================================================================== *)

Section Listing.

Variable fetch : list Request -> Request -> option Response.
Variable credentials : TenantCredentials.


End Listing.


(* ================================================================== *)
(** ** One request and its answer: no content, no transport *)
(* ================================================================== *)

Section Answers.

Variable fetch : list Request -> Request -> option Response.
Variable credentials : TenantCredentials.
Variable describe : Exn -> ErrorFields.

Lemma read_response_no_content url response :
  status response = 204%Z -> read_response url response = inr VUndefined.
Proof. unfold read_response, ok. now intros ->. Qed.

End Answers.

Section Edges.

Variable fetch : list Request -> Request -> option Response.
Variable credentials : TenantCredentials.
Variable describe : Exn -> ErrorFields.

(** X10. A 204 has no body: a tool that reads one resource answers with
    no text and no error flag, and a tool that lists fails on the member
    it reads and answers the error of a [TypeError]. *)
Theorem no_content_answers t log rq response :
  sent (handler fetch credentials describe t) log = [rq] ->
  fetch log rq = Some response ->
  status response = 204%Z ->
  (passes_through t = true ->
   fst (handler fetch credentials describe t log) = inr (text_envelope None false))
  /\ (listed_member t <> None ->
      fst (handler fetch credentials describe t log)
      = inr (formatError describe TypeError)).
Proof.
  intros S F N.
  assert (O : outcome fetch log rq = inr VUndefined).
  { unfold outcome. rewrite F. now apply read_response_no_content. }
  split.
  - intros Ht. destruct (reads_one_resource t Ht) as [Hp Hc].
    rewrite (handler_answers fetch credentials describe t log Hp Hc S), O.
    unfold result_data. now rewrite Ht.
  - intros Hk. destruct (listed_member t) as [key|] eqn:K; [|contradiction].
    destruct (lists t K) as (Ht & Hp & Hc).
    rewrite (handler_answers fetch credentials describe t log Hp Hc S), O.
    unfold result_data. now rewrite Ht, K.
Qed.

(** X11. When [fetch] rejects, the tool answers the error and sends
    nothing more. *)
Theorem transport_failure_is_reported t log pre rq post :
  is_connection_test t = false ->
  sent (handler fetch credentials describe t) log = pre ++ rq :: post ->
  fetch (log ++ pre) rq = None ->
  post = []
  /\ fst (handler fetch credentials describe t log)
     = inr (formatError describe TypeError).
Proof.
  intros Ht S F.
  destruct (handler_fails fetch credentials describe t Ht log) as (extra & E & H).
  rewrite (sent_app _ _ _ E) in S. subst extra.
  apply (H pre rq post TypeError eq_refl). unfold outcome. now rewrite F.
Qed.

End Edges.

Lemma no_content_answers_witness :
  let response := {| status := 204; retry_after := None; json := None |} in
  let credentials := {| accessToken := Some (lit "token"); projectId := None |} in
  let rq := {| req_url := lit "https://storage.googleapis.com/storage/v1/b/b";
               req_method := None; req_headers := auth_headers (lit "token");
               req_body := None |} in
  sent (handler (always response) credentials bare_errors
          (gcloud_get_bucket (lit "b"))) [] = [rq]
  /\ status response = 204%Z
  /\ fst (handler (always response) credentials bare_errors
            (gcloud_get_bucket (lit "b")) [])
     = inr (text_envelope None false).
Proof.
  intros response credentials rq. split; [reflexivity|]. split; [reflexivity|].
  exact (proj1 (@no_content_answers (always response) credentials bare_errors
                  (gcloud_get_bucket (lit "b")) [] rq response
                  eq_refl eq_refl eq_refl) eq_refl).
Defined.

Lemma transport_failure_is_reported_witness :
  let credentials := {| accessToken := Some (lit "token"); projectId := None |} in
  let rq := {| req_url := lit "https://storage.googleapis.com/storage/v1/b/b";
               req_method := None; req_headers := auth_headers (lit "token");
               req_body := None |} in
  let t := gcloud_get_bucket (lit "b") in
  is_connection_test t = false
  /\ sent (handler (fun _ _ => None) credentials bare_errors t) [] = [] ++ rq :: []
  /\ fst (handler (fun _ _ => None) credentials bare_errors t [])
     = inr (formatError bare_errors TypeError).
Proof.
  intros credentials rq t. split; [reflexivity|]. split; [reflexivity|].
  exact (proj2 (@transport_failure_is_reported (fun _ _ => None) credentials
                  bare_errors t [] [] rq [] eq_refl eq_refl eq_refl)).
Defined.

(* ================================================================== *)
(** ** Storing and reading a secret *)
(* ================================================================== *)

Section Secrets.

Variable fetch : list Request -> Request -> option Response.
Variable credentials : TenantCredentials.
Variable describe : Exn -> ErrorFields.

(** X12. A secret comes back as it was stored:
    [gcloud_add_secret_version] called with a token sends one request, a
    POST to the [:addVersion] of the secret whose body is the compact
    JSON text of a payload with [btoa(payload)] as its data, and
    [gcloud_access_secret_version] answers [atob] of the [data] of the
    body, the empty secret included. A body without [data] is answered
    as the empty secret. *)
Theorem secret_value_round_trip projectId secretName version payload log :
  latin1 payload ->
  (forall token,
     nonempty (accessToken credentials) = Some token ->
     sent (handler fetch credentials describe
             (gcloud_add_secret_version projectId secretName payload)) log
     = [{| req_url := API_URLS.secretmanager +++ "/projects/" +++ projectId
                        +++ "/secrets/" +++ secretName +++ ":addVersion";
           req_method := Some (lit "POST");
           req_headers := auth_headers token;
           req_body :=
             JSON.compact
               (VObj [(lit "payload",
                       VObj [(lit "data", VStr (Base64.encode payload))])]) |}])
  /\ (forall rq response body,
        sent (handler fetch credentials describe
                (gcloud_access_secret_version projectId secretName version)) log
        = [rq] ->
        fetch log rq = Some response ->
        read_response (req_url rq) response = inr body ->
        nullish body = false ->
        (get_opt body "data" = VStr (Base64.encode payload) ->
         fst (handler fetch credentials describe
                (gcloud_access_secret_version projectId secretName version) log)
         = inr (text_envelope
                  (JSON.stringify (VObj [(lit "secretName", VStr secretName);
                                         (lit "version", VStr version);
                                         (lit "data", VStr payload)]))
                  false))
        /\ (truthy (get_opt body "data") = false ->
            fst (handler fetch credentials describe
                   (gcloud_access_secret_version projectId secretName version) log)
            = inr (text_envelope
                     (JSON.stringify (VObj [(lit "secretName", VStr secretName);
                                            (lit "version", VStr version);
                                            (lit "data", VStr [])]))
                     false))).
Proof.
  intros L. split.
  - intros token T. unfold handler.
    rewrite sent_catch_pure by (intro; pure). cbn [attempt].
    rewrite sent_bind_pure by (intro; cbv beta; pure).
    unfold addSecretVersion.
    rewrite sent_bind_lift, (Base64Facts.btoa_latin1 L).
    now rewrite (request_sent fetch credentials _ _ log T).
  - intros rq response body S F R N.
    assert (O : outcome fetch log rq = inr body).
    { unfold outcome. now rewrite F. }
    rewrite (handler_answers fetch credentials describe
               (gcloud_access_secret_version projectId secretName version) log
               eq_refl eq_refl S), O.
    cbn [result_data passes_through listed_member confirmation].
    rewrite (get_of_value body "data" N).
    split.
    + intros D. rewrite D.
      destruct payload as [|c payload']; [reflexivity|].
      assert (T : truthy (VStr (Base64.encode (c :: payload'))) = true).
      { cbn [truthy]. destruct (Base64.encode (c :: payload')) eqn:E; [|reflexivity].
        now apply Base64Facts.encode_nil_inv in E. }
      rewrite T. cbn [String_of]. now rewrite (Base64Facts.atob_encode L).
    + intros D. now rewrite D.
Qed.

End Secrets.

Lemma secret_value_round_trip_witness :
  let body := VObj [(lit "data", VStr "aGk=")] in
  let response := {| status := 200; retry_after := None; json := Some body |} in
  let credentials := {| accessToken := Some (lit "token"); projectId := None |} in
  let t := gcloud_access_secret_version (lit "p") (lit "s") (lit "latest") in
  latin1 (lit "hi")
  /\ sent (handler (always response) credentials bare_errors
             (gcloud_add_secret_version (lit "p") (lit "s") (lit "hi"))) []
     = [{| req_url := API_URLS.secretmanager +++ "/projects/" +++ lit "p"
                        +++ "/secrets/" +++ lit "s" +++ ":addVersion";
           req_method := Some (lit "POST");
           req_headers := auth_headers (lit "token");
           req_body :=
             Some (lit "{" ++ JS.dq ++ lit "payload" ++ JS.dq ++ lit ":{"
                     ++ JS.dq ++ lit "data" ++ JS.dq ++ lit ":"
                     ++ JS.dq ++ lit "aGk=" ++ JS.dq ++ lit "}}") |}]
  /\ fst (handler (always response) credentials bare_errors t [])
     = inr (text_envelope
              (JSON.stringify (VObj [(lit "secretName", VStr "s");
                                     (lit "version", VStr "latest");
                                     (lit "data", VStr "hi")]))
              false).
Proof.
  intros body response credentials t.
  assert (L : latin1 (lit "hi")) by (apply Base64Facts.latin1_forallb; reflexivity).
  split; [exact L|].
  destruct (@secret_value_round_trip (always response) credentials
              bare_errors (lit "p") (lit "s") (lit "latest") (lit "hi") [] L)
    as [S R].
  split; [exact (S (lit "token") eq_refl)|].
  exact (proj1 (R _ response body eq_refl eq_refl eq_refl eq_refl) eq_refl).
Defined.

(* ================================================================== *)
(** ** Pulled messages *)
(* ================================================================== *)

Lemma decode_received_ackId rm m :
  decode_received rm = inr m -> get m "ackId" = get rm "ackId".
Proof.
  unfold decode_received. destruct (get rm "ackId") as [|ackId]; [discriminate|].
  cbv zeta.
  match goal with
  | |- match ?x with _ => _ end = _ -> _ => destruct x
  end; [discriminate|].
  intros E. now injection E as <-.
Qed.

Lemma decode_received_error rm e :
  decode_received rm = inl e -> e = TypeError \/ e = InvalidCharacterError.
Proof.
  unfold decode_received. destruct (get rm "ackId") as [e'|ackId] eqn:G.
  - intros E. injection E as <-. left.
    now destruct (get_throws _ _ G).
  - cbv zeta.
    match goal with
    | |- context [if ?b then _ else _] => destruct b
    end; [|discriminate].
    destruct (String_of _) as [e'|d] eqn:S.
    + intros E. injection E as <-. left. exact (String_of_error _ S).
    + destruct (Base64.atob d) as [e'|] eqn:A; [|discriminate].
      intros E. injection E as <-. right.
      unfold Base64.atob in A.
      repeat match type of A with
             | context [match ?x with _ => _ end] => destruct x
             | context [if ?x then _ else _] => destruct x
             end; try discriminate A; now injection A as <-.
Qed.

Section Pulling.

Variable fetch : list Request -> Request -> option Response.
Variable credentials : TenantCredentials.
Variable describe : Exn -> ErrorFields.

(** X13. [gcloud_pull_messages] answers the received messages one for
    one and in their order, each with the [ackId] it came with, or it
    answers an error: one message that cannot be decoded fails the whole
    call. Without [receivedMessages] it answers the empty list. *)
Theorem pulled_messages_correspond projectId subscriptionName maxMessages
    log rq response body :
  let t := gcloud_pull_messages projectId subscriptionName maxMessages in
  sent (handler fetch credentials describe t) log = [rq] ->
  fetch log rq = Some response ->
  read_response (req_url rq) response = inr body ->
  nullish body = false ->
  (forall received,
     get_opt body "receivedMessages" = VArr received ->
     match map_result decode_received received with
     | inr messages =>
         fst (handler fetch credentials describe t log)
         = inr (text_envelope (JSON.stringify (VArr messages)) false)
         /\ Forall2 (fun rm m => decode_received rm = inr m
                                 /\ get m "ackId" = get rm "ackId")
                    received messages
     | inl e =>
         fst (handler fetch credentials describe t log)
         = inr (formatError describe e)
         /\ (e = TypeError \/ e = InvalidCharacterError)
         /\ exists rm, In rm received /\ decode_received rm = inl e
     end)
  /\ (truthy (get_opt body "receivedMessages") = false ->
      fst (handler fetch credentials describe t log)
      = inr (text_envelope (Some (lit "[]")) false)).
Proof.
  intros t S F R N.
  assert (O : outcome fetch log rq = inr body).
  { unfold outcome. now rewrite F. }
  unfold t in *. split.
  - intros received G.
    assert (G' : get body "receivedMessages" = inr (VArr received))
      by now rewrite (get_of_value body _ N), G.
    rewrite (pull_answers fetch credentials describe _ _ _ _ S O G').
    destruct (map_result decode_received received) as [e|messages] eqn:M.
    + split; [reflexivity|].
      destruct (map_result_inl _ _ M) as (rm & I & D).
      split; [now apply decode_received_error with (rm := rm)|]. now exists rm.
    + split; [reflexivity|]. apply map_result_inr in M. clear G G'.
      induction M as [|rm m received messages D _ IH]; constructor; auto.
      split; [exact D | now apply decode_received_ackId].
  - intros T.
    rewrite (handler_answers fetch credentials describe
               (gcloud_pull_messages projectId subscriptionName maxMessages) log
               eq_refl eq_refl S), O.
    cbn [result_data passes_through listed_member confirmation].
    rewrite (get_of_value body _ N). unfold map_array, or_else. now rewrite T.
Qed.

End Pulling.

Lemma pulled_messages_correspond_witness :
  let received :=
    [VObj [(lit "ackId", VStr "ack-1");
           (lit "message", VObj [(lit "data", VStr "aGk=")])];
     VObj [(lit "ackId", VStr "ack-2");
           (lit "message", VObj [(lit "messageId", VStr "2")])]] in
  let body := VObj [(lit "receivedMessages", VArr received)] in
  let response := {| status := 200; retry_after := None; json := Some body |} in
  let credentials := {| accessToken := Some (lit "token"); projectId := None |} in
  let t := gcloud_pull_messages (lit "p") (lit "s") 10 in
  nullish body = false
  /\ exists messages,
       map_result decode_received received = inr messages
       /\ fst (handler (always response) credentials bare_errors t [])
          = inr (text_envelope (JSON.stringify (VArr messages)) false)
       /\ Forall2 (fun rm m => decode_received rm = inr m
                               /\ get m "ackId" = get rm "ackId")
                  received messages.
Proof.
  intros received body response credentials t. split; [reflexivity|].
  pose proof (proj1 (@pulled_messages_correspond (always response) credentials
                       bare_errors (lit "p") (lit "s") 10 [] _ response body
                       eq_refl eq_refl eq_refl eq_refl) received eq_refl) as H.
  destruct (map_result decode_received received) as [e|messages] eqn:M.
  - discriminate M.
  - exists messages. split; [reflexivity|]. exact H.
Defined.

(* ================================================================== *)
(** ** The policy update, the connection test, the generic error *)
(* ================================================================== *)

Section Policy.

Variable fetch : list Request -> Request -> option Response.
Variable credentials : TenantCredentials.
Variable describe : Exn -> ErrorFields.

(** X14. The policy update reads, then writes: the body of the write is
    the compact JSON text of a policy with the version and the etag of
    the policy that was read and the bindings of the call, and none of
    the bindings that were read. When what was read is [null] or
    [undefined], nothing is written. *)
Theorem policy_update_reads_then_writes projectId bindings token log response current :
  let t := gcloud_set_project_iam_policy projectId bindings in
  let read :=
    {| req_url := lit "https://cloudresourcemanager.googleapis.com/v1/projects/"
                    ++ projectId ++ lit ":getIamPolicy";
       req_method := Some (lit "POST");
       req_headers := auth_headers token;
       req_body := Some (lit "{}") |} in
  let write :=
    {| req_url := lit "https://cloudresourcemanager.googleapis.com/v1/projects/"
                    ++ projectId ++ lit ":setIamPolicy";
       req_method := Some (lit "POST");
       req_headers := auth_headers token;
       req_body :=
         JSON.compact
           (VObj [(lit "policy",
                   VObj [(lit "version", get_opt current "version");
                         (lit "bindings",
                          VArr (map (fun b =>
                                       VObj [(lit "role", VStr (fst b));
                                             (lit "members", VArr (map VStr (snd b)))])
                                    bindings));
                         (lit "etag", get_opt current "etag")])]) |} in
  nonempty (accessToken credentials) = Some token ->
  fetch log read = Some response ->
  read_response (req_url read) response = inr current ->
  exact current = true ->
  (nullish current = false ->
   sent (handler fetch credentials describe t) log = [read; write])
  /\ (nullish current = true ->
      sent (handler fetch credentials describe t) log = [read]
      /\ fst (handler fetch credentials describe t log)
         = inr (formatError describe TypeError)).
Proof.
  intros t read write T F R _.
  assert (A : getAuthHeaders credentials = inr (auth_headers token)).
  { unfold getAuthHeaders. now rewrite T. }
  assert (O : outcome fetch log read = inr current).
  { unfold outcome. now rewrite F. }
  pose proof (policy_update_run fetch credentials describe projectId bindings log)
    as P.
  rewrite A in P. cbv zeta in P.
  match type of P with
  | context [outcome fetch log ?r] => change r with read in P
  end.
  rewrite O in P. unfold t, sent. rewrite P.
  split; intros N; rewrite N; cbn [fst snd].
  - rewrite <- app_assoc, skipn_app, skipn_all, Nat.sub_diag. reflexivity.
  - rewrite skipn_app, skipn_all, Nat.sub_diag. now split.
Qed.

End Policy.

Lemma policy_update_reads_then_writes_witness :
  let current := VObj [(lit "version", VNum 1); (lit "etag", VStr "BwWWja0YfJA=");
                       (lit "bindings", VArr [VObj [(lit "role", VStr "roles/owner")]])] in
  let response := {| status := 200; retry_after := None; json := Some current |} in
  let credentials := {| accessToken := Some (lit "token"); projectId := None |} in
  let t := gcloud_set_project_iam_policy (lit "p")
             [(lit "roles/viewer", [lit "user:a@example.com"])] in
  nonempty (accessToken credentials) = Some (lit "token")
  /\ nullish current = false
  /\ map req_body (sent (handler (always response) credentials bare_errors t) [])
     = [Some (lit "{}");
        JSON.compact
          (VObj [(lit "policy",
                  VObj [(lit "version", VNum 1);
                        (lit "bindings",
                         VArr [VObj [(lit "role", VStr "roles/viewer");
                                     (lit "members",
                                      VArr [VStr "user:a@example.com"])]]);
                        (lit "etag", VStr "BwWWja0YfJA=")])])].
Proof.
  intros current response credentials t.
  split; [reflexivity|]. split; [reflexivity|].
  exact (f_equal (map req_body)
           (proj1 (@policy_update_reads_then_writes (always response) credentials
                     bare_errors (lit "p")
                     [(lit "roles/viewer", [lit "user:a@example.com"])]
                     (lit "token") [] response current eq_refl eq_refl eq_refl
                     eq_refl)
              eq_refl)).
Defined.

Section Connection.

Variable fetch : list Request -> Request -> option Response.
Variable credentials : TenantCredentials.
Variable describe : Exn -> ErrorFields.

Lemma testConnection_run log :
  testConnection fetch credentials describe log =
  let failed error :=
    VObj [(lit "connected", VBool false);
          (lit "message",
           if instanceof_Error error then err_message (describe error)
           else VStr "Connection failed")] in
  match nonempty (projectId credentials) with
  | None =>
      (inr (VObj [(lit "connected", VBool false);
                  (lit "message",
                   VStr "No project ID provided. Set X-GCloud-Project-ID header.")]),
       log)
  | Some project =>
      match getAuthHeaders credentials with
      | inl e => (inr (failed e), log)
      | inr headers =>
          let init := {| req_url := API_URLS.compute +++ "/projects/" +++ project;
                         req_method := None; req_headers := headers;
                         req_body := None |} in
          (match outcome fetch log init with
           | inl e => inr (failed e)
           | inr _ =>
               inr (VObj [(lit "connected", VBool true);
                          (lit "message",
                           VStr ("Successfully connected to GCP project: "
                                   +++ project))])
           end, log ++ [init])
      end
  end.
Proof.
  unfold testConnection, try_catch, bind.
  destruct (nonempty (projectId credentials)) as [project|]; [|reflexivity].
  rewrite request_run.
  destruct (getAuthHeaders credentials) as [e|headers]; [reflexivity|].
  cbv zeta. cbn [method body no_options].
  now destruct (outcome fetch log _).
Qed.

(** X15. [testConnection] never throws. Without a project it sends
    nothing; with one it sends at most one request, a GET to the project,
    and it answers [connected: true] exactly when that request returned.
    The tool answers the text of the report and never sets [isError]. *)
Theorem connection_test_reports_outcome log :
  exists connected message,
    fst (testConnection fetch credentials describe log)
    = inr (VObj [(lit "connected", VBool connected); (lit "message", message)])
    /\ fst (handler fetch credentials describe gcloud_test_connection log)
       = inr (text_envelope
                (JSON.stringify
                   (VObj [(lit "connected", VBool connected);
                          (lit "message", message)]))
                false)
    /\ match nonempty (projectId credentials) with
       | None =>
           connected = false
           /\ sent (testConnection fetch credentials describe) log = []
       | Some project =>
           Forall (fun rq =>
                     req_url rq
                     = lit "https://compute.googleapis.com/compute/v1/projects/"
                         ++ project
                     /\ req_method rq = None)
                  (sent (testConnection fetch credentials describe) log)
           /\ List.length (sent (testConnection fetch credentials describe) log) <= 1
           /\ (connected = true <->
               exists rq data,
                 sent (testConnection fetch credentials describe) log = [rq]
                 /\ outcome fetch log rq = inr data)
       end.
Proof.
  pose proof (testConnection_run log) as E. cbv zeta in E.
  unfold handler, try_catch. cbn [attempt]. unfold bind, sent.
  destruct (nonempty (projectId credentials)) as [project|].
  - destruct (getAuthHeaders credentials) as [e|headers].
    + rewrite E. do 2 eexists. cbn [fst snd ret].
      split; [reflexivity|]. split; [reflexivity|].
      rewrite skipn_all. split; [constructor|]. split; [cbn; lia|].
      split; [discriminate|]. intros (rq & data & X & _). discriminate X.
    + rewrite E.
      match goal with
      | |- context [outcome fetch log ?r] =>
          set (init := r) in *; destruct (outcome fetch log init) as [e|data] eqn:O
      end; do 2 eexists; cbn [fst snd ret]; (split; [reflexivity|]);
        (split; [reflexivity|]);
        rewrite skipn_app, skipn_all, Nat.sub_diag;
        cbn [skipn app List.length];
        (split; [repeat constructor|]); (split; [lia|]); split.
      * discriminate.
      * intros (rq & data & X & O'). injection X as <-. congruence.
      * intros _. exists init, data. split; [reflexivity | exact O].
      * reflexivity.
  - rewrite E. do 2 eexists. cbn [fst snd ret].
    split; [reflexivity|]. split; [reflexivity|].
    split; [reflexivity|]. now rewrite skipn_all.
Qed.

End Connection.

(** X16. The message of a [GCloudApiError] is never empty: it is the
    first truthy one of [error.message] and [message] of the body, and
    [API error: <status>] otherwise; the error is thrown only for a
    status outside 200..299. *)
Theorem generic_error_has_a_message url response message statusCode :
  read_response url response = inl (GCloudApiError message statusCode) ->
  statusCode = status response
  /\ ok response = false
  /\ truthy message = true
  /\ message
     = match json response with
       | Some body =>
           if nullish body then VStr ("API error: " +++ JS.of_Z (status response))
           else or_else (or_else (get_opt (get_opt body "error") "message")
                                 (get_opt body "message"))
                        (VStr ("API error: " +++ JS.of_Z (status response)))
       | None => VStr ("API error: " +++ JS.of_Z (status response))
       end.
Proof.
  unfold read_response.
  repeat match goal with
         | |- context [if (status response =? ?n)%Z then _ else _] =>
             destruct (status response =? n)%Z; [discriminate|]
         end.
  destruct (ok response); cbn [negb].
  - destruct (status response =? 204)%Z; [discriminate|].
    destruct (json response); discriminate.
  - cbv zeta. intros E. injection E as <- <-.
    split; [reflexivity|]. split; [reflexivity|].
    assert (D : truthy (VStr ("API error: " +++ JS.of_Z (status response))) = true)
      by reflexivity.
    assert (T : forall a, truthy (or_else a (VStr ("API error: "
                                                     +++ JS.of_Z (status response))))
                          = true).
    { intros a. unfold or_else. destruct (truthy a) eqn:Ta; [exact Ta | exact D]. }
    destruct (json response) as [body|]; [|split; [exact D | reflexivity]].
    destruct (nullish body) eqn:N.
    + destruct body; try discriminate N; split; (exact D || reflexivity).
    + rewrite (get_of_value body "error" N). split; [apply T | reflexivity].
Qed.

Lemma generic_error_has_a_message_witness :
  let body := VObj [(lit "error", VObj [(lit "code", VNum 500)]);
                    (lit "message", VStr "backend unavailable")] in
  let response := {| status := 503; retry_after := None; json := Some body |} in
  read_response (lit "u") response
  = inl (GCloudApiError (VStr "backend unavailable") 503)
  /\ truthy (VStr "backend unavailable") = true.
Proof.
  intros body response. split; [reflexivity|].
  exact (proj1 (proj2 (proj2 (@generic_error_has_a_message (lit "u") response
                                (VStr "backend unavailable") 503%Z eq_refl)))).
Defined.

(* ================================================================== *)
(** ** Optional arguments *)
(* ================================================================== *)

Section Optional.

Variable fetch : list Request -> Request -> option Response.
Variable credentials : TenantCredentials.
Variable describe : Exn -> ErrorFields.

(** The bodies of the requests of a tool whose client operation is one
    request. *)
Ltac bodies T :=
  unfold handler; rewrite sent_catch_pure by (intro; pure);
  cbn [attempt]; cbv zeta;
  rewrite sent_bind_pure by (intro; cbv beta; pure);
  lazymatch goal with
  | |- context [sent ?m _] => let h := head m in unfold h; cbv zeta
  end;
  rewrite (request_sent fetch credentials _ _ _ T);
  cbn [map req_body body with_body].

(** X17. An optional argument that is not given leaves no trace in the
    body: called with a token, the tools that create a disk, a bucket, a
    dataset and a managed zone send one request, whose body is the
    compact JSON text of the members of the arguments that were given
    and of no others. *)
Theorem absent_arguments_are_left_out token log :
  nonempty (accessToken credentials) = Some token ->
  (forall projectId zone name sizeGb type sourceImage,
     map req_body
       (sent (handler fetch credentials describe
                (gcloud_create_disk projectId zone name sizeGb type sourceImage))
          log)
     = [JSON.compact (VObj ([(lit "name", VStr name); (lit "sizeGb", VStr sizeGb)]
                              ++ given "type" type
                              ++ given "sourceImage" sourceImage))])
  /\ (forall projectId name location storageClass,
        map req_body
          (sent (handler fetch credentials describe
                   (gcloud_create_bucket projectId name location storageClass))
             log)
        = [JSON.compact (VObj ([(lit "name", VStr name)]
                                 ++ given "location" location
                                 ++ given "storageClass" storageClass))])
  /\ (forall projectId datasetId location,
        map req_body
          (sent (handler fetch credentials describe
                   (gcloud_create_dataset projectId datasetId location)) log)
        = [JSON.compact (VObj ([(lit "datasetReference",
                                 VObj [(lit "datasetId", VStr datasetId);
                                       (lit "projectId", VStr projectId)])]
                                 ++ given "location" location))])
  /\ (forall projectId name dnsName description visibility,
        map req_body
          (sent (handler fetch credentials describe
                   (gcloud_create_managed_zone projectId name dnsName
                      description visibility)) log)
        = [JSON.compact (VObj ([(lit "name", VStr name); (lit "dnsName", VStr dnsName)]
                                 ++ given "description" description
                                 ++ [(lit "visibility", VStr visibility)]))]).
Proof.
  intros T. repeat split; intros; bodies T;
    repeat match goal with
           | o : option jsstring |- _ => destruct o
           end; reflexivity.
Qed.

End Optional.

Lemma absent_arguments_are_left_out_witness :
  let response := {| status := 200; retry_after := None; json := Some (VObj []) |} in
  let credentials := {| accessToken := Some (lit "token"); projectId := None |} in
  let t := gcloud_create_bucket (lit "p") (lit "b") None (Some (lit "NEARLINE")) in
  nonempty (accessToken credentials) = Some (lit "token")
  /\ map req_body (sent (handler (always response) credentials bare_errors t) [])
     = [Some (lit "{" ++ JS.dq ++ lit "name" ++ JS.dq ++ lit ":"
                ++ JS.dq ++ lit "b" ++ JS.dq ++ lit ","
                ++ JS.dq ++ lit "storageClass" ++ JS.dq ++ lit ":"
                ++ JS.dq ++ lit "NEARLINE" ++ JS.dq ++ lit "}")].
Proof.
  intros response credentials t. split; [reflexivity|].
  exact (proj1 (proj2 (@absent_arguments_are_left_out (always response) credentials
                         bare_errors (lit "token") [] eq_refl))
           (lit "p") (lit "b") None (Some (lit "NEARLINE"))).
Defined.

(* ================================================================== *)
(** ** The worker *)
(* ================================================================== *)

Lemma JS_eqb_eq a b : JS.eqb a b = true <-> a = b.
Proof.
  revert b. induction a as [|x a IH]; intros [|y b]; cbn [JS.eqb];
    try (split; [discriminate | discriminate]); [now split|].
  rewrite andb_true_iff, N.eqb_eq, IH. split.
  - now intros [-> ->].
  - intros E. now injection E.
Qed.

Section Gate.

Variable parseTenantCredentials : Worker.Incoming -> TenantCredentials.
Variable validateCredentials : TenantCredentials -> result unit.
Variable describe : Exn -> ErrorFields.

(** X18. The worker hands a request to the MCP handler only when it is a
    POST to [/mcp] whose credentials were accepted, and then with the
    credentials of that request. Whatever else arrives is answered on the
    spot: 401 for a POST to [/mcp] with credentials that were refused, 501
    for [/sse], 200 otherwise; [/health] is answered whatever the method
    and the credentials. *)
Theorem worker_serves_validated_requests request :
  match Worker.fetch parseTenantCredentials validateCredentials describe request with
  | Worker.Delegated credentials =>
      Worker.pathname request = lit "/mcp"
      /\ Worker.http_method request = lit "POST"
      /\ credentials = parseTenantCredentials request
      /\ exists u, validateCredentials credentials = inr u
  | Worker.Answered response =>
      (Worker.out_status response = 401%Z
       /\ Worker.pathname request = lit "/mcp"
       /\ Worker.http_method request = lit "POST"
       /\ exists e, validateCredentials (parseTenantCredentials request) = inl e)
      \/ (Worker.out_status response = 501%Z
          /\ Worker.pathname request = lit "/sse")
      \/ (Worker.out_status response = 200%Z
          /\ Worker.pathname request <> lit "/sse"
          /\ (Worker.pathname request = lit "/mcp" ->
              Worker.http_method request <> lit "POST"))
  end
  /\ (Worker.pathname request = lit "/health" ->
      exists body,
        Worker.fetch parseTenantCredentials validateCredentials describe request
        = Worker.Answered {| Worker.out_status := 200;
                             Worker.content_type := Some (lit "application/json");
                             Worker.out_body := Some body |}).
Proof.
  unfold Worker.fetch. split.
  - destruct (JS.eqb (Worker.pathname request) "/health") eqn:H.
    { apply JS_eqb_eq in H. right; right. rewrite H.
      split; [reflexivity|]. split; discriminate. }
    destruct (JS.eqb (Worker.pathname request) "/mcp") eqn:P; cbn [andb].
    + apply JS_eqb_eq in P.
      destruct (JS.eqb (Worker.http_method request) "POST") eqn:Me.
      * apply JS_eqb_eq in Me. cbv zeta.
        destruct (validateCredentials (parseTenantCredentials request)) as [e|u] eqn:V.
        -- left. repeat split; auto. now exists e.
        -- repeat split; auto. now exists u.
      * rewrite P. cbn [JS.eqb N.eqb Pos.eqb andb]. right; right.
        split; [reflexivity|]. split; [discriminate|].
        intros _ E. apply JS_eqb_eq in E. congruence.
    + destruct (JS.eqb (Worker.pathname request) "/sse") eqn:S.
      * apply JS_eqb_eq in S. right; left. now split.
      * right; right. split; [reflexivity|]. split.
        -- intros E. apply JS_eqb_eq in E. congruence.
        -- intros E. apply JS_eqb_eq in E. congruence.
  - intros ->. eexists. reflexivity.
Qed.

End Gate.

Lemma worker_serves_validated_requests_witness :
  let parse (_ : Worker.Incoming) := {| accessToken := None; projectId := None |} in
  let validate (c : TenantCredentials) : result unit :=
    match nonempty (accessToken c) with
    | Some _ => inr tt
    | None => inl no_token
    end in
  let probe := {| Worker.pathname := lit "/health"; Worker.http_method := lit "GET";
                  Worker.headers := [] |} in
  Worker.pathname probe = lit "/health"
  /\ exists body,
       Worker.fetch parse validate bare_errors probe
       = Worker.Answered {| Worker.out_status := 200;
                            Worker.content_type := Some (lit "application/json");
                            Worker.out_body := Some body |}.
Proof.
  intros parse validate probe. split; [reflexivity|].
  exact (proj2 (worker_serves_validated_requests parse validate bare_errors probe)
           eq_refl).
Defined.

(* ================================================================== *)
(** ** Confirmations, and the text of an error *)
(* ================================================================== *)

Section Confirmations.

Variable fetch : list Request -> Request -> option Response.
Variable credentials : TenantCredentials.
Variable describe : Exn -> ErrorFields.

(** X19. A tool that changes something answers a confirmation when its
    request succeeded: the JSON text of [success: true], the message of
    the tool, and after them nothing, or the body that the provider
    returned under the key of the tool, or, for publishing, the
    [messageIds] of that body. *)
Theorem mutations_are_confirmed t log rq body message carried :
  confirmation t = Some (message, carried) ->
  is_policy_update t = false ->
  sent (handler fetch credentials describe t) log = [rq] ->
  outcome fetch log rq = inr body ->
  exact body = true ->
  match carried with
  | MemberOf _ member => nullish body = false /\ inherits body member = false
  | _ => True
  end ->
  fst (handler fetch credentials describe t log)
  = inr (text_envelope
           (JSON.stringify
              (VObj ((lit "success", VBool true)
                       :: (lit "message", VStr message)
                       :: match carried with
                          | Nothing => []
                          | TheBody key => [(key, body)]
                          | MemberOf key member => [(key, get_opt body member)]
                          end)))
           false).
Proof.
  intros Hk Hp S O _ G. destruct (confirms t Hk) as (Ht & Hl & Hc).
  rewrite (handler_answers fetch credentials describe t log Hp Hc S), O.
  unfold result_data. rewrite Ht, Hl, Hk.
  destruct carried as [|key|key member]; try reflexivity.
  destruct G as [N _]. now rewrite (get_of_value body member N).
Qed.

(** X20. The secret that [gcloud_create_secret] asks for is replicated
    automatically, whether [automatic] is set or not: without it the tool
    gives no replication and the client puts the automatic one in its
    place. Called with a token, the tool sends one request, a POST whose
    body is the compact JSON text of that replication. *)
Theorem secret_replication_is_automatic projectId secretId automatic token log :
  nonempty (accessToken credentials) = Some token ->
  sent (handler fetch credentials describe
          (gcloud_create_secret projectId secretId automatic)) log
  = [{| req_url := lit "https://secretmanager.googleapis.com/v1/projects/"
                     ++ projectId ++ lit "/secrets?secretId=" ++ secretId;
        req_method := Some (lit "POST");
        req_headers := auth_headers token;
        req_body :=
          JSON.compact
            (VObj [(lit "replication", VObj [(lit "automatic", VObj [])])]) |}].
Proof.
  intros T. unfold handler. rewrite sent_catch_pure by (intro; pure).
  cbn [attempt]. cbv zeta.
  rewrite sent_bind_pure by (intro; cbv beta; pure).
  unfold createSecret. rewrite (request_sent fetch credentials _ _ log T).
  now destruct automatic.
Qed.

(** X21. Whatever [Error] is thrown, and whatever else that [String]
    converts, [formatError] answers one text with [isError: true], and
    the text is that of a JSON object whose first member is
    [error: true]. For a value that is no [Error], [formatError] throws
    when [String] cannot convert the value, an object with a property of
    its own named [toString] or an array of such, and answers the text
    that [String] gives otherwise. *)
Theorem formatError_always_flags error :
  (exists rest,
     formatError describe error
     = text_envelope
         (Some (lit "{" ++ JS.nl ++ lit "  " ++ JSON.quote (lit "error")
                  ++ lit ": true" ++ rest ++ JS.nl ++ lit "}"))
         true)
  /\ (forall v,
        match formatError_value describe v with
        | inl e => e = TypeError /\ unprintable v = true
        | inr env =>
            unprintable v = false
            /\ exists text,
                 String_of v = inr text
                 /\ env = text_envelope
                            (JSON.stringify (VObj [(lit "error", VBool true);
                                                   (lit "message", VStr text)]))
                            true
        end).
Proof.
  split.
  - unfold formatError, text_envelope.
    assert (T : forall members,
               exists rest,
                 JSON.stringify (VObj ((lit "error", VBool true) :: members))
                 = Some (lit "{" ++ JS.nl ++ lit "  " ++ JSON.quote (lit "error")
                           ++ lit ": true" ++ rest ++ JS.nl ++ lit "}")).
    { intros members. unfold JSON.stringify. cbn [JSON.serialize].
      match goal with
      | |- context [JS.join ?sep (?p :: ?l)] =>
          destruct (join_cons sep p l) as [tail E];
          set (j := JS.join sep (p :: l)); change (j = p ++ tail) in E;
          clearbody j; subst j
      end.
      exists tail. rewrite <- !app_assoc. reflexivity. }
    destruct error;
      match goal with
      | |- context [JSON.stringify (error_payload _ _)] => unfold error_payload
      | _ => idtac
      end;
      match goal with
      | |- context [JSON.stringify (VObj (_ :: ?members))] =>
          destruct (T members) as [rest E]; exists rest; now rewrite E
      end.
  - intros v. unfold formatError_value.
    destruct (String_of v) as [e|text] eqn:S.
    + now apply String_of_throws.
    + split; [|exists text; split; reflexivity].
      destruct (unprintable v) eqn:U; [|reflexivity].
      pose proof (proj2 (String_of_throws v TypeError) (conj eq_refl U)) as K.
      rewrite S in K. discriminate K.
Qed.

End Confirmations.

Lemma mutations_are_confirmed_witness :
  let body := VObj [(lit "messageIds", VArr [VStr "1"])] in
  let response := {| status := 200; retry_after := None; json := Some body |} in
  let credentials := {| accessToken := Some (lit "token"); projectId := None |} in
  let t := gcloud_publish_message (lit "p") (lit "t") (lit "hi") None in
  confirmation t = Some (lit "Message published",
                         MemberOf (lit "messageIds") (lit "messageIds"))
  /\ fst (handler (always response) credentials bare_errors t [])
     = inr (text_envelope
              (JSON.stringify
                 (VObj [(lit "success", VBool true);
                        (lit "message", VStr "Message published");
                        (lit "messageIds", VArr [VStr "1"])]))
              false).
Proof.
  intros body response credentials t. split; [reflexivity|].
  exact (@mutations_are_confirmed (always response) credentials bare_errors
           t [] _ body _ _ eq_refl eq_refl eq_refl eq_refl eq_refl
           (conj eq_refl eq_refl)).
Defined.

Lemma secret_replication_is_automatic_witness :
  let response := {| status := 200; retry_after := None; json := Some (VObj []) |} in
  let credentials := {| accessToken := Some (lit "token"); projectId := None |} in
  let t := gcloud_create_secret (lit "p") (lit "s") false in
  nonempty (accessToken credentials) = Some (lit "token")
  /\ map req_body (sent (handler (always response) credentials bare_errors t) [])
     = [Some (lit "{" ++ JS.dq ++ lit "replication" ++ JS.dq ++ lit ":{"
                ++ JS.dq ++ lit "automatic" ++ JS.dq ++ lit ":{}}}")].
Proof.
  intros response credentials t. split; [reflexivity|].
  exact (f_equal (map req_body)
           (@secret_replication_is_automatic (always response) credentials
              bare_errors (lit "p") (lit "s") false (lit "token") [] eq_refl)).
Defined.

(* ================================================================== *)
(** ** The token and the headers *)
(* ================================================================== *)

Section TwoTenants.

Variables fetch1 fetch2 : list Request -> Request -> option Response.
Variables credentials1 credentials2 : TenantCredentials.

Hypothesis token1 : nonempty (accessToken credentials1) <> None.
Hypothesis token2 : nonempty (accessToken credentials2) <> None.

Lemma Alike_pure A B (m1 : M A) (m2 : M B) : Pure m1 -> Pure m2 -> Alike m1 m2.
Proof.
  intros H1 H2 log1 log2. exists [], [].
  now rewrite (Pure_snd log1 H1), (Pure_snd log2 H2), !app_nil_r.
Qed.

Lemma Alike_request url options :
  Alike (request fetch1 credentials1 url options)
        (request fetch2 credentials2 url options).
Proof.
  intros log1 log2. rewrite !request_run. unfold getAuthHeaders.
  destruct (nonempty (accessToken credentials1)); [|contradiction].
  destruct (nonempty (accessToken credentials2)); [|contradiction].
  eexists [_], [_]. repeat split; reflexivity.
Qed.

Lemma Alike_bind_lift A B C (r : result A) (k1 : A -> M B) (k2 : A -> M C) :
  (forall a, Alike (k1 a) (k2 a)) -> Alike (bind (lift r) k1) (bind (lift r) k2).
Proof.
  intros H log1 log2. destruct r as [e|a]; cbn.
  - exists [], []. now rewrite !app_nil_r.
  - apply H.
Qed.

Lemma Alike_bind A1 A2 B C (m1 : M A1) (m2 : M A2) (k1 : A1 -> M B) (k2 : A2 -> M C) :
  Alike m1 m2 -> (forall a, Pure (k1 a)) -> (forall a, Pure (k2 a)) ->
  Alike (bind m1 k1) (bind m2 k2).
Proof.
  intros H H1 H2 log1 log2. destruct (H log1 log2) as (x1 & x2 & E1 & E2 & U).
  exists x1, x2. unfold bind.
  destruct (m1 log1) as [[e1|a1] l1], (m2 log2) as [[e2|a2] l2];
    cbn [snd] in *; subst;
    rewrite ?(Pure_snd _ (H1 _)), ?(Pure_snd _ (H2 _)); auto.
Qed.

Lemma Alike_catch A1 A2 (m1 : M A1) (m2 : M A2) h1 h2 :
  Alike m1 m2 -> (forall e, Pure (h1 e)) -> (forall e, Pure (h2 e)) ->
  Alike (try_catch m1 h1) (try_catch m2 h2).
Proof.
  intros H H1 H2 log1 log2. destruct (H log1 log2) as (x1 & x2 & E1 & E2 & U).
  exists x1, x2. unfold try_catch.
  destruct (m1 log1) as [[e1|a1] l1], (m2 log2) as [[e2|a2] l2];
    cbn [snd] in *; subst;
    rewrite ?(Pure_snd _ (H1 _)), ?(Pure_snd _ (H2 _)); auto.
Qed.

End TwoTenants.

Ltac alike T1 T2 :=
  cbv zeta;
  lazymatch goal with
  | |- Alike (request _ _ _ _) (request _ _ _ _) =>
      apply Alike_request; [exact T1 | exact T2]
  | |- Alike (bind (lift _) _) (bind (lift _) _) =>
      apply Alike_bind_lift; intro; alike T1 T2
  | |- Alike (bind _ _) (bind _ _) =>
      apply Alike_bind; [alike T1 T2 | intro; pure | intro; pure]
  | |- Alike (try_catch _ _) (try_catch _ _) =>
      apply Alike_catch; [alike T1 T2 | intro; pure | intro; pure]
  | |- Alike (match ?x with _ => _ end) _ => destruct x; alike T1 T2
  | |- Alike ?m1 ?m2 =>
      first [ solve [apply Alike_pure; pure]
            | let h1 := head m1 in unfold h1; alike T1 T2 ]
  end.

Section Headers.

Variables fetch1 fetch2 : list Request -> Request -> option Response.
Variables credentials1 credentials2 : TenantCredentials.
Variables describe1 describe2 : Exn -> ErrorFields.

(** X22. The token goes into the headers and nowhere else: two tenants
    with a token each and the same project, who call the same tool with
    the same arguments, send requests with the same URL, method and body,
    whatever their tokens are and whatever is answered. *)
Theorem token_stays_in_the_headers t log1 log2 :
  nonempty (accessToken credentials1) <> None ->
  nonempty (accessToken credentials2) <> None ->
  projectId credentials1 = projectId credentials2 ->
  is_policy_update t = false ->
  map unsigned (sent (handler fetch1 credentials1 describe1 t) log1)
  = map unsigned (sent (handler fetch2 credentials2 describe2 t) log2).
Proof.
  intros T1 T2 P Ht.
  assert (A : Alike (handler fetch1 credentials1 describe1 t)
                    (handler fetch2 credentials2 describe2 t)).
  { unfold handler.
    destruct t; try discriminate Ht; cbn [attempt];
      try (unfold testConnection; rewrite P); alike T1 T2. }
  destruct (A log1 log2) as (x1 & x2 & E1 & E2 & U).
  now rewrite (sent_app _ _ _ E1), (sent_app _ _ _ E2).
Qed.

End Headers.

Lemma token_stays_in_the_headers_witness :
  let response := {| status := 200; retry_after := None; json := Some (VObj []) |} in
  let alice := {| accessToken := Some (lit "alice"); projectId := None |} in
  let bob := {| accessToken := Some (lit "bob"); projectId := None |} in
  let t := gcloud_publish_message (lit "p") (lit "t") (lit "hi") None in
  nonempty (accessToken alice) <> None
  /\ nonempty (accessToken bob) <> None
  /\ map req_headers (sent (handler (always response) alice bare_errors t) [])
     <> map req_headers (sent (handler (always response) bob bare_errors t) [])
  /\ map unsigned (sent (handler (always response) alice bare_errors t) [])
     = map unsigned (sent (handler (always response) bob bare_errors t) []).
Proof.
  intros response alice bob t.
  assert (T1 : nonempty (accessToken alice) <> None) by discriminate.
  assert (T2 : nonempty (accessToken bob) <> None) by discriminate.
  split; [exact T1|]. split; [exact T2|]. split; [discriminate|].
  exact (@token_stays_in_the_headers (always response) (always response) alice bob
           bare_errors bare_errors t [] [] T1 T2 eq_refl eq_refl).
Defined.
